(** * Robinhood_AI_Trading: the analysis-and-decision pipeline

    A shallow embedding of [src/Robinhood_AI_Trading.py]: the indicator
    engine over pandas-style tables, the signal fetches with their
    per-source guards, the schema-constrained exchange with the oracle and
    the decision ledger.

    Python floats are kept behind an interface ([Float]) with two
    instances: [B64], IEEE-754 binary64 as CPython computes it (bit for
    bit, from the Standard Library's [SpecFloat]), and [Ideal], exact real
    arithmetic with the IEEE special values, used where a statement of
    the specification is about the mathematics of an indicator.

    Objects that the program mutates in place (the DataFrames) live on a
    heap and are passed by reference.  What leaves the process (the
    brokerage, the news and sentiment providers, the transcript service,
    the oracle, the translator) is a [World] of answers, each a value or
    an exception; every such call is recorded in a trace.  Text that the
    program converts at once (prices, volumes, timestamps, the JSON of
    the oracle) is given with the value it converts to.  Logging has no
    effect on any result and is left out; the ledger store is taken to
    be available.  A Python [str] is a [string] that holds its UTF-8
    encoding, one byte per character of the [string]; the text of a
    chat message, which the symbol pattern reads character by
    character, is a list of Unicode code points.  What the libraries do
    with the values the program hands them is part of the model where a
    result depends on it: pydantic's lax conversions, the JSON writer
    of pandas, and the way SQLite binds and stores a value. *)

From Stdlib Require Import ZArith NArith List Bool String Ascii DecimalString Lia.
From Stdlib Require Import SpecFloat.
From Stdlib Require Import Reals Lra.
Import ListNotations.

Set Implicit Arguments.
Set Warnings "-register-all".

(* ------------------------------------------------------------------ *)
(** ** Exceptions and results *)

(** A Python exception: its class name and [str(e)]. *)
Record exn := Exn { exn_class : string; exn_msg : string }.

(** What a call does: it returns a value or raises. *)
Inductive outcome (A : Type) : Type :=
| Returns (a : A)
| Raises (e : exn).
Arguments Returns {A} a.
Arguments Raises {A} e.

Definition returned {A} (o : outcome A) : bool :=
  match o with Returns _ => true | Raises _ => false end.

(* ------------------------------------------------------------------ *)
(** ** Python floats *)

(** The operations the program applies to [float] values (and to the
    float64 cells of a pandas column). *)
Class Float (F : Type) : Type := {
  f_of_Z : Z -> F;               (* int -> float *)
  f_nan : F;
  f_add : F -> F -> F;
  f_sub : F -> F -> F;
  f_mul : F -> F -> F;
  f_div : F -> F -> F;           (* numpy division: x/0 is inf or nan *)
  f_neg : F -> F;
  f_sqrt : F -> F;
  f_isnan : F -> bool;           (* x != x *)
  f_gtb : F -> F -> bool;        (* x > y *)
  f_ltb : F -> F -> bool;        (* x < y *)
  f_neb : F -> F -> bool;        (* x != y *)
  f_to_int : F -> option Z;      (* the integer x is, when it is one *)
  f_round : nat -> F -> F        (* round(x, ndigits) *)
}.

(** [n / d] for [0 <= n], [0 < d], to the nearest integer, ties to even. *)
Definition round_half_even_div (n d : Z) : Z :=
  let q := (n / d)%Z in
  let r := (n mod d)%Z in
  match (2 * r ?= d)%Z with
  | Lt => q
  | Gt => (q + 1)%Z
  | Eq => if Z.even q then q else (q + 1)%Z
  end.

(** *** IEEE-754 binary64 *)
Module B64.

Definition prec : Z := 53.
Definition emax : Z := 1024.

Abbreviation t := spec_float.

Definition of_Z (z : Z) : t := binary_normalize prec emax z 0 false.
Definition add : t -> t -> t := SFadd prec emax.
Definition sub : t -> t -> t := SFsub prec emax.
Definition mul : t -> t -> t := SFmul prec emax.
Definition div : t -> t -> t := SFdiv prec emax.
Definition sqrt : t -> t := SFsqrt prec emax.
Definition isnan (x : t) : bool :=
  match x with S754_nan => true | _ => false end.
Definition gtb (x y : t) : bool := SFltb y x.
Definition ltb (x y : t) : bool := SFltb x y.
Definition eqb (x y : t) : bool := SFeqb x y.
Definition neb (x y : t) : bool := negb (SFeqb x y).

(** The float nearest to the decimal [n / 10^k]: what a float literal or
    a JSON number with that text denotes. *)
Definition dec (n : Z) (k : nat) : t :=
  match n with
  | Z0 => S754_zero false
  | Zpos p => div (S754_finite false p 0) (of_Z (10 ^ Z.of_nat k))
  | Zneg p => div (S754_finite true p 0) (of_Z (10 ^ Z.of_nat k))
  end.

(** CPython's [round(x, ndigits)] for [0 <= ndigits] ([float.__round__],
    [double_round]): the exact binary value of [x] is rounded to
    [ndigits] decimals, ties to even, and the decimal is converted back
    to the nearest float; zeros, infinities and nan round to themselves
    and the sign is kept. *)
Definition round (ndigits : nat) (x : t) : t :=
  match x with
  | S754_finite s m e =>
      let p := (10 ^ Z.of_nat ndigits)%Z in
      let n := if (0 <=? e)%Z then (Zpos m * 2 ^ e * p)%Z
               else round_half_even_div (Zpos m * p) (2 ^ (- e)) in
      match n with
      | Zpos n' => div (S754_finite s n' 0) (of_Z p)
      | _ => S754_zero s
      end
  | _ => x
  end.

(** The integer a float is equal to, if any. *)
Definition to_int (x : t) : option Z :=
  match x with
  | S754_zero _ => Some 0%Z
  | S754_finite s m e =>
      let v := if (0 <=? e)%Z then Some (Zpos m * 2 ^ e)%Z
               else if (Zpos m mod 2 ^ (- e) =? 0)%Z
                    then Some (Zpos m / 2 ^ (- e))%Z
                    else None in
      match v with
      | Some z => Some (if s then (- z)%Z else z)
      | None => None
      end
  | _ => None
  end.

#[global] Instance float : Float t := {
  f_of_Z := of_Z;
  f_nan := S754_nan;
  f_add := add;
  f_sub := sub;
  f_mul := mul;
  f_div := div;
  f_neg := SFopp;
  f_sqrt := sqrt;
  f_isnan := isnan;
  f_gtb := gtb;
  f_ltb := ltb;
  f_neb := neb;
  f_to_int := to_int;
  f_round := round
}.

End B64.

(** *** Exact arithmetic with the IEEE special values

    Finite values are real numbers and no operation rounds; infinities
    and nan follow IEEE-754.  Zero is unsigned and divides as [+0.0]
    does. *)
Module Ideal.

Inductive xreal : Type :=
| XNaN
| XPInf
| XNInf
| XFin (x : R).

Abbreviation t := xreal.

Definition Rltb (x y : R) : bool := if Rlt_dec x y then true else false.
Definition Reqb (x y : R) : bool := if Req_dec_T x y then true else false.

Definition inf (negative : bool) : t := if negative then XNInf else XPInf.

Definition neg (a : t) : t :=
  match a with
  | XNaN => XNaN
  | XPInf => XNInf
  | XNInf => XPInf
  | XFin x => XFin (- x)
  end.

Definition add (a b : t) : t :=
  match a, b with
  | XNaN, _ | _, XNaN => XNaN
  | XPInf, XNInf | XNInf, XPInf => XNaN
  | XPInf, _ | _, XPInf => XPInf
  | XNInf, _ | _, XNInf => XNInf
  | XFin x, XFin y => XFin (x + y)
  end.

Definition sub (a b : t) : t :=
  match a, b with
  | XNaN, _ | _, XNaN => XNaN
  | XPInf, XPInf | XNInf, XNInf => XNaN
  | XPInf, _ | _, XNInf => XPInf
  | XNInf, _ | _, XPInf => XNInf
  | XFin x, XFin y => XFin (x - y)
  end.

Definition mul (a b : t) : t :=
  match a, b with
  | XNaN, _ | _, XNaN => XNaN
  | XFin x, XFin y => XFin (x * y)
  | XFin x, XPInf | XPInf, XFin x =>
      if Reqb x 0 then XNaN else inf (Rltb x 0)
  | XFin x, XNInf | XNInf, XFin x =>
      if Reqb x 0 then XNaN else inf (negb (Rltb x 0))
  | XPInf, XPInf | XNInf, XNInf => XPInf
  | XPInf, XNInf | XNInf, XPInf => XNInf
  end.

Definition div (a b : t) : t :=
  match a, b with
  | XNaN, _ | _, XNaN => XNaN
  | XFin x, XFin y =>
      if Reqb y 0 then
        if Reqb x 0 then XNaN else inf (Rltb x 0)
      else XFin (x / y)
  | XFin _, (XPInf | XNInf) => XFin 0
  | XPInf, XFin y => inf (Rltb y 0)
  | XNInf, XFin y => inf (negb (Rltb y 0))
  | (XPInf | XNInf), (XPInf | XNInf) => XNaN
  end.

Definition sqrt (a : t) : t :=
  match a with
  | XNaN | XNInf => XNaN
  | XPInf => XPInf
  | XFin x => if Rltb x 0 then XNaN else XFin (R_sqrt.sqrt x)
  end.

Definition isnan (a : t) : bool :=
  match a with XNaN => true | _ => false end.

Definition ltb (a b : t) : bool :=
  match a, b with
  | XNaN, _ | _, XNaN => false
  | _, XNInf | XPInf, _ => false
  | XNInf, _ | _, XPInf => true
  | XFin x, XFin y => Rltb x y
  end.

Definition gtb (a b : t) : bool := ltb b a.

Definition neb (a b : t) : bool :=
  match a, b with
  | XNaN, _ | _, XNaN => true
  | XPInf, XPInf | XNInf, XNInf => false
  | XFin x, XFin y => negb (Reqb x y)
  | _, _ => true
  end.

(** [round(x, ndigits)] on the exact value: to the nearest multiple of
    [10^-ndigits], ties to even. *)
Definition round (ndigits : nat) (a : t) : t :=
  match a with
  | XFin x =>
      let p := (10 ^ ndigits)%R in
      let n := Int_part (x * p) in
      let f := frac_part (x * p) in
      let k := if Rltb f (1 / 2) then n
               else if Rltb (1 / 2) f then (n + 1)%Z
               else if Z.even n then n else (n + 1)%Z in
      XFin (IZR k / p)
  | _ => a
  end.

Definition to_int (a : t) : option Z :=
  match a with
  | XFin x => if Reqb (IZR (Int_part x)) x then Some (Int_part x) else None
  | _ => None
  end.

#[global] Instance float : Float t := {
  f_of_Z := fun z => XFin (IZR z);
  f_nan := XNaN;
  f_add := add;
  f_sub := sub;
  f_mul := mul;
  f_div := div;
  f_neg := neg;
  f_sqrt := sqrt;
  f_isnan := isnan;
  f_gtb := gtb;
  f_ltb := ltb;
  f_neb := neb;
  f_to_int := to_int;
  f_round := round
}.

End Ideal.

(* ------------------------------------------------------------------ *)
(** ** Small library: association lists, lists, strings *)

Fixpoint lookup {V : Type} (k : string) (l : list (string * V)) : option V :=
  match l with
  | [] => None
  | (k', v) :: rest => if String.eqb k k' then Some v else lookup k rest
  end.

(** [d[k] = v] on an insertion-ordered dict: an existing key keeps its
    place, a new key goes last. *)
Fixpoint assign {V : Type} (k : string) (v : V) (l : list (string * V))
  : list (string * V) :=
  match l with
  | [] => [(k, v)]
  | (k', v') :: rest =>
      if String.eqb k k' then (k', v) :: rest else (k', v') :: assign k v rest
  end.

Fixpoint update_nth {A : Type} (n : nat) (x : A) (l : list A) : list A :=
  match l, n with
  | [], _ => []
  | _ :: rest, O => x :: rest
  | h :: rest, S n' => h :: update_nth n' x rest
  end.

(** All the values, or [None] as soon as one is missing. *)
Fixpoint all_some {A : Type} (l : list (option A)) : option (list A) :=
  match l with
  | [] => Some []
  | None :: _ => None
  | Some a :: rest =>
      match all_some rest with Some r => Some (a :: r) | None => None end
  end.

(** [sep.join(parts)]. *)
Fixpoint join (sep : string) (parts : list string) : string :=
  match parts with
  | [] => EmptyString
  | [p] => p
  | p :: rest => (p ++ sep ++ join sep rest)%string
  end.

(** The characters [str.strip()] removes are those of [str.isspace()]:
    U+0009..U+000D, U+001C..U+0020, U+0085, U+00A0, U+1680,
    U+2000..U+200A, U+2028, U+2029, U+202F, U+205F and U+3000.  In
    UTF-8 they take one, two or three bytes. *)

(** One byte: U+0009..U+000D and U+001C..U+0020. *)
Definition is_space (c : ascii) : bool :=
  let n := nat_of_ascii c in
  ((9 <=? n) && (n <=? 13) || (28 <=? n) && (n <=? 32))%nat.

(** Two bytes: U+0085 (C2 85) and U+00A0 (C2 A0). *)
Definition is_space2 (a b : ascii) : bool :=
  let a := nat_of_ascii a in
  let b := nat_of_ascii b in
  ((a =? 194) && ((b =? 133) || (b =? 160)))%nat.

(** Three bytes: U+1680 (E1 9A 80), U+2000..U+200A (E2 80 80..8A),
    U+2028, U+2029, U+202F (E2 80 A8, A9, AF), U+205F (E2 81 9F) and
    U+3000 (E3 80 80). *)
Definition is_space3 (a b c : ascii) : bool :=
  let a := nat_of_ascii a in
  let b := nat_of_ascii b in
  let c := nat_of_ascii c in
  ((a =? 225) && (b =? 154) && (c =? 128)
   || (a =? 226) && (b =? 128)
      && ((128 <=? c) && (c <=? 138) || (c =? 168) || (c =? 169) || (c =? 175))
   || (a =? 226) && (b =? 129) && (c =? 159)
   || (a =? 227) && (b =? 128) && (c =? 128))%nat.

(** The string is one white-space character. *)
Definition whitespace (s : string) : bool :=
  match s with
  | String a EmptyString => is_space a
  | String a (String b EmptyString) => is_space2 a b
  | String a (String b (String c EmptyString)) => is_space3 a b c
  | _ => false
  end.

(** From the left: white-space characters are dropped one after the
    other, whatever their length in bytes. *)
Fixpoint lstrip (s : string) : string :=
  match s with
  | EmptyString => EmptyString
  | String a rest1 =>
      if is_space a then lstrip rest1
      else
        match rest1 with
        | EmptyString => s
        | String b rest2 =>
            if is_space2 a b then lstrip rest2
            else
              match rest2 with
              | EmptyString => s
              | String c rest3 => if is_space3 a b c then lstrip rest3 else s
              end
        end
  end.

(** From the right: what is left of the rest, with [c] in front, is
    dropped when it is one white-space character. *)
Fixpoint rstrip (s : string) : string :=
  match s with
  | EmptyString => EmptyString
  | String c rest =>
      let r := String c (rstrip rest) in
      if whitespace r then EmptyString else r
  end.

Definition strip (s : string) : string := rstrip (lstrip s).

(** Whether an integer fits in 64 bits, signed. *)
Definition int64 (z : Z) : bool := ((- 2 ^ 63 <=? z) && (z <? 2 ^ 63))%Z.

(** [str(n)] for a non-negative integer. *)
Definition str_of_nat (n : nat) : string :=
  NilZero.string_of_uint (Nat.to_uint n).

(* ------------------------------------------------------------------ *)
(** ** Data model *)

(** A timestamp, as [pd.to_datetime] produces it (nanoseconds). *)
Definition Timestamp := Z.

(** A reference to a mutable object of the heap. *)
Definition ref := nat.

(** A news item is a dict of strings: [title] and [date] or [pubDate]. *)
Definition dict := list (string * string).

Section DataModel.
Context {F : Type}.

(** A pandas column: float64 or int64 cells. *)
Inductive Column : Type :=
| FloatCol (s : list F)
| IntCol (s : list Z).

(** A [DataFrame]: the index and the columns in insertion order. *)
Record DataFrame : Type := {
  df_index : list Timestamp;
  df_columns : list (string * Column)
}.

(** One bar as the market-data provider returns it.  Every field is text
    there; it is given here with the value it converts to, [None] when
    the conversion ([pd.to_datetime], [astype(float)], [astype(int)])
    raises. *)
Record RawBar : Type := {
  begins_at : option Timestamp;
  open_price : option F;
  close_price : option F;
  high_price : option F;
  low_price : option F;
  volume : option Z
}.

Record News : Type := {
  google_news : list dict;
  alpha_vantage_news : list dict
}.

(** The dict [get_fear_and_greed_index] builds. *)
Record FearGreed : Type := {
  value : F;
  description : string;
  last_update : string
}.

(** [class TradingDecision(BaseModel)]. *)
Record TradingDecision : Type := {
  decision : string;
  percentage : Z;
  reason : string;
  expected_next_day_price : F
}.

(** The object [json.dumps] serialises into the user message. *)
Record Payload : Type := {
  stock : string;
  monthly_data : DataFrame;
  daily_data : DataFrame;
  fear_and_greed_index : FearGreed;
  news : News
}.

(** A row of [ai_stock_analysis_records], as the table holds it: the
    key and [Percentage] are 64-bit integers, and a REAL column holds a
    float or NULL ([None]). *)
Record LedgerRow : Type := {
  row_id : Z;
  Stock : string;
  Time : string;
  Decision : string;
  Percentage : Z;
  Reason : string;
  CurrentPrice : option F;
  ExpectedNextDayPrice : option F;
  ExpectedPriceDifference : option F
}.

(** The calls that leave the process, in the order they are made. *)
Inductive Event : Type :=
| EvLogin
| EvHistoricals (interval span : string)
| EvGoogleNews
| EvAlphaVantage
| EvTranscript
| EvFearGreed
| EvLatestPrice
| EvOracle (system : string) (user : Payload)
| EvTranslate (text : string).

(** The mutable world of one process: the objects of the heap (shared by
    reference), the ledger table, the external calls made so far and the
    messages sent through [say]. *)
Record State : Type := {
  heap : list DataFrame;
  ledger : list LedgerRow;
  trace : list Event;
  said : list string
}.

Definition with_heap (h : list DataFrame) (st : State) : State :=
  {| heap := h; ledger := ledger st; trace := trace st; said := said st |}.
Definition with_ledger (l : list LedgerRow) (st : State) : State :=
  {| heap := heap st; ledger := l; trace := trace st; said := said st |}.
Definition with_trace (t : list Event) (st : State) : State :=
  {| heap := heap st; ledger := ledger st; trace := t; said := said st |}.
Definition with_said (s : list string) (st : State) : State :=
  {| heap := heap st; ledger := ledger st; trace := trace st; said := s |}.

(** *** The monad of the program: state and exceptions *)

Definition M (A : Type) : Type := State -> outcome A * State.

Definition ret {A} (a : A) : M A := fun st => (Returns a, st).

Definition raise {A} (e : exn) : M A := fun st => (Raises e, st).

Definition bind {A B} (m : M A) (k : A -> M B) : M B :=
  fun st =>
    match m st with
    | (Returns a, st') => k a st'
    | (Raises e, st') => (Raises e, st')
    end.

(** [try: body except Exception as e: handler(e)]. *)
Definition try_except {A} (body : M A) (handler : exn -> M A) : M A :=
  fun st =>
    match body st with
    | (Returns a, st') => (Returns a, st')
    | (Raises e, st') => handler e st'
    end.

(** A value computed without touching the state, that may raise. *)
Definition lift {A} (o : outcome A) : M A := fun st => (o, st).

(** A call to an external collaborator: recorded, then its outcome. *)
Definition call {A} (ev : Event) (o : outcome A) : M A :=
  fun st => (o, with_trace (trace st ++ [ev]) st).

End DataModel.

Arguments Column F : clear implicits.
Arguments DataFrame F : clear implicits.
Arguments RawBar F : clear implicits.
Arguments FearGreed F : clear implicits.
Arguments TradingDecision F : clear implicits.
Arguments Payload F : clear implicits.
Arguments LedgerRow F : clear implicits.
Arguments Event F : clear implicits.
Arguments State F : clear implicits.
Arguments M F A : clear implicits.

Declare Scope monad_scope.
Delimit Scope monad_scope with monad.
Notation "x <- m ;; k" := (bind m (fun x => k))
  (at level 61, m at next level, right associativity) : monad_scope.
Notation "m ;; k" := (bind m (fun _ => k))
  (at level 61, right associativity) : monad_scope.

(* ------------------------------------------------------------------ *)
(** ** pandas: the Series operations the engine uses *)

Section Pandas.
Context {F : Type} {FL : Float F}.

Definition f_sum (xs : list F) : F := fold_left f_add xs (f_of_Z 0).

Definition f_mean (xs : list F) : F :=
  f_div (f_sum xs) (f_of_Z (Z.of_nat (List.length xs))).

(** Variance with [ddof] delta degrees of freedom: the squared deviations
    from the mean, summed and divided by [n - ddof].  pandas updates the
    statistics of a window incrementally; they are given here by the
    formulas that define them. *)
Definition f_var (ddof : nat) (xs : list F) : F :=
  let m := f_mean xs in
  f_div (f_sum (map (fun x => f_mul (f_sub x m) (f_sub x m)) xs))
        (f_of_Z (Z.of_nat (List.length xs) - Z.of_nat ddof)).

Definition f_std (ddof : nat) (xs : list F) : F := f_sqrt (f_var ddof xs).

(** [s.rolling(window=window).<agg>()]: [min_periods] defaults to the
    window, so a row has a value only when the window is complete and
    holds no nan. *)
Definition rolling (window : nat) (agg : list F -> F) (s : list F) : list F :=
  map (fun i =>
         if (window <=? i + 1)%nat then
           let win := firstn window (skipn (i + 1 - window) s) in
           if existsb f_isnan win then f_nan else agg win
         else f_nan)
      (seq 0 (List.length s)).

(** [.mean()] of a rolling window. *)
Definition rolling_mean (window : nat) (s : list F) : list F :=
  rolling window f_mean s.

(** [.std()] of a rolling window: pandas' default [ddof=1]. *)
Definition rolling_std (window : nat) (s : list F) : list F :=
  rolling window (f_std 1) s.

Fixpoint diff_from (prev : F) (s : list F) : list F :=
  match s with
  | [] => []
  | x :: rest => f_sub x prev :: diff_from x rest
  end.

(** [s.diff()]: the first row has no predecessor and is nan. *)
Definition diff (s : list F) : list F :=
  match s with
  | [] => []
  | x :: rest => f_nan :: diff_from x rest
  end.

(** Element-wise operation of two Series with the same index. *)
Fixpoint zip_with {A B C : Type} (f : A -> B -> C) (s : list A) (t : list B)
  : list C :=
  match s, t with
  | x :: s', y :: t' => f x y :: zip_with f s' t'
  | _, _ => []
  end.

(** [s.where(cond, other)]: keeps the cell where [cond] holds. *)
Definition where_ (s : list F) (cond : list bool) (other : F) : list F :=
  zip_with (fun x (c : bool) => if c then x else other) s cond.

(** The center of mass of a span and the smoothing factor pandas derives
    from it: [com = (span - 1) / 2], [alpha = 1 / (1 + com)]. *)
Definition ewm_alpha (span : Z) : F :=
  f_div (f_of_Z 1) (f_add (f_of_Z 1) (f_div (f_of_Z (span - 1)) (f_of_Z 2))).

(** One row of pandas' [ewm] kernel with [adjust=False],
    [ignore_na=False]: the state is the running average and the weight
    the old average carries. *)
Definition ewm_step (alpha : F) (st : F * F) (cur : F) : F * F :=
  let '(weighted, old_wt) := st in
  let is_observation := negb (f_isnan cur) in
  if negb (f_isnan weighted) then
    let old_wt := f_mul old_wt (f_sub (f_of_Z 1) alpha) in
    if is_observation then
      ((if f_neb weighted cur then
          f_div (f_add (f_mul old_wt weighted) (f_mul alpha cur))
                (f_add old_wt alpha)
        else weighted),
       f_of_Z 1)
    else (weighted, old_wt)
  else if is_observation then (cur, old_wt)
  else (weighted, old_wt).

Fixpoint ewm_from (alpha : F) (st : F * F) (s : list F) : list F :=
  match s with
  | [] => []
  | cur :: rest =>
      let st' := ewm_step alpha st cur in
      fst st' :: ewm_from alpha st' rest
  end.

(** [s.ewm(span=span, adjust=False).mean()]: the first row is the first
    observation itself. *)
Definition ewm_mean (span : Z) (s : list F) : list F :=
  match s with
  | [] => []
  | x :: rest => x :: ewm_from (ewm_alpha span) (x, f_of_Z 1) rest
  end.

(** A column read as float64. *)
Definition as_float (c : Column F) : list F :=
  match c with
  | FloatCol s => s
  | IntCol s => map f_of_Z s
  end.

(** *** DataFrame objects on the heap *)

Definition alloc (d : DataFrame F) : M F ref :=
  fun st => (Returns (List.length (heap st)), with_heap (heap st ++ [d]) st).

Definition load (r : ref) : M F (DataFrame F) :=
  fun st =>
    match nth_error (heap st) r with
    | Some d => (Returns d, st)
    | None => (Raises (Exn "ReferenceError" "no such object"), st)
    end.

Definition store (r : ref) (d : DataFrame F) : M F unit :=
  fun st => (Returns tt, with_heap (update_nth r d (heap st)) st).

Local Open Scope monad_scope.

(** [df[key]]. *)
Definition getitem (df : ref) (key : string) : M F (Column F) :=
  d <- load df ;;
  match lookup key (df_columns d) with
  | Some c => ret c
  | None => raise (Exn "KeyError" key)
  end.

(** The table with [column] under [key]: the index is untouched. *)
Definition df_assign (key : string) (c : Column F) (d : DataFrame F)
  : DataFrame F :=
  {| df_index := df_index d; df_columns := assign key c (df_columns d) |}.

(** [df[key] = column], in place. *)
Definition setitem (df : ref) (key : string) (c : Column F) : M F unit :=
  d <- load df ;;
  store df (df_assign key c d).

(** [for x in xs: body(x)]. *)
Fixpoint for_each {A : Type} (xs : list A) (body : A -> M F unit) : M F unit :=
  match xs with
  | [] => ret tt
  | x :: rest => body x ;; for_each rest body
  end.

(* ---------------------------------------------------------------- *)
(** ** The indicator engine *)

Definition _calculate_bollinger_bands (df : ref) (window : nat) (num_std : F)
  : M F ref :=
  close <- getitem df "Close" ;;
  setitem df "SMA" (FloatCol (rolling_mean window (as_float close))) ;;
  close <- getitem df "Close" ;;
  setitem df "STD" (FloatCol (rolling_std window (as_float close))) ;;
  sma <- getitem df "SMA" ;;
  std <- getitem df "STD" ;;
  setitem df "Upper_Band"
    (FloatCol (zip_with f_add (as_float sma)
                 (map (fun x => f_mul x num_std) (as_float std)))) ;;
  sma <- getitem df "SMA" ;;
  std <- getitem df "STD" ;;
  setitem df "Lower_Band"
    (FloatCol (zip_with f_sub (as_float sma)
                 (map (fun x => f_mul x num_std) (as_float std)))) ;;
  ret df.

(** The local [gain] of [_calculate_rsi]. *)
Definition rsi_gain (window : nat) (close : list F) : list F :=
  let delta := diff close in
  rolling_mean window
    (where_ delta (map (fun x => f_gtb x (f_of_Z 0)) delta) (f_of_Z 0)).

(** The local [loss] of [_calculate_rsi]. *)
Definition rsi_loss (window : nat) (close : list F) : list F :=
  let delta := diff close in
  rolling_mean window
    (map f_neg
       (where_ delta (map (fun x => f_ltb x (f_of_Z 0)) delta) (f_of_Z 0))).

Definition _calculate_rsi (df : ref) (window : nat) : M F ref :=
  close <- getitem df "Close" ;;
  let gain := rsi_gain window (as_float close) in
  let loss := rsi_loss window (as_float close) in
  let rs := zip_with f_div gain loss in
  setitem df "RSI"
    (FloatCol
       (map (fun x =>
               f_sub (f_of_Z 100) (f_div (f_of_Z 100) (f_add (f_of_Z 1) x)))
            rs)) ;;
  ret df.

Definition _calculate_macd (df : ref) (fast slow signal : Z) : M F ref :=
  close <- getitem df "Close" ;;
  setitem df "EMA_fast" (FloatCol (ewm_mean fast (as_float close))) ;;
  close <- getitem df "Close" ;;
  setitem df "EMA_slow" (FloatCol (ewm_mean slow (as_float close))) ;;
  ema_fast <- getitem df "EMA_fast" ;;
  ema_slow <- getitem df "EMA_slow" ;;
  setitem df "MACD"
    (FloatCol (zip_with f_sub (as_float ema_fast) (as_float ema_slow))) ;;
  macd <- getitem df "MACD" ;;
  setitem df "Signal_Line" (FloatCol (ewm_mean signal (as_float macd))) ;;
  macd <- getitem df "MACD" ;;
  signal_line <- getitem df "Signal_Line" ;;
  setitem df "MACD_Histogram"
    (FloatCol (zip_with f_sub (as_float macd) (as_float signal_line))) ;;
  ret df.

Definition _calculate_moving_averages (df : ref) : M F ref :=
  let windows := [10; 20; 60]%nat in
  for_each windows (fun window =>
    close <- getitem df "Close" ;;
    setitem df ("MA_" ++ str_of_nat window)
      (FloatCol (rolling_mean window (as_float close)))) ;;
  ret df.

(** The loop rebinds its variable to what each step returns, which is
    the object it was given: the two tables are changed in place. *)
Definition _add_indicators (monthly_df daily_df : ref) : M F (ref * ref) :=
  for_each [monthly_df; daily_df] (fun df =>
    df <- _calculate_bollinger_bands df 20 (f_of_Z 2) ;;
    df <- _calculate_rsi df 14 ;;
    _ <- _calculate_macd df 12 26 9 ;;
    ret tt) ;;
  monthly_df <- _calculate_moving_averages monthly_df ;;
  ret (monthly_df, daily_df).

(** [_process_df]: the raw bars become a table indexed by [Date] with
    the columns [Open], [Close], [High], [Low] (float) and [Volume]
    (int).  An empty answer has no column to select, and a field that
    does not convert raises. *)
Definition _process_df (historicals : list (RawBar F)) : M F ref :=
  match historicals with
  | [] => raise (Exn "KeyError" "begins_at")
  | _ =>
      match all_some (map (@begins_at F) historicals) with
      | None => raise (Exn "ValueError" "begins_at")
      | Some dates =>
      match all_some (map (@open_price F) historicals) with
      | None => raise (Exn "ValueError" "open_price")
      | Some opens =>
      match all_some (map (@close_price F) historicals) with
      | None => raise (Exn "ValueError" "close_price")
      | Some closes =>
      match all_some (map (@high_price F) historicals) with
      | None => raise (Exn "ValueError" "high_price")
      | Some highs =>
      match all_some (map (@low_price F) historicals) with
      | None => raise (Exn "ValueError" "low_price")
      | Some lows =>
      match all_some (map (@volume F) historicals) with
      | None => raise (Exn "ValueError" "volume")
      | Some volumes =>
          alloc {| df_index := dates;
                   df_columns := [("Open"%string, FloatCol opens);
                                  ("Close"%string, FloatCol closes);
                                  ("High"%string, FloatCol highs);
                                  ("Low"%string, FloatCol lows);
                                  ("Volume"%string, IntCol volumes)] |}
      end end end end end end
  end.

(** No label of the index occurs twice. *)
Fixpoint is_unique (index : list Timestamp) : bool :=
  match index with
  | [] => true
  | t :: rest => negb (existsb (Z.eqb t) rest) && is_unique rest
  end.

Definition non_unique_index : exn :=
  Exn "ValueError" "DataFrame index must be unique for orient='columns'.".

(** [df.to_json()]: in the default orientation the labels of the index
    become the keys of an object, and an index that repeats a label is
    refused.  The text is given as the table it writes. *)
Definition to_json (d : DataFrame F) : outcome (DataFrame F) :=
  if is_unique (df_index d) then Returns d else Raises non_unique_index.

End Pandas.

(* ------------------------------------------------------------------ *)
(** ** JSON, the response schema and the decision model *)

Section Json.
Context {F : Type} {FL : Float F}.

(** A JSON value as pydantic's parser reads it.  A number written
    without fraction or exponent is an integer and is kept exactly,
    beyond 64 bits too; any other number is a float. *)
Inductive json : Type :=
| JNull
| JBool (b : bool)
| JInt (z : Z)
| JFloat (x : F)
| JString (s : string)
| JArray (items : list json)
| JObject (members : list (string * json)).

(** The part of JSON Schema the request uses for a property. *)
Inductive PropertySchema : Type :=
| SString (enum : option (list string))
| SInteger
| SNumber.

(** An object schema: [properties], [required], [additionalProperties]. *)
Record ObjectSchema : Type := {
  properties : list (string * PropertySchema);
  required : list string;
  additionalProperties : bool
}.

(** The schema sent as [response_format] (strict). *)
Definition trading_decision_schema : ObjectSchema := {|
  properties :=
    [("decision"%string, SString (Some ["BUY"; "SELL"; "HOLD"]%string));
     ("percentage"%string, SInteger);
     ("reason"%string, SString None);
     ("expected_next_day_price"%string, SNumber)];
  required :=
    ["decision"; "percentage"; "reason"; "expected_next_day_price"]%string;
  additionalProperties := false
|}.



(** The text of [message.content], given with what it parses to. *)
Inductive Content : Type :=
| NoContent                    (* content is None *)
| NotJson (text : string)      (* text that the parser refuses *)
| Json (j : json).

(** Lax mode converts where it can.  What it makes of text in a numeric
    field ("30" for an int, "101.5" for a float), and of an integer
    beyond 64 bits in a float field, is taken as given; [None] where it
    refuses the input. *)
Record Lax : Type := {
  int_of_text : string -> option Z;
  float_of_text : string -> option F;
  float_of_long : Z -> option F
}.

Variable lax : Lax.

Definition validation_error (msg : string) : exn :=
  Exn "ValidationError" msg.

(** pydantic's [str] field: a JSON string. *)
Definition validate_str (field : string) (j : option json) : outcome string :=
  match j with
  | None => Raises (validation_error (field ++ ": Field required"))
  | Some (JString s) => Returns s
  | Some _ =>
      Raises (validation_error (field ++ ": Input should be a valid string"))
  end.

(** pydantic's [int] field in lax mode: an integer of any size, a
    boolean, a float without fractional part that lies strictly between
    -2^63 and 2^63, or text that reads as an integer. *)
Definition validate_int (field : string) (j : option json) : outcome Z :=
  match j with
  | None => Raises (validation_error (field ++ ": Field required"))
  | Some (JInt z) => Returns z
  | Some (JBool b) => Returns (if b then 1 else 0)%Z
  | Some (JFloat x) =>
      match f_to_int x with
      | Some z =>
          if ((- 2 ^ 63 <? z) && (z <? 2 ^ 63))%Z then Returns z
          else
            Raises (validation_error
                      (field ++ ": Input should be a valid integer"))
      | None =>
          Raises (validation_error
                    (field ++ ": Input should be a valid integer"))
      end
  | Some (JString s) =>
      match int_of_text lax s with
      | Some z => Returns z
      | None =>
          Raises (validation_error
                    (field ++ ": Input should be a valid integer"))
      end
  | Some _ =>
      Raises (validation_error (field ++ ": Input should be a valid integer"))
  end.

(** pydantic's [float] field in lax mode: a float, an integer (one that
    fits in 64 bits becomes the nearest float), a boolean, or text that
    reads as a number. *)
Definition validate_float (field : string) (j : option json) : outcome F :=
  match j with
  | None => Raises (validation_error (field ++ ": Field required"))
  | Some (JInt z) =>
      if int64 z then Returns (f_of_Z z)
      else
        match float_of_long lax z with
        | Some x => Returns x
        | None =>
            Raises (validation_error
                      (field ++ ": Input should be a valid number"))
        end
  | Some (JFloat x) => Returns x
  | Some (JBool b) => Returns (f_of_Z (if b then 1 else 0))
  | Some (JString s) =>
      match float_of_text lax s with
      | Some x => Returns x
      | None =>
          Raises (validation_error
                    (field ++ ": Input should be a valid number"))
      end
  | Some _ =>
      Raises (validation_error (field ++ ": Input should be a valid number"))
  end.

(** [TradingDecision.model_validate_json]: the four fields are looked up
    (a repeated key counts with its last value, other keys are ignored)
    and each is validated against its annotated type, in lax mode;
    nothing relates one field to another. *)
Definition model_validate_json (c : Content) : outcome (TradingDecision F) :=
  match c with
  | NoContent =>
      Raises (validation_error "JSON input should be string, bytes or bytearray")
  | NotJson _ => Raises (validation_error "Invalid JSON")
  | Json (JObject members) =>
      let field k := lookup k (rev members) in
      match validate_str "decision" (field "decision"%string) with
      | Raises e => Raises e
      | Returns d =>
      match validate_int "percentage" (field "percentage"%string) with
      | Raises e => Raises e
      | Returns p =>
      match validate_str "reason" (field "reason"%string) with
      | Raises e => Raises e
      | Returns r =>
      match validate_float "expected_next_day_price"
              (field "expected_next_day_price"%string) with
      | Raises e => Raises e
      | Returns x =>
          Returns {| decision := d; percentage := p; reason := r;
                     expected_next_day_price := x |}
      end end end end
  | Json _ =>
      Raises (validation_error "Input should be an object")
  end.

End Json.

Arguments json F : clear implicits.
Arguments Content F : clear implicits.
Arguments Lax F : clear implicits.

(* ------------------------------------------------------------------ *)
(** ** The text of the instruction and of the report *)

Definition system_prompt_head : string :=
"You are an expert in Stock investing. Analyze the provided data including technical indicators, market data, recent news headlines, the Fear and Greed Index, YouTube video transcript, and the chart image. Tell me whether to buy, sell, or hold at the moment. Consider the following in your analysis:
                        - Technical indicators and market data
                        - Recent news headlines and their potential impact on Stock price
                        - The Fear and Greed Index and its implications
                        - Overall market sentiment
                        - Insights from the YouTube video transcript
                        - Current stock price: $".

Definition system_prompt_middle : string :=
"

                        Particularly important is to always refer to the trading method of 'Mark Minervini', a legendary stock investor, to assess the current situation and make trading decisions. Mark Minervini's trading method is as follows:

                        ".

Definition system_prompt_tail : string :=
"

                        Based on this trading method, analyze the current market situation and make a judgment by synthesizing it with the provided data.

                        Additionally, predict the next day's closing price for the stock based on your analysis.

                        Respond with:
                        1. A decision (BUY, SELL, or HOLD)
                        2. If the decision is 'BUY' or 'SELL', provide an intensity expressed as a percentage ratio (1 to 100).
                           If the decision is 'HOLD', set the percentage to 0.
                        3. A reason for your decision
                        4. A prediction for the next day's closing price

                        Ensure that the percentage is an integer between 1 and 100 for buy/sell decisions, and exactly 0 for hold decisions.
                        Your percentage should reflect the strength of your conviction in the decision based on the analyzed data.
                        The next day's closing price prediction should be a float value.".

Definition report_before_stock : string :=
"AI Trading Decision for ".

Definition report_before_decision : string :=
":
        Decision: ".

Definition report_before_percentage : string :=
"
        Percentage: ".

Definition report_before_current_price : string :=
"%
        Current Price: $".

Definition report_before_expected : string :=
"
        Predicted NextDay Price: $".

Definition report_before_reason : string :=
"
        Reason: ".

Definition report_before_reason_kr : string :=
"
        Reason_KO: ".

Definition report_before_news : string :=
"
        Recent News:
        ".

Definition report_before_fg_value : string :=
"

        Fear and Greed Index:
        Value: ".

Definition report_before_fg_description : string :=
"
        Description: ".

Definition report_before_fg_last_update : string :=
"
        Last Update: ".

(* ------------------------------------------------------------------ *)
(** ** The external collaborators *)

Section Advisor.
Context {F : Type} {FL : Float F}.

(** [str(x)] and [format(x, '.2f')] of a float: Python built-ins, taken
    as given. *)
Variable str_float : F -> string.
Variable format_2f : F -> string.

(** One entry of [organic_results]; a key may be missing. *)
Record GoogleResult : Type := {
  g_title : option string;
  g_date : option string
}.

(** One entry of [feed].  [time_formatted] is [time_published] read with
    [strptime] and written back with [strftime], [None] when [strptime]
    raises. *)
Record AlphaItem : Type := {
  a_title : option string;
  a_time_published : option string;
  a_time_formatted : option string
}.

(** What every collaborator answers during one run.  An HTTP answer is
    given decoded: [Raises] stands for a failure of the request, of
    [raise_for_status] or of [response.json()].  [w_lax] is what the
    validation library reads into the inputs it converts. *)
Record World : Type := {
  w_login : outcome unit;
  w_historicals : string -> string -> string -> outcome (list (RawBar F));
  w_google_news : string -> outcome (option (list GoogleResult));
  w_alpha_vantage : string -> outcome (option (list AlphaItem));
  w_transcript : string -> outcome (list string);
  w_fear_and_greed : outcome (FearGreed F);
  w_latest_price : string -> outcome (list (option F));
  w_oracle : string -> Payload F -> outcome (Content F);
  w_translate : string -> outcome string;
  w_now : string;
  w_lax : Lax F
}.

(** A Python value, where the program handles values of several shapes
    through one name. *)
Inductive pyval : Type :=
| PyNone
| PyStr (s : string)
| PyFloat (x : F)
| PyDecision (d : TradingDecision F)
| PyNews (n : News)
| PyFearGreed (f : FearGreed F)
| PyTuple (items : list pyval).

(** The dict [ai_stock_analysis] hands to [_record_trading_decision]. *)
Record DecisionDict : Type := {
  dict_Decision : string;
  dict_Percentage : Z;
  dict_Reason : string;
  dict_CurrentPrice : F;
  dict_ExpectedNextDayPrice : F
}.

Variable w : World.

Local Open Scope monad_scope.

(* ---------------------------------------------------------------- *)
(** ** class AIStockAdvisorSystem *)

(** [__init__]: the login is the only step that leaves the process;
    [_setup_database] creates the table if it is missing and leaves the
    rows alone. *)
Definition AIStockAdvisorSystem (stock : string) : M F unit :=
  call EvLogin (w_login w).

Definition get_current_price (stock : string) : M F (option F) :=
  try_except
    (quote <- call EvLatestPrice (w_latest_price w stock) ;;
     match quote with
     | [] => raise (Exn "IndexError" "list index out of range")
     | None :: _ => raise (Exn "TypeError" "float() argument")
     | Some x :: _ => ret (Some (f_round 2 x))
     end)
    (fun e => ret None).

Definition get_chart_data (stock : string) : M F (ref * ref) :=
  monthly_historicals <-
    call (EvHistoricals "day" "3month") (w_historicals w stock "day" "3month") ;;
  daily_historicals <-
    call (EvHistoricals "5minute" "day") (w_historicals w stock "5minute" "day") ;;
  monthly_df <- _process_df monthly_historicals ;;
  daily_df <- _process_df daily_historicals ;;
  _add_indicators monthly_df daily_df.

Definition _get_news_from_google (stock : string) : M F (list dict) :=
  try_except
    (data <- call EvGoogleNews (w_google_news w stock) ;;
     let organic_results := match data with Some l => l | None => [] end in
     for_results <-
       lift (match all_some
                     (map (fun result =>
                             match g_title result, g_date result with
                             | Some t, Some d =>
                                 Some [("title", t); ("date", d)]%string
                             | _, _ => None
                             end)
                          (firstn 5 organic_results)) with
             | Some news_items => Returns news_items
             | None => Raises (Exn "KeyError" "title")
             end) ;;
     ret for_results)
    (fun e => ret []).

Definition _get_news_from_alpha_vantage (stock : string) : M F (list dict) :=
  try_except
    (data <- call EvAlphaVantage (w_alpha_vantage w stock) ;;
     match data with
     | None => ret []
     | Some feed =>
         lift (match all_some
                       (map (fun item =>
                               let title := match a_title item with
                                            | Some t => t
                                            | None => "No title"%string
                                            end in
                               let time_published :=
                                 match a_time_published item with
                                 | Some t => t
                                 | None => "No date"%string
                                 end in
                               if String.eqb time_published "No date" then
                                 Some [("title", title);
                                       ("pubDate", time_published)]%string
                               else
                                 match a_time_formatted item with
                                 | Some t =>
                                     Some [("title", title);
                                           ("pubDate", t)]%string
                                 | None => None
                                 end)
                            (firstn 10 feed)) with
               | Some news_items => Returns news_items
               | None => Raises (Exn "ValueError" "time data does not match format")
               end)
     end)
    (fun e => ret []).

Definition get_news (stock : string) : M F News :=
  g <- _get_news_from_google stock ;;
  a <- _get_news_from_alpha_vantage stock ;;
  ret {| google_news := g; alpha_vantage_news := a |}.

Definition get_fear_and_greed_index : M F (FearGreed F) :=
  call EvFearGreed (w_fear_and_greed w).

Definition get_youtube_transcript : M F string :=
  let video_id := "rWl9ehSIiXc"%string in
  try_except
    (transcript_data <- call EvTranscript (w_transcript w video_id) ;;
     let full_transcript := join " " transcript_data in
     ret (strip full_transcript))
    (fun e => ret ("An error occurred: " ++ exn_msg e)%string).

Definition _translate_to_korean (text : string) : M F string :=
  try_except
    (call (EvTranslate text) (w_translate w text))
    (fun e => ret text).

(** The next value of the [AUTOINCREMENT] key. *)
Definition next_row_id (rows : list (LedgerRow F)) : Z :=
  (1 + fold_right Z.max 0 (map (@row_id F) rows))%Z.

(** What a REAL column holds after a float was bound to it: SQLite
    stores nan as NULL and a zero without its sign; any other float is
    stored as it is. *)
Definition sql_real (x : F) : option F :=
  if f_isnan x then None
  else if f_neb x (f_of_Z 0) then Some x else Some (f_of_Z 0).

(** [sqlite3] refuses to bind an [int] that does not fit in 64 bits. *)
Definition integer_overflow : exn :=
  Exn "OverflowError" "Python int too large to convert to SQLite INTEGER".

(** SQLite refuses the INSERT when the [AUTOINCREMENT] key has no next
    value. *)
Definition table_full : exn :=
  Exn "OperationalError" "database or disk is full".

(** [_record_trading_decision]: the values are bound first, then the row
    is inserted and committed; when [execute] raises, nothing is
    written. *)
Definition _record_trading_decision (stock : string) (decision : DecisionDict)
  : M F unit :=
  let time_ := w_now w in
  let current_price := dict_CurrentPrice decision in
  let expected_next_day_price := dict_ExpectedNextDayPrice decision in
  let expected_price_difference :=
    f_round 2 (f_sub expected_next_day_price current_price) in
  fun st =>
    if negb (int64 (dict_Percentage decision)) then
      (Raises integer_overflow, st)
    else if negb (int64 (next_row_id (ledger st))) then
      (Raises table_full, st)
    else
      (Returns tt,
       with_ledger
         (ledger st ++
          [{| row_id := next_row_id (ledger st);
              Stock := stock;
              Time := time_;
              Decision := dict_Decision decision;
              Percentage := dict_Percentage decision;
              Reason := dict_Reason decision;
              CurrentPrice := sql_real current_price;
              ExpectedNextDayPrice := sql_real expected_next_day_price;
              ExpectedPriceDifference := sql_real expected_price_difference |}])
         st).

(** The system message: the f-string with its two fields filled in. *)
Definition system_prompt (current_price : F) (youtube_transcript : string)
  : string :=
  (system_prompt_head ++ str_float current_price ++ system_prompt_middle
   ++ youtube_transcript ++ system_prompt_tail)%string.

Definition ai_stock_analysis (stock : string) : M F pyval :=
  dfs <- get_chart_data stock ;;
  let '(monthly_df, daily_df) := dfs in
  news <- get_news stock ;;
  youtube_transcript <- get_youtube_transcript ;;
  fgi <- get_fear_and_greed_index ;;
  current_price <- get_current_price stock ;;
  match current_price with
  | None => ret (PyTuple [PyNone; PyNone])
  | Some current_price =>
      monthly <- load monthly_df ;;
      daily <- load daily_df ;;
      let system := system_prompt current_price youtube_transcript in
      monthly_data <- lift (to_json monthly) ;;
      daily_data <- lift (to_json daily) ;;
      let user := {| stock := stock;
                     monthly_data := monthly_data;
                     daily_data := daily_data;
                     fear_and_greed_index := fgi;
                     news := news |} in
      response <- call (EvOracle system user) (w_oracle w system user) ;;
      result <- lift (model_validate_json (w_lax w) response) ;;
      reason_kr <- _translate_to_korean (reason result) ;;
      _record_trading_decision stock
        {| dict_Decision := decision result;
           dict_Percentage := percentage result;
           dict_Reason := reason result;
           dict_CurrentPrice := f_round 2 current_price;
           dict_ExpectedNextDayPrice :=
             f_round 2 (expected_next_day_price result) |} ;;
      ret (PyTuple [PyDecision result; PyStr reason_kr; PyNews news;
                    PyFearGreed fgi; PyFloat current_price])
  end.

(* ---------------------------------------------------------------- *)
(** ** The chat front end *)

Definition say (text : string) : M F unit :=
  fun st => (Returns tt, with_said (said st ++ [text]) st).

(** [a, b, c, d, e = value]. *)
Definition unpack5 (v : pyval)
  : outcome (pyval * pyval * pyval * pyval * pyval) :=
  match v with
  | PyTuple [a; b; c; d; e] => Returns (a, b, c, d, e)
  | PyTuple items =>
      if (List.length items <? 5)%nat then
        Raises (Exn "ValueError" "not enough values to unpack")
      else Raises (Exn "ValueError" "too many values to unpack")
  | _ => Raises (Exn "TypeError" "cannot unpack non-iterable object")
  end.

Definition as_decision (v : pyval) : outcome (TradingDecision F) :=
  match v with
  | PyDecision d => Returns d
  | _ => Raises (Exn "AttributeError" "decision")
  end.

Definition as_float_value (v : pyval) : outcome F :=
  match v with
  | PyFloat x => Returns x
  | _ => Raises (Exn "TypeError" "unsupported format string")
  end.

Definition as_str (v : pyval) : string :=
  match v with
  | PyStr s => s
  | PyNone => "None"
  | _ => ""
  end.

Definition as_news (v : pyval) : outcome News :=
  match v with
  | PyNews n => Returns n
  | _ => Raises (Exn "AttributeError" "items")
  end.

Definition as_fear_greed (v : pyval) : outcome (FearGreed F) :=
  match v with
  | PyFearGreed f => Returns f
  | _ => Raises (Exn "TypeError" "object is not subscriptable")
  end.

Definition str_of_Z (z : Z) : string :=
  NilZero.string_of_int (Z.to_int z).

(** [_format_news]: three items per source, each with its title and its
    [date] key if it has one. *)
Definition _format_news (news : News) : outcome string :=
  let line (item : dict) : option string :=
    match lookup "title" item with
    | Some title =>
        Some ("- " ++ title ++ " (" ++
              match lookup "date" item with Some d => d | None => "N/A" end
              ++ ")")%string
    | None => None
    end in
  match all_some (map line (firstn 3 (google_news news) ++
                            firstn 3 (alpha_vantage_news news))) with
  | Some formatted_news => Returns (join (String (ascii_of_nat 10) "") formatted_news)
  | None => Raises (Exn "KeyError" "title")
  end.

Definition process_trading (stock : string) : M F unit :=
  say ("Processing analysis for " ++ stock ++ "...") ;;
  try_except
    (analyzer <- AIStockAdvisorSystem stock ;;
     analysis <- ai_stock_analysis stock ;;
     unpacked <- lift (unpack5 analysis) ;;
     let '(result, reason_kr, news, fgi, current_price) := unpacked in
     result <- lift (as_decision result) ;;
     current_price <- lift (as_float_value current_price) ;;
     news <- lift (as_news news) ;;
     formatted_news <- lift (_format_news news) ;;
     fgi <- lift (as_fear_greed fgi) ;;
     let response :=
       (report_before_stock ++ stock
        ++ report_before_decision ++ decision result
        ++ report_before_percentage ++ str_of_Z (percentage result)
        ++ report_before_current_price ++ format_2f current_price
        ++ report_before_expected
        ++ format_2f (expected_next_day_price result)
        ++ report_before_reason ++ reason result
        ++ report_before_reason_kr ++ as_str reason_kr
        ++ report_before_news ++ formatted_news
        ++ report_before_fg_value ++ format_2f (value fgi)
        ++ report_before_fg_description ++ description fgi
        ++ report_before_fg_last_update ++ last_update fgi)%string in
     say response)
    (fun e =>
       say ("An error occurred while processing " ++ stock
            ++ ". Please try again later.")).

End Advisor.

Arguments World F : clear implicits.
Arguments pyval F : clear implicits.
Arguments DecisionDict F : clear implicits.

(* ------------------------------------------------------------------ *)
(** ** The text of a chat message and the symbol pattern *)

Section Mention.

(** A Python [str] that is searched character by character is a list of
    Unicode code points.  [unicode_alnum] is [str.isalnum()] of one
    character, from the Unicode database; it is consulted outside ASCII
    only, where the classes are spelled out. *)
Variable unicode_alnum : N -> bool.

Definition is_upper (c : N) : bool := ((65 <=? c) && (c <=? 90))%N.
Definition is_lower (c : N) : bool := ((97 <=? c) && (c <=? 122))%N.
Definition is_digit (c : N) : bool := ((48 <=? c) && (c <=? 57))%N.

(** The class [[A-Za-z]]. *)
Definition is_letter (c : N) : bool := is_upper c || is_lower c.

(** The class [\w] of a str pattern: alphanumeric, or the underscore. *)
Definition is_word (c : N) : bool :=
  if (c <? 128)%N then is_letter c || is_digit c || (c =? 95)%N
  else unicode_alnum c.

(** Whether the character next to a position, if there is one, is a
    word character. *)
Definition word_at (c : option N) : bool :=
  match c with
  | Some c => is_word c
  | None => false
  end.

(** [\b]: exactly one of the two neighbours of the position is a word
    character; the ends of the text count as non-word. *)
Definition word_boundary (before after : option N) : bool :=
  xorb (word_at before) (word_at after).

(** How many characters the greedy [[A-Za-z]{1,max}] takes at the start
    of [s]. *)
Fixpoint letters_upto (max : nat) (s : list N) : nat :=
  match max, s with
  | S m, c :: rest => if is_letter c then S (letters_upto m rest) else O
  | _, _ => O
  end.

(** The repeat gives back one character at a time until [\b] holds
    after it; it keeps at least one. *)
Fixpoint try_lengths (k : nat) (s : list N) : option (list N) :=
  match k with
  | O => None
  | S k' =>
      if word_boundary (nth_error s k') (nth_error s k) then Some (firstn k s)
      else try_lengths k' s
  end.

(** The pattern [\b[A-Za-z]{1,5}\b] tried at one position: [before] is
    the character in front of it and [s] the text from it. *)
Definition match_here (before : option N) (s : list N) : option (list N) :=
  if word_boundary before (hd_error s) then try_lengths (letters_upto 5 s) s
  else None.

(** [re.search]: the match at the first position that has one. *)
Fixpoint search_from (before : option N) (s : list N) : option (list N) :=
  match match_here before s with
  | Some m => Some m
  | None =>
      match s with
      | [] => None
      | c :: rest => search_from (Some c) rest
      end
  end.

(** [str.upper()] on the characters of a match, which are ASCII
    letters. *)
Definition upper_char (c : N) : N := if is_lower c then (c - 32)%N else c.

(** A text of ASCII characters as a string. *)
Definition string_of_text (t : list N) : string :=
  string_of_list_ascii (map ascii_of_N t).

Definition extract_stock (text : list N) : option string :=
  match search_from None text with
  | Some stock_match => Some (string_of_text (map upper_char stock_match))
  | None => None
  end.

End Mention.

(* ------------------------------------------------------------------ *)
(** ** The mention handler *)

Section FrontEnd.
Context {F : Type} {FL : Float F}.
Variable unicode_alnum : N -> bool.
Variable str_float : F -> string.
Variable format_2f : F -> string.
Variable w : World F.

(** [handle_mention]: the event is a dict, given by its entries that
    hold text; a missing key raises.  [if stock:] holds for a string
    that is not empty. *)
Definition handle_mention (event : list (string * list N)) : M F unit :=
  match lookup "text" event with
  | None => raise (Exn "KeyError" "text")
  | Some text =>
      match extract_stock unicode_alnum text with
      | Some (String _ _ as stock) =>
          process_trading str_float format_2f w stock
      | _ =>
          say "Please enter a valid stock symbol. For example: @YourBotName AAPL or @YourBotName aapl"
      end
  end.

End FrontEnd.

(* ================================================================== *)
(** * Definitions for the statements

    What the properties below are stated with: the table a reference
    holds and the table each engine step leaves, the specification's
    formulas over the reals, the phases of one analysis run, the words
    of a chat message and the replies to it, and the sample tables and
    worlds the statements are tried on. *)

(* ------------------------------------------------------------------ *)
(** ** Tables on the heap *)

Section FrameDefs.
Context {F : Type} {FL : Float F}.

(** [r] refers to the table [d]. *)
Definition frame_at (st : State F) (r : ref) (d : DataFrame F) : Prop :=
  nth_error (heap st) r = Some d.

(** The state with the object behind [r] replaced. *)
Definition put (r : ref) (d : DataFrame F) (st : State F) : State F :=
  with_heap (update_nth r d (heap st)) st.

(** The cell of column [key] at row [i], read as a float. *)
Definition cell (d : DataFrame F) (key : string) (i : nat) : option F :=
  match lookup key (df_columns d) with
  | Some c => nth_error (as_float c) i
  | None => None
  end.

(** The [Close] column of a table. *)
Definition close_of (d : DataFrame F) : list F :=
  match lookup "Close" (df_columns d) with
  | Some c => as_float c
  | None => []
  end.

(** The table has a [Close] column. *)
Definition has_close (d : DataFrame F) : Prop :=
  exists c, lookup "Close" (df_columns d) = Some c.

(** The table [_calculate_bollinger_bands] leaves behind its reference. *)
Definition bollinger_frame (window : nat) (num_std : F) (d : DataFrame F)
  : DataFrame F :=
  let close := close_of d in
  let sma := rolling_mean window close in
  let std := rolling_std window close in
  df_assign "Lower_Band"
    (FloatCol (zip_with f_sub sma (map (fun x => f_mul x num_std) std)))
    (df_assign "Upper_Band"
       (FloatCol (zip_with f_add sma (map (fun x => f_mul x num_std) std)))
       (df_assign "STD" (FloatCol std) (df_assign "SMA" (FloatCol sma) d))).

(** The series [_calculate_rsi] stores under [RSI]. *)
Definition rsi_series (window : nat) (close : list F) : list F :=
  map (fun x => f_sub (f_of_Z 100) (f_div (f_of_Z 100) (f_add (f_of_Z 1) x)))
      (zip_with f_div (rsi_gain window close) (rsi_loss window close)).

(** The table [_calculate_rsi] leaves. *)
Definition rsi_frame (window : nat) (d : DataFrame F) : DataFrame F :=
  df_assign "RSI" (FloatCol (rsi_series window (close_of d))) d.

(** The table [_calculate_macd] leaves. *)
Definition macd_frame (fast slow signal : Z) (d : DataFrame F) : DataFrame F :=
  let close := close_of d in
  let ema_fast := ewm_mean fast close in
  let ema_slow := ewm_mean slow close in
  let macd := zip_with f_sub ema_fast ema_slow in
  let signal_line := ewm_mean signal macd in
  df_assign "MACD_Histogram" (FloatCol (zip_with f_sub macd signal_line))
    (df_assign "Signal_Line" (FloatCol signal_line)
       (df_assign "MACD" (FloatCol macd)
          (df_assign "EMA_slow" (FloatCol ema_slow)
             (df_assign "EMA_fast" (FloatCol ema_fast) d)))).

(** The table [_calculate_moving_averages] leaves. *)
Definition moving_averages_frame (d : DataFrame F) : DataFrame F :=
  let close := close_of d in
  df_assign "MA_60" (FloatCol (rolling_mean 60 close))
    (df_assign "MA_20" (FloatCol (rolling_mean 20 close))
       (df_assign "MA_10" (FloatCol (rolling_mean 10 close)) d)).

(** The three steps of the loop of [_add_indicators]. *)
Definition indicators_frame (d : DataFrame F) : DataFrame F :=
  macd_frame 12 26 9 (rsi_frame 14 (bollinger_frame 20 (f_of_Z 2) d)).

(** The number of cells of a column. *)
Definition column_length (c : Column F) : nat :=
  match c with
  | FloatCol s => List.length s
  | IntCol s => List.length s
  end.

(** A Normalized Table, as [_process_df] builds it: the five columns in
    their order, each as long as the index. *)
Definition normalized (d : DataFrame F) : Prop :=
  match df_columns d with
  | [(o, FloatCol os); (c, FloatCol cs); (h, FloatCol hs); (l, FloatCol ls);
     (v, IntCol vs)] =>
      o = "Open"%string /\ c = "Close"%string /\ h = "High"%string
      /\ l = "Low"%string /\ v = "Volume"%string
      /\ List.length os = List.length (df_index d)
      /\ List.length cs = List.length (df_index d)
      /\ List.length hs = List.length (df_index d)
      /\ List.length ls = List.length (df_index d)
      /\ List.length vs = List.length (df_index d)
  | _ => False
  end.

(** The columns the loop of [_add_indicators] adds, in order. *)
Definition indicator_names : list string :=
  ["SMA"; "STD"; "Upper_Band"; "Lower_Band"; "RSI"; "EMA_fast"; "EMA_slow";
   "MACD"; "Signal_Line"; "MACD_Histogram"]%string.

(** The columns [_calculate_moving_averages] adds, in order. *)
Definition moving_average_names : list string :=
  ["MA_10"; "MA_20"; "MA_60"]%string.

(** [d'] is [d] with columns named [names] appended: same index, the
    columns of [d] first, unchanged and in their order, then one new
    float column per name, each as long as the index. *)
Definition appends_columns (d d' : DataFrame F) (names : list string) : Prop :=
  df_index d' = df_index d /\
  exists added,
    df_columns d' = df_columns d ++ added /\
    map fst added = names /\
    Forall (fun kc => exists s, snd kc = FloatCol s
                                /\ List.length s = List.length (df_index d))
           added.

End FrameDefs.

(* ------------------------------------------------------------------ *)
(** ** The indicators as the specification words them *)

(** Sum of a list of reals. *)
Definition Rsum (l : list R) : R := fold_right Rplus 0%R l.

(** The [n] rows that end at row [i]. *)
Definition last_rows (n i : nat) : list nat := seq (i + 1 - n) n.

(** The closes of the [n] rows that end at row [i]. *)
Definition window_values (close : list R) (n i : nat) : list R :=
  map (fun t => nth t close 0%R) (last_rows n i).

(** Mean of the squared deviations from [m], with divisor [n]. *)
Definition mean_square_deviation (xs : list R) (m n : R) : R :=
  (Rsum (map (fun x => (x - m) * (x - m)) xs) / n)%R.

(** The specification's words: the 20-period mean of Close. *)
Definition sma_spec (close : list R) (i : nat) : R :=
  (Rsum (window_values close 20 i) / 20)%R.

(** The sample standard deviation of the 20 closes (divisor 19). *)
Definition sample_std_spec (close : list R) (i : nat) : R :=
  R_sqrt.sqrt
    (mean_square_deviation (window_values close 20 i) (sma_spec close i) 19).

(** The population standard deviation of the 20 closes (divisor 20). *)
Definition population_std_spec (close : list R) (i : nat) : R :=
  R_sqrt.sqrt
    (mean_square_deviation (window_values close 20 i) (sma_spec close i) 20).

(** A non-negative quantity: a non-negative real or plus infinity. *)
Definition nonneg (a : Ideal.xreal) : Prop :=
  match a with
  | Ideal.XFin x => (0 <= x)%R
  | Ideal.XPInf => True
  | _ => False
  end.

(** The specification's words: an exponential moving average whose
    recursion is seeded with the first observation,
    [y_0 = x_0] and [y_t = (1 - alpha) y_(t-1) + alpha x_t]. *)
Fixpoint ema_spec (alpha : R) (xs : list R) (t : nat) : R :=
  match t with
  | O => nth 0 xs 0%R
  | S t' => ((1 - alpha) * ema_spec alpha xs t' + alpha * nth t xs 0)%R
  end.

(** MACD line: EMA of span 12 minus EMA of span 26 ([alpha = 2/(span+1)]). *)
Definition macd_spec (close : list R) (t : nat) : R :=
  (ema_spec (2 / 13) close t - ema_spec (2 / 27) close t)%R.

(** Signal line: EMA of span 9 of the MACD line. *)
Definition signal_spec (close : list R) (t : nat) : R :=
  ema_spec (2 / 10) (map (macd_spec close) (seq 0 (List.length close))) t.

(** The same average computed along the list, from the previous value. *)
Fixpoint ema_from (alpha y : R) (rest : list R) : list R :=
  match rest with
  | [] => []
  | x :: rest' =>
      let y' := ((1 - alpha) * y + alpha * x)%R in
      y' :: ema_from alpha y' rest'
  end.

(** The whole average as a list: the first close, then the recursion. *)
Definition ema_list (alpha : R) (xs : list R) : list R :=
  match xs with
  | [] => []
  | x :: rest => x :: ema_from alpha x rest
  end.

(* ------------------------------------------------------------------ *)
(** ** Sample series and tables *)

(** A table with the single column [Close]. *)
Definition close_table {F : Type} (close : list F) : DataFrame F :=
  {| df_index := map Z.of_nat (seq 0 (List.length close));
     df_columns := [("Close"%string, FloatCol close)] |}.

(** A state whose heap holds one table. *)
Definition one_table {F : Type} (d : DataFrame F) : State F :=
  {| heap := [d]; ledger := []; trace := []; said := [] |}.

(** Twenty closes: 1 followed by nineteen 0. *)
Definition spike_closes : list R := 1%R :: repeat 0%R 19.

(** The same twenty closes as binary64 floats. *)
Definition spike_closes_b64 : list B64.t :=
  B64.dec 1 0 :: repeat (B64.dec 0 0) 19.

(** Fourteen equal closes. *)
Definition flat_closes : list Ideal.t := repeat (Ideal.XFin 10) 14.

(** The same fourteen closes as binary64 floats. *)
Definition flat_closes_b64 : list B64.t := repeat (B64.dec 10 0) 14.

(** Three closes, as exact numbers and as binary64 floats. *)
Definition three_closes : list R := [10; 12; 11]%R.
Definition three_closes_b64 : list B64.t :=
  [B64.dec 10 0; B64.dec 12 0; B64.dec 11 0].

(* ------------------------------------------------------------------ *)
(** ** The phases of one analysis run *)

Section RunDefs.
Context {F : Type} {FL : Float F}.
Variable str_float : F -> string.
Variable w : World F.

(** The state after more external calls. *)
Definition log (evs : list (Event F)) (st : State F) : State F :=
  with_trace (trace st ++ evs) st.

(** What [get_current_price] returns, read off the provider's answer. *)
Definition spot_price (stock : string) : option F :=
  match w_latest_price w stock with
  | Returns (Some x :: _) => Some (f_round 2 x)
  | _ => None
  end.

(** What [get_youtube_transcript] returns. *)
Definition transcript_text : string :=
  match w_transcript w "rWl9ehSIiXc" with
  | Returns transcript_data => strip (join " " transcript_data)
  | Raises e => ("An error occurred: " ++ exn_msg e)%string
  end.

(** What the translation step returns for [text]. *)
Definition translated (text : string) : string :=
  match w_translate w text with
  | Returns t => t
  | Raises _ => text
  end.

(** The headlines one run gathers. *)
Definition news_of (stock : string) (st : State F) : News :=
  match get_news w stock st with
  | (Returns n, _) => n
  | (Raises _, _) => {| google_news := []; alpha_vantage_news := [] |}
  end.

(** A fresh process: no object, no row, no call, no message. *)
Definition empty_state : State F :=
  {| heap := []; ledger := []; trace := []; said := [] |}.

(** The headlines of a run: they depend on the providers only. *)
Definition headlines (stock : string) : News := news_of stock empty_state.

(** The event is a historicals request. *)
Definition is_historicals (ev : Event F) : Prop :=
  match ev with EvHistoricals _ _ => True | _ => False end.

(** The second half of [ai_stock_analysis], once the price is known:
    the two tables are written as JSON, then come the oracle call, the
    validation, the translation and the ledger write. *)
Definition decide (stock : string) (monthly daily : DataFrame F)
           (fgi : FearGreed F) (current_price : F) : M F (pyval F) :=
  let system := system_prompt str_float current_price transcript_text in
  bind (lift (to_json monthly)) (fun monthly_data =>
  bind (lift (to_json daily)) (fun daily_data =>
  let user := {| stock := stock;
                 monthly_data := monthly_data;
                 daily_data := daily_data;
                 fear_and_greed_index := fgi;
                 news := headlines stock |} in
  bind (call (EvOracle system user) (w_oracle w system user)) (fun response =>
  bind (lift (model_validate_json (w_lax w) response)) (fun result =>
  bind (_translate_to_korean w (reason result)) (fun reason_kr =>
  bind (_record_trading_decision w stock
          {| dict_Decision := decision result;
             dict_Percentage := percentage result;
             dict_Reason := reason result;
             dict_CurrentPrice := f_round 2 current_price;
             dict_ExpectedNextDayPrice :=
               f_round 2 (expected_next_day_price result) |}) (fun _ =>
  ret (PyTuple [PyDecision result; PyStr reason_kr; PyNews (headlines stock);
                PyFearGreed fgi; PyFloat current_price]))))))).

(** The row [_record_trading_decision] appends for a validated decision. *)
Definition ledger_row (stock : string) (rows : list (LedgerRow F))
           (result : TradingDecision F) (current_price : F) : LedgerRow F :=
  {| row_id := next_row_id rows;
     Stock := stock;
     Time := w_now w;
     Decision := decision result;
     Percentage := percentage result;
     Reason := reason result;
     CurrentPrice := sql_real (f_round 2 current_price);
     ExpectedNextDayPrice :=
       sql_real (f_round 2 (expected_next_day_price result));
     ExpectedPriceDifference :=
       sql_real
         (f_round 2 (f_sub (f_round 2 (expected_next_day_price result))
                           (f_round 2 current_price))) |}.

(** The events of a run up to and including the price fetch, after the
    historicals requests. *)
Definition fetch_events : list (Event F) :=
  [EvGoogleNews; EvAlphaVantage; EvTranscript; EvFearGreed; EvLatestPrice].

(** The two messages [process_trading] sends on a failed run. *)
Definition processing_message (stock : string) : string :=
  ("Processing analysis for " ++ stock ++ "...")%string.

Definition error_message (stock : string) : string :=
  ("An error occurred while processing " ++ stock
   ++ ". Please try again later.")%string.

(** The state in which [process_trading] calls [ai_stock_analysis]: the
    first message is out and the login is done. *)
Definition after_login (stock : string) (st0 : State F) : State F :=
  log [EvLogin] (with_said (said st0 ++ [processing_message stock]) st0).

End RunDefs.

(** The event is the oracle call, or the price fetch. *)
Definition is_oracle_call {F : Type} (ev : Event F) : bool :=
  match ev with EvOracle _ _ => true | _ => false end.

Definition is_price_fetch {F : Type} (ev : Event F) : bool :=
  match ev with EvLatestPrice => true | _ => false end.

(* ------------------------------------------------------------------ *)
(** ** Sample worlds *)

(** A bar whose prices all equal [c]. *)
Definition sample_bar (t c : Z) : RawBar B64.t :=
  {| begins_at := Some t;
     open_price := Some (B64.dec c 0);
     close_price := Some (B64.dec c 0);
     high_price := Some (B64.dec c 0);
     low_price := Some (B64.dec c 0);
     volume := Some 1000%Z |}.

(** Three bars with the closes 10, 12, 11. *)
Definition sample_bars : list (RawBar B64.t) :=
  [sample_bar 1 10; sample_bar 2 12; sample_bar 3 11].

Definition sample_fear_greed : FearGreed B64.t :=
  {| value := B64.dec 50 0; description := "neutral";
     last_update := "2024-01-02T00:00:00" |}.

(** A decision as the oracle writes it. *)
Definition decision_json (d : string) (p : Z) (price : B64.t) : json B64.t :=
  JObject [("decision"%string, JString d);
           ("percentage"%string, JInt p);
           ("reason"%string, JString "momentum");
           ("expected_next_day_price"%string, JFloat price)].

(** The conversions of the sample worlds.  Their oracle puts no text
    and no integer beyond 64 bits where a number is expected, so these
    are never asked; they refuse whatever they are given. *)
Definition no_conversion : Lax B64.t :=
  {| int_of_text := fun _ => None;
     float_of_text := fun _ => None;
     float_of_long := fun _ => None |}.

(** A world in which the charts, the headlines and the translation
    answer, and the transcript, the sentiment index, the price and the
    oracle are as given. *)
Definition sample_world (transcript : outcome (list string))
           (fear_greed : outcome (FearGreed B64.t))
           (price : outcome (list (option B64.t)))
           (answer : outcome (Content B64.t)) : World B64.t :=
  {| w_login := Returns tt;
     w_historicals := fun _ _ _ => Returns sample_bars;
     w_google_news := fun _ => Returns (Some []);
     w_alpha_vantage := fun _ => Returns (Some []);
     w_transcript := fun _ => transcript;
     w_fear_and_greed := fear_greed;
     w_latest_price := fun _ => price;
     w_oracle := fun _ _ => answer;
     w_translate := fun text => Returns text;
     w_now := "2024-01-02T10:00:00";
     w_lax := no_conversion |}.

(** A transcript of two items. *)
Definition sample_transcript : outcome (list string) :=
  Returns ["buy strength"; "cut losses"]%string.

(** The price 100.00 as the provider sends it. *)
Definition price_100 : outcome (list (option B64.t)) :=
  Returns [Some (B64.dec 10000 2)].

(** [str(x)] and [format(x, '.2f')] at the one price of the sample
    worlds. *)
Definition str_100 (x : B64.t) : string := "100.0".
Definition format_100 (x : B64.t) : string := "100.00".

(** The exception of a failed request. *)
Definition fetch_failure : exn := Exn "ConnectionError" "no route to host".

(** A Normalized Table of three rows. *)
Definition sample_table : DataFrame B64.t :=
  {| df_index := [1; 2; 3]%Z;
     df_columns :=
       [("Open"%string, FloatCol three_closes_b64);
        ("Close"%string, FloatCol three_closes_b64);
        ("High"%string, FloatCol three_closes_b64);
        ("Low"%string, FloatCol three_closes_b64);
        ("Volume"%string, IntCol [1000; 1000; 1000]%Z)] |}.

(** A heap with two tables, as [get_chart_data] has after its two
    [_process_df]. *)
Definition two_tables : State B64.t :=
  {| heap := [sample_table; sample_table]; ledger := []; trace := [];
     said := [] |}.

(** The sample world whose oracle answers decision [d] with percentage
    [p] and the expected price 102.345; the current price is 100.00. *)
Definition answering_world (d : string) (p : Z) : World B64.t :=
  sample_world sample_transcript (Returns sample_fear_greed) price_100
    (Returns (Json (decision_json d p (B64.dec 102345 3)))).



(* ------------------------------------------------------------------ *)
(** ** The symbol of a mention and the replies *)

(** An ASCII string as the text it is. *)
Definition text_of_string (s : string) : list N :=
  map N_of_ascii (list_ascii_of_string s).

(** The character in front of a position: the last of [pre], or
    [before] when [pre] is empty. *)
Definition prev_char (before : option N) (pre : list N) : option N :=
  match rev pre with
  | c :: _ => Some c
  | [] => before
  end.

(** [w] stands in a text between [pre] and [post] as a whole word of one
    to five letters: no word character touches it on either side. *)
Definition whole_word (unicode_alnum : N -> bool) (pre w post : list N) : Prop :=
  (1 <= List.length w <= 5)%nat
  /\ forallb is_letter w = true
  /\ word_at unicode_alnum (prev_char None pre) = false
  /\ word_at unicode_alnum (hd_error post) = false.

(** The message [handle_mention] sends when it finds no symbol. *)
Definition help_message : string :=
  "Please enter a valid stock symbol. For example: @YourBotName AAPL or @YourBotName aapl".

(** The report [process_trading] sends after a completed analysis. *)
Definition report {F : Type} (format_2f : F -> string) (stock : string)
           (result : TradingDecision F) (reason_kr formatted_news : string)
           (fgi : FearGreed F) (current_price : F) : string :=
  (report_before_stock ++ stock
   ++ report_before_decision ++ decision result
   ++ report_before_percentage ++ str_of_Z (percentage result)
   ++ report_before_current_price ++ format_2f current_price
   ++ report_before_expected ++ format_2f (expected_next_day_price result)
   ++ report_before_reason ++ reason result
   ++ report_before_reason_kr ++ reason_kr
   ++ report_before_news ++ formatted_news
   ++ report_before_fg_value ++ format_2f (value fgi)
   ++ report_before_fg_description ++ description fgi
   ++ report_before_fg_last_update ++ last_update fgi)%string.

(* ------------------------------------------------------------------ *)
(** ** The headlines *)

(** An item of the Google list: the two keys, in this order. *)
Definition google_item (r : GoogleResult) (item : dict) : Prop :=
  exists t d, g_title r = Some t /\ g_date r = Some d
              /\ item = [("title", t); ("date", d)]%string.

(** An item of the Alpha Vantage list. *)
Definition alpha_item (a : AlphaItem) (item : dict) : Prop :=
  exists t p,
    item = [("title", t); ("pubDate", p)]%string
    /\ t = match a_title a with Some t => t | None => "No title"%string end
    /\ match a_time_published a with
       | None => p = "No date"%string
       | Some tp =>
           if String.eqb tp "No date" then p = tp
           else a_time_formatted a = Some p
       end.

(** The line for an item with a [date]. *)
Definition dated_line (item : dict) : string :=
  ("- " ++ match lookup "title" item with Some t => t | None => "" end
   ++ " (" ++ match lookup "date" item with Some d => d | None => "" end
   ++ ")")%string.

(** The line [_format_news] writes for an item that has no [date]. *)
Definition undated_line (item : dict) : string :=
  ("- " ++ match lookup "title" item with Some t => t | None => "" end
   ++ " (N/A)")%string.

(* ------------------------------------------------------------------ *)
(** ** Bars, tables and undefined cells *)


(** No two bars carry the same timestamp. *)
Definition distinct_dates {F : Type} (hs : list (RawBar F)) : Prop :=
  NoDup (map (@begins_at F) hs).

(** The cell of an integer column. *)
Definition int_cell {F : Type} (d : DataFrame F) (key : string) (i : nat)
  : option Z :=
  match lookup key (df_columns d) with
  | Some (IntCol s) => nth_error s i
  | _ => None
  end.

(** The table holds the bars: one row per bar, in their order, with the
    values of the bar. *)
Definition holds_bars {F : Type} {FL : Float F} (d : DataFrame F)
           (hs : list (RawBar F)) : Prop :=
  List.length (df_index d) = List.length hs
  /\ forall i b,
       nth_error hs i = Some b ->
       nth_error (df_index d) i = begins_at b
       /\ cell d "Open" i = open_price b
       /\ cell d "Close" i = close_price b
       /\ cell d "High" i = high_price b
       /\ cell d "Low" i = low_price b
       /\ int_cell d "Volume" i = volume b.

(** NaN absorbs the arithmetic of the floats: an operation with a NaN
    operand gives NaN. *)
Definition nan_propagates (F : Type) {FL : Float F} : Prop :=
  (forall x : F, f_add f_nan x = f_nan)
  /\ (forall x : F, f_add x f_nan = f_nan)
  /\ (forall x : F, f_sub f_nan x = f_nan)
  /\ (forall x : F, f_sub x f_nan = f_nan)
  /\ (forall x : F, f_mul f_nan x = f_nan)
  /\ (forall x : F, f_div f_nan x = f_nan)
  /\ (forall x : F, f_div x f_nan = f_nan).
Arguments nan_propagates F {FL}.

(** The first [n] rows of column [key] are NaN. *)
Definition undefined_before {F : Type} {FL : Float F} (d : DataFrame F)
           (key : string) (n : nat) : Prop :=
  forall i, (i < n)%nat -> (i < List.length (close_of d))%nat ->
            cell d key i = Some f_nan.

(** The change of row [t] against the row before it; row 0 has none. *)
Definition change (xs : list R) (t : nat) : R :=
  (nth t xs 0 - nth (t - 1) xs 0)%R.

(* ------------------------------------------------------------------ *)
(** ** The ends of a string *)

(** The string with the given bytes. *)
Definition utf8 (bytes : list nat) : string :=
  string_of_list_ascii (map ascii_of_nat bytes).

(** The string starts with a white-space character. *)
Definition leading_space (s : string) : bool :=
  match s with
  | EmptyString => false
  | String a EmptyString => is_space a
  | String a (String b EmptyString) => is_space a || is_space2 a b
  | String a (String b (String c _)) =>
      is_space a || is_space2 a b || is_space3 a b c
  end.

(** The string ends with a white-space character: one of its suffixes
    is one. *)
Fixpoint trailing_space (s : string) : bool :=
  match s with
  | EmptyString => false
  | String _ rest => whitespace s || trailing_space rest
  end.

(* ------------------------------------------------------------------ *)
(** ** More samples *)

(** A Unicode table for texts whose characters are all ASCII. *)
Definition ascii_only : N -> bool := fun _ => false.

(** A mention as the chat service delivers it. *)
Definition sample_mention : list N := text_of_string "<@U0LAN0Z89> aapl".

(** The sample world with the login and the chart answers as given: the
    oracle answers BUY 30 at the expected price 102.345. *)
Definition sample_world_with (login : outcome unit)
           (bars : list (RawBar B64.t)) : World B64.t :=
  {| w_login := login;
     w_historicals := fun _ _ _ => Returns bars;
     w_google_news := fun _ => Returns (Some []);
     w_alpha_vantage := fun _ => Returns (Some []);
     w_transcript := fun _ => sample_transcript;
     w_fear_and_greed := Returns sample_fear_greed;
     w_latest_price := fun _ => price_100;
     w_oracle := fun _ _ =>
       Returns (Json (decision_json "BUY" 30 (B64.dec 102345 3)));
     w_translate := fun text => Returns text;
     w_now := "2024-01-02T10:00:00";
     w_lax := no_conversion |}.


(** Fourteen closes that rise by one from row to row. *)
Definition rising_closes : list R := map INR (seq 0 14).

(* ================================================================== *)
(** * Properties *)

(* ------------------------------------------------------------------ *)
(** ** The float model against CPython *)

(** [float("102.345")] is the double 7201889122863022 * 2^-46, just below
    the decimal. *)
Example b64_literal_102_345 :
  B64.dec 102345 3 = S754_finite false 7201889122863022 (-46).
Proof. vm_compute. reflexivity. Qed.

(** [round(2.675, 2) = 2.67], [round(0.125, 2) = 0.12],
    [round(-0.001, 2) = -0.0] and [round(102.345, 2) = 102.34]. *)
Example b64_round_half_cases :
  B64.round 2 (B64.dec 2675 3) = B64.dec 267 2 /\
  B64.round 2 (B64.dec 125 3) = B64.dec 12 2 /\
  B64.round 2 (B64.dec (-1) 3) = S754_zero true /\
  B64.round 2 (B64.dec 102345 3) = B64.dec 10234 2.
Proof. vm_compute. repeat split. Qed.

(** The closes 10, 12, 11 with a 2-period window: the first row is
    undefined, then 11.0 and 11.5. *)
Example rolling_mean_of_three_closes :
  rolling_mean 2 three_closes_b64 = [S754_nan; B64.dec 11 0; B64.dec 115 1].
Proof. vm_compute. reflexivity. Qed.

(* ------------------------------------------------------------------ *)
(** ** Lists and association lists *)

Lemma lookup_assign_eq {V : Type} (k : string) (v : V) (l : list (string * V)) :
  lookup k (assign k v l) = Some v.
Proof.
  induction l as [|[k' v'] l IH]; simpl.
  - now rewrite String.eqb_refl.
  - destruct (String.eqb k k') eqn:E; simpl; rewrite E; auto.
Qed.

Lemma lookup_assign_ne {V : Type} (k k' : string) (v : V)
      (l : list (string * V)) :
  String.eqb k k' = false -> lookup k (assign k' v l) = lookup k l.
Proof.
  intros Hne. induction l as [|[k0 v0] l IH]; simpl.
  - now rewrite Hne.
  - destruct (String.eqb k' k0) eqn:E; simpl.
    + apply String.eqb_eq in E. subst k0. now rewrite Hne.
    + destruct (String.eqb k k0); auto.
Qed.

Lemma assign_fresh {V : Type} (k : string) (v : V) (l : list (string * V)) :
  lookup k l = None -> assign k v l = l ++ [(k, v)].
Proof.
  induction l as [|[k' v'] l IH]; simpl; intros H; auto.
  destruct (String.eqb k k'); [discriminate|]. now rewrite IH.
Qed.

Lemma lookup_app_fresh {V : Type} (k k' : string) (v : V)
      (l : list (string * V)) :
  String.eqb k k' = false -> lookup k (l ++ [(k', v)]) = lookup k l.
Proof.
  intros Hne. induction l as [|[k0 v0] l IH]; simpl.
  - now rewrite Hne.
  - destruct (String.eqb k k0); auto.
Qed.

Lemma nth_error_update_nth_eq {A : Type} (l : list A) (n : nat) (x y : A) :
  nth_error l n = Some x -> nth_error (update_nth n y l) n = Some y.
Proof.
  revert n. induction l as [|h l IH]; intros [|n]; simpl; try discriminate; auto.
Qed.

Lemma nth_error_update_nth_ne {A : Type} (l : list A) (n m : nat) (y : A) :
  n <> m -> nth_error (update_nth m y l) n = nth_error l n.
Proof.
  revert n m. induction l as [|h l IH]; intros [|n] [|m] H; simpl; auto;
    try congruence.
Qed.

Lemma update_nth_twice {A : Type} (l : list A) (n : nat) (x y : A) :
  update_nth n y (update_nth n x l) = update_nth n y l.
Proof.
  revert n. induction l as [|h l IH]; intros [|n]; simpl; auto.
  now rewrite IH.
Qed.

Lemma length_update_nth {A : Type} (l : list A) (n : nat) (x : A) :
  List.length (update_nth n x l) = List.length l.
Proof.
  revert n. induction l as [|h l IH]; intros [|n]; simpl; auto.
Qed.

Lemma length_zip_with {A B C : Type} (f : A -> B -> C) (s : list A) (t : list B) :
  List.length s = List.length t ->
  List.length (zip_with f s t) = List.length s.
Proof.
  revert t. induction s as [|x s IH]; intros [|y t]; simpl; try discriminate; auto.
Qed.

Lemma nth_error_zip_with {A B C : Type} (f : A -> B -> C)
      (s : list A) (t : list B) (i : nat) (x : A) (y : B) :
  nth_error s i = Some x -> nth_error t i = Some y ->
  nth_error (zip_with f s t) i = Some (f x y).
Proof.
  revert t i. induction s as [|a s IH]; intros [|b t] [|i]; simpl;
    try discriminate; intros Hx Hy.
  - congruence.
  - now apply IH.
Qed.

Lemma nth_error_zip_with_inv {A B C : Type} (f : A -> B -> C)
      (s : list A) (t : list B) (i : nat) (z : C) :
  nth_error (zip_with f s t) i = Some z ->
  exists x y, nth_error s i = Some x /\ nth_error t i = Some y /\ z = f x y.
Proof.
  revert t i. induction s as [|a s IH]; intros [|b t] [|i]; simpl;
    try discriminate; intros H.
  - injection H as <-. eauto.
  - now apply IH.
Qed.

(* ------------------------------------------------------------------ *)
(** ** Running the engine on the heap *)

Section EngineFacts.
Context {F : Type} {FL : Float F}.

Lemma frame_at_put (st : State F) (r : ref) (d d' : DataFrame F) :
  frame_at st r d -> frame_at (put r d' st) r d'.
Proof. unfold frame_at, put. simpl. apply nth_error_update_nth_eq. Qed.

Lemma frame_at_put_other (st : State F) (r r' : ref) (d d' : DataFrame F) :
  r <> r' -> frame_at st r d -> frame_at (put r' d' st) r d.
Proof.
  unfold frame_at, put. simpl. intros Hne H.
  now rewrite nth_error_update_nth_ne.
Qed.

Lemma put_put (st : State F) (r : ref) (d d' : DataFrame F) :
  put r d' (put r d st) = put r d' st.
Proof. unfold put, with_heap. simpl. now rewrite update_nth_twice. Qed.

Lemma bind_getitem {A} (st : State F) (r : ref) (d : DataFrame F)
      (key : string) (c : Column F) (k : Column F -> M F A) :
  frame_at st r d -> lookup key (df_columns d) = Some c ->
  bind (getitem r key) k st = k c st.
Proof.
  unfold frame_at, getitem, bind, load, ret. intros H Hc.
  now rewrite H, Hc.
Qed.

Lemma bind_setitem {A} (st : State F) (r : ref) (d : DataFrame F)
      (key : string) (c : Column F) (k : unit -> M F A) :
  frame_at st r d ->
  bind (setitem r key c) k st = k tt (put r (df_assign key c d) st).
Proof.
  unfold frame_at, setitem, bind, load, store, put. intros H.
  now rewrite H.
Qed.

End EngineFacts.

(* ------------------------------------------------------------------ *)
(** ** What each engine step does to its table *)

Section EngineRuns.
Context {F : Type} {FL : Float F}.

Lemma bind_assoc {A B C} (m : M F A) (f : A -> M F B) (g : B -> M F C)
      (st : State F) :
  bind (bind m f) g st = bind m (fun x => bind (f x) g) st.
Proof. unfold bind. destruct (m st) as [[a|e] st']; reflexivity. Qed.

Lemma bind_run {A B} (m : M F A) (k : A -> M F B) (st st' : State F) (a : A) :
  m st = (Returns a, st') -> bind m k st = k a st'.
Proof. unfold bind. now intros ->. Qed.

Lemma bind_ret {A B} (a : A) (k : A -> M F B) (st : State F) :
  bind (ret a) k st = k a st.
Proof. reflexivity. Qed.

Lemma lookup_df_assign_ne (k k' : string) (c : Column F) (d : DataFrame F) :
  String.eqb k k' = false ->
  lookup k (df_columns (df_assign k' c d)) = lookup k (df_columns d).
Proof. intros H. unfold df_assign. simpl. now apply lookup_assign_ne. Qed.

Lemma lookup_df_assign_eq (k : string) (c : Column F) (d : DataFrame F) :
  lookup k (df_columns (df_assign k c d)) = Some c.
Proof. unfold df_assign. simpl. apply lookup_assign_eq. Qed.

Lemma close_of_df_assign (k : string) (c : Column F) (d : DataFrame F) :
  String.eqb "Close" k = false -> close_of (df_assign k c d) = close_of d.
Proof. intros H. unfold close_of. now rewrite lookup_df_assign_ne. Qed.

Lemma close_of_has_close (d : DataFrame F) (c : Column F) :
  lookup "Close" (df_columns d) = Some c -> close_of d = as_float c.
Proof. unfold close_of. now intros ->. Qed.

(** Solves the side conditions of a step: which table the reference
    holds and what a column lookup gives after the assignments so far. *)
Ltac frame_side :=
  first
    [ eassumption
    | eapply frame_at_put; frame_side
    | rewrite lookup_df_assign_eq; reflexivity
    | rewrite lookup_df_assign_ne by reflexivity; frame_side ].

Ltac run_getitem :=
  erewrite bind_getitem; [ | frame_side | frame_side ].

Ltac run_setitem :=
  erewrite bind_setitem; [ | frame_side ]; rewrite ?put_put.

Ltac run_steps :=
  repeat (rewrite ?bind_assoc, ?bind_ret; first [ run_getitem | run_setitem ]).

Lemma bollinger_run (st : State F) (df : ref) (d : DataFrame F)
      (window : nat) (num_std : F) :
  frame_at st df d -> has_close d ->
  _calculate_bollinger_bands df window num_std st
  = (Returns df, put df (bollinger_frame window num_std d) st).
Proof.
  intros Hd [c Hc]. unfold _calculate_bollinger_bands, bollinger_frame.
  rewrite (close_of_has_close _ Hc).
  run_steps. reflexivity.
Qed.

Lemma rsi_run (st : State F) (df : ref) (d : DataFrame F) (window : nat) :
  frame_at st df d -> has_close d ->
  _calculate_rsi df window st = (Returns df, put df (rsi_frame window d) st).
Proof.
  intros Hd [c Hc]. unfold _calculate_rsi, rsi_frame, rsi_series.
  rewrite (close_of_has_close _ Hc).
  run_steps. reflexivity.
Qed.

Lemma macd_run (st : State F) (df : ref) (d : DataFrame F)
      (fast slow signal : Z) :
  frame_at st df d -> has_close d ->
  _calculate_macd df fast slow signal st
  = (Returns df, put df (macd_frame fast slow signal d) st).
Proof.
  intros Hd [c Hc]. unfold _calculate_macd, macd_frame.
  rewrite (close_of_has_close _ Hc).
  run_steps. reflexivity.
Qed.

Lemma moving_averages_run (st : State F) (df : ref) (d : DataFrame F) :
  frame_at st df d -> has_close d ->
  _calculate_moving_averages df st
  = (Returns df, put df (moving_averages_frame d) st).
Proof.
  intros Hd [c Hc]. unfold _calculate_moving_averages, moving_averages_frame.
  rewrite (close_of_has_close _ Hc).
  unfold for_each.
  change (str_of_nat 10) with "10"%string.
  change (str_of_nat 20) with "20"%string.
  change (str_of_nat 60) with "60"%string.
  cbn [String.append].
  run_steps. reflexivity.
Qed.

Lemma close_of_bollinger_frame (window : nat) (num_std : F) (d : DataFrame F) :
  close_of (bollinger_frame window num_std d) = close_of d.
Proof.
  unfold bollinger_frame. now rewrite !close_of_df_assign by reflexivity.
Qed.

Lemma close_of_rsi_frame (window : nat) (d : DataFrame F) :
  close_of (rsi_frame window d) = close_of d.
Proof. unfold rsi_frame. now rewrite close_of_df_assign by reflexivity. Qed.

Lemma close_of_macd_frame (fast slow signal : Z) (d : DataFrame F) :
  close_of (macd_frame fast slow signal d) = close_of d.
Proof.
  unfold macd_frame. now rewrite !close_of_df_assign by reflexivity.
Qed.

Lemma has_close_df_assign (k : string) (c : Column F) (d : DataFrame F) :
  String.eqb "Close" k = false -> has_close d -> has_close (df_assign k c d).
Proof.
  intros Hk [c0 Hc]. exists c0. now rewrite lookup_df_assign_ne.
Qed.

Lemma has_close_bollinger_frame (window : nat) (num_std : F) (d : DataFrame F) :
  has_close d -> has_close (bollinger_frame window num_std d).
Proof.
  intros H. unfold bollinger_frame.
  repeat (apply has_close_df_assign; [reflexivity|]). exact H.
Qed.

Lemma has_close_rsi_frame (window : nat) (d : DataFrame F) :
  has_close d -> has_close (rsi_frame window d).
Proof.
  intros H. unfold rsi_frame. apply has_close_df_assign; [reflexivity|exact H].
Qed.

Lemma has_close_macd_frame (fast slow signal : Z) (d : DataFrame F) :
  has_close d -> has_close (macd_frame fast slow signal d).
Proof.
  intros H. unfold macd_frame.
  repeat (apply has_close_df_assign; [reflexivity|]). exact H.
Qed.

Lemma has_close_indicators_frame (d : DataFrame F) :
  has_close d -> has_close (indicators_frame d).
Proof.
  intros H. unfold indicators_frame.
  now apply has_close_macd_frame, has_close_rsi_frame,
    has_close_bollinger_frame.
Qed.

(** The body of the loop of [_add_indicators] on one table. *)
Lemma indicators_run (st : State F) (df : ref) (d : DataFrame F) :
  frame_at st df d -> has_close d ->
  bind (_calculate_bollinger_bands df 20 (f_of_Z 2)) (fun df =>
    bind (_calculate_rsi df 14) (fun df =>
      bind (_calculate_macd df 12 26 9) (fun _ => ret tt))) st
  = (Returns tt, put df (indicators_frame d) st).
Proof.
  intros Hd Hc. unfold bind at 1.
  rewrite (bollinger_run _ _ Hd Hc).
  unfold bind at 1.
  rewrite (@rsi_run _ df (bollinger_frame 20 (f_of_Z 2) d));
    [ | now eapply frame_at_put; eauto | now apply has_close_bollinger_frame ].
  unfold bind at 1.
  rewrite (@macd_run _ df (rsi_frame 14 (bollinger_frame 20 (f_of_Z 2) d)));
    [ | now eapply frame_at_put, frame_at_put; eauto
      | now apply has_close_rsi_frame, has_close_bollinger_frame ].
  rewrite !put_put. reflexivity.
Qed.

(** [_add_indicators] on two distinct tables: both get the indicator
    columns in place, the first one the moving averages as well, and the
    call returns the references it was given. *)
Lemma add_indicators_run (st : State F) (monthly_df daily_df : ref)
      (dm dd : DataFrame F) :
  monthly_df <> daily_df ->
  frame_at st monthly_df dm -> frame_at st daily_df dd ->
  has_close dm -> has_close dd ->
  _add_indicators monthly_df daily_df st
  = (Returns (monthly_df, daily_df),
     put monthly_df (moving_averages_frame (indicators_frame dm))
       (put daily_df (indicators_frame dd)
          (put monthly_df (indicators_frame dm) st))).
Proof.
  intros Hne Hm Hd Cm Cd. unfold _add_indicators, for_each.
  rewrite bind_assoc.
  rewrite (@bind_run _ _ _ _ _ _ _ (indicators_run Hm Cm)).
  rewrite bind_assoc.
  erewrite (@bind_run _ _ _ _ _ _ _ (@indicators_run _ daily_df dd _ Cd)).
  rewrite bind_ret.
  erewrite (@bind_run _ _ _ _ _ _ _
              (@moving_averages_run _ monthly_df (indicators_frame dm) _ _)).
  reflexivity.
  Unshelve.
  - now apply frame_at_put_other; auto.
  - apply frame_at_put_other; [assumption|].
    now eapply frame_at_put; eauto.
  - now apply has_close_indicators_frame.
Qed.

(** *** The shape of the result *)

Lemma length_rolling (window : nat) (agg : list F -> F) (s : list F) :
  List.length (rolling window agg s) = List.length s.
Proof. unfold rolling. now rewrite length_map, length_seq. Qed.

Lemma length_diff_from (prev : F) (s : list F) :
  List.length (diff_from prev s) = List.length s.
Proof. revert prev. induction s; simpl; auto. Qed.

Lemma length_diff (s : list F) : List.length (diff s) = List.length s.
Proof. destruct s; simpl; auto using length_diff_from. Qed.

Lemma length_ewm_from (alpha : F) (st : F * F) (s : list F) :
  List.length (ewm_from alpha st s) = List.length s.
Proof. revert st. induction s; simpl; auto. Qed.

Lemma length_ewm_mean (span : Z) (s : list F) :
  List.length (ewm_mean span s) = List.length s.
Proof. destruct s; simpl; auto using length_ewm_from. Qed.

Lemma length_where (s : list F) (g : F -> bool) (other : F) :
  List.length (where_ s (map g s) other) = List.length s.
Proof.
  unfold where_. rewrite length_zip_with; auto. now rewrite length_map.
Qed.

Lemma length_rsi_gain (window : nat) (close : list F) :
  List.length (rsi_gain window close) = List.length close.
Proof.
  unfold rsi_gain, rolling_mean.
  now rewrite length_rolling, length_where, length_diff.
Qed.

Lemma length_rsi_loss (window : nat) (close : list F) :
  List.length (rsi_loss window close) = List.length close.
Proof.
  unfold rsi_loss, rolling_mean.
  now rewrite length_rolling, length_map, length_where, length_diff.
Qed.

Lemma length_rsi_series (window : nat) (close : list F) :
  List.length (rsi_series window close) = List.length close.
Proof.
  unfold rsi_series. rewrite length_map, length_zip_with.
  - apply length_rsi_gain.
  - now rewrite length_rsi_gain, length_rsi_loss.
Qed.

Lemma normalized_has_close (d : DataFrame F) : normalized d -> has_close d.
Proof.
  unfold normalized, has_close. intros H.
  destruct (df_columns d) as [|[o [os|?]] [|[c [cs|?]] [|[h [hs|?]]
    [|[l [ls|?]] [|[v [?|vs]] [|? ?]]]]]]; try contradiction.
  destruct H as (-> & -> & _). simpl. eauto.
Qed.

Lemma indicators_frame_appends (d : DataFrame F) :
  normalized d -> appends_columns d (indicators_frame d) indicator_names.
Proof.
  intros H. split; [reflexivity|].
  unfold indicators_frame.
  unfold macd_frame at 1. rewrite close_of_rsi_frame, close_of_bollinger_frame.
  unfold rsi_frame at 1. rewrite close_of_bollinger_frame.
  unfold bollinger_frame, df_assign. cbn [df_columns df_index].
  unfold normalized in H. unfold close_of.
  destruct (df_columns d) as [|[o [os|?]] [|[c [cs|?]] [|[h [hs|?]]
    [|[l [ls|?]] [|[v [?|vs]] [|? ?]]]]]]; try contradiction.
  destruct H as (-> & -> & -> & -> & -> & Ho & Hc & Hh & Hl & Hv).
  cbn [lookup String.eqb Ascii.eqb Bool.eqb as_float].
  repeat (rewrite assign_fresh by reflexivity; rewrite <- ?app_assoc;
          cbn [app]).
  eexists. split; [reflexivity|]. split; [reflexivity|].
  unfold rolling_mean, rolling_std.
  repeat constructor; cbn [snd]; eexists; (split; [reflexivity|]);
    rewrite ?length_zip_with, ?length_map, ?length_rolling, ?length_ewm_mean,
      ?length_rsi_series, ?length_zip_with, ?length_ewm_mean;
    rewrite ?length_map, ?length_rolling, ?length_ewm_mean; auto.
Qed.

Lemma close_of_indicators_frame (d : DataFrame F) :
  close_of (indicators_frame d) = close_of d.
Proof.
  unfold indicators_frame.
  now rewrite close_of_macd_frame, close_of_rsi_frame, close_of_bollinger_frame.
Qed.

Lemma monthly_frame_appends (d : DataFrame F) :
  normalized d ->
  appends_columns d (moving_averages_frame (indicators_frame d))
    (indicator_names ++ moving_average_names).
Proof.
  intros H. split; [reflexivity|].
  unfold moving_averages_frame. rewrite close_of_indicators_frame.
  unfold indicators_frame.
  unfold macd_frame at 1. rewrite close_of_rsi_frame, close_of_bollinger_frame.
  unfold rsi_frame at 1. rewrite close_of_bollinger_frame.
  unfold bollinger_frame, df_assign. cbn [df_columns df_index].
  unfold normalized in H. unfold close_of.
  destruct (df_columns d) as [|[o [os|?]] [|[c [cs|?]] [|[h [hs|?]]
    [|[l [ls|?]] [|[v [?|vs]] [|? ?]]]]]]; try contradiction.
  destruct H as (-> & -> & -> & -> & -> & Ho & Hc & Hh & Hl & Hv).
  cbn [lookup String.eqb Ascii.eqb Bool.eqb as_float].
  repeat (rewrite assign_fresh by reflexivity; rewrite <- ?app_assoc;
          cbn [app]).
  eexists. split; [reflexivity|]. split; [reflexivity|].
  unfold rolling_mean, rolling_std.
  repeat constructor; cbn [snd]; eexists; (split; [reflexivity|]);
    rewrite ?length_zip_with, ?length_map, ?length_rolling, ?length_ewm_mean,
      ?length_rsi_series, ?length_zip_with, ?length_ewm_mean;
    rewrite ?length_map, ?length_rolling, ?length_ewm_mean; auto.
Qed.

(** What [_process_df] allocates is a Normalized Table. *)
Lemma process_df_normalized (historicals : list (RawBar F)) (st st' : State F)
      (r : ref) :
  _process_df historicals st = (Returns r, st') ->
  exists d, st' = with_heap (heap st ++ [d]) st
            /\ r = List.length (heap st) /\ normalized d.
Proof.
  unfold _process_df. destruct historicals as [|b bs]; [discriminate|].
  set (hs := b :: bs).
  assert (Hlen : forall A (f : RawBar F -> option A) l,
             all_some (map f hs) = Some l -> List.length l = List.length hs).
  { intros A f. induction hs as [|x xs IH]; simpl; intros l Hl.
    - now injection Hl as <-.
    - destruct (f x); [|discriminate].
      destruct (all_some (map f xs)) eqn:E; [|discriminate].
      injection Hl as <-. simpl. f_equal. now apply IH. }
  destruct (all_some (map (@begins_at F) hs)) as [dates|] eqn:E0; [|discriminate].
  destruct (all_some (map (@open_price F) hs)) as [opens|] eqn:E1; [|discriminate].
  destruct (all_some (map (@close_price F) hs)) as [closes|] eqn:E2; [|discriminate].
  destruct (all_some (map (@high_price F) hs)) as [highs|] eqn:E3; [|discriminate].
  destruct (all_some (map (@low_price F) hs)) as [lows|] eqn:E4; [|discriminate].
  destruct (all_some (map (@volume F) hs)) as [volumes|] eqn:E5; [|discriminate].
  unfold alloc. intros H. injection H as <- <-.
  eexists. split; [reflexivity|]. split; [reflexivity|].
  unfold normalized. cbn [df_columns df_index].
  rewrite (Hlen _ _ _ E0), (Hlen _ _ _ E1), (Hlen _ _ _ E2), (Hlen _ _ _ E3),
    (Hlen _ _ _ E4), (Hlen _ _ _ E5).
  repeat split.
Qed.

End EngineRuns.

(** C8.  For every pair of Normalized Tables held by two distinct
    references, [_add_indicators] returns the references it was given and
    each table is afterwards the table it was with indicator columns
    appended: the index (row count, timestamps and their order) is the
    same, the original columns come first with their values and order
    unchanged, and every new column has one cell per row.  The ledger,
    the messages and the trace are untouched. *)
Theorem add_indicators_only_appends_columns
        {F : Type} {FL : Float F} (st : State F) (monthly_df daily_df : ref)
        (dm dd : DataFrame F) :
  monthly_df <> daily_df ->
  frame_at st monthly_df dm -> frame_at st daily_df dd ->
  normalized dm -> normalized dd ->
  exists st' dm' dd',
    _add_indicators monthly_df daily_df st
    = (Returns (monthly_df, daily_df), st')
    /\ frame_at st' monthly_df dm' /\ frame_at st' daily_df dd'
    /\ appends_columns dm dm' (indicator_names ++ moving_average_names)
    /\ appends_columns dd dd' indicator_names
    /\ (forall k, In k ["Open"; "Close"; "High"; "Low"; "Volume"]%string ->
                  lookup k (df_columns dm') = lookup k (df_columns dm)
                  /\ lookup k (df_columns dd') = lookup k (df_columns dd))
    /\ ledger st' = ledger st /\ trace st' = trace st /\ said st' = said st.
Proof.
  intros Hne Hm Hd Nm Nd.
  pose proof (@normalized_has_close _ dm Nm) as Cm.
  pose proof (@normalized_has_close _ dd Nd) as Cd.
  eexists _, _, _. split; [apply (add_indicators_run Hne Hm Hd Cm Cd)|].
  split.
  { eapply frame_at_put. apply frame_at_put_other; [assumption|].
    eapply frame_at_put; eauto. }
  split.
  { apply frame_at_put_other; [congruence|]. eapply frame_at_put.
    apply frame_at_put_other; [congruence|]. eassumption. }
  pose proof (@monthly_frame_appends _ _ dm Nm) as Am.
  pose proof (@indicators_frame_appends _ _ dd Nd) as Ad.
  split; [exact Am|]. split; [exact Ad|].
  split; [|repeat split].
  intros k Hk.
  destruct Am as [_ (am & Em & _ & _)]. destruct Ad as [_ (ad & Ed & _ & _)].
  rewrite Em, Ed.
  unfold normalized in Nm, Nd.
  destruct (df_columns dm) as [|[o [os|?]] [|[c [cs|?]] [|[h [hs|?]]
    [|[l [ls|?]] [|[v [?|vs]] [|? ?]]]]]]; try contradiction.
  destruct Nm as (-> & -> & -> & -> & -> & _).
  destruct (df_columns dd) as [|[o [os'|?]] [|[c [cs'|?]] [|[h [hs'|?]]
    [|[l [ls'|?]] [|[v [?|vs']] [|? ?]]]]]]; try contradiction.
  destruct Nd as (-> & -> & -> & -> & -> & _).
  simpl in Hk.
  destruct Hk as [<-|[<-|[<-|[<-|[<-|[]]]]]]; split; reflexivity.
Qed.

Lemma sample_table_normalized : normalized sample_table.
Proof. unfold normalized. simpl. repeat split. Qed.

Lemma add_indicators_only_appends_columns_witness :
  normalized sample_table
  /\ exists st' dm' dd',
       _add_indicators 0 1 two_tables = (Returns (0%nat, 1%nat), st')
       /\ frame_at st' 0 dm' /\ frame_at st' 1 dd'
       /\ df_index dm' = df_index sample_table
       /\ df_index dd' = df_index sample_table.
Proof.
  split; [exact sample_table_normalized|].
  destruct (@add_indicators_only_appends_columns _ _ two_tables 0%nat 1%nat
              sample_table sample_table (@O_S 0) eq_refl eq_refl
              sample_table_normalized sample_table_normalized)
    as (st' & dm' & dd' & Hrun & Hm & Hd & [Him _] & [Hid _] & _).
  exists st', dm', dd'. repeat split; assumption.
Defined.

(* ------------------------------------------------------------------ *)
(** ** The indicators over exact arithmetic *)

Section ListWindows.
Context {A : Type}.

Lemma firstn_as_nth (default : A) (w : nat) (xs : list A) :
  (w <= List.length xs)%nat ->
  firstn w xs = map (fun t => nth t xs default) (seq 0 w).
Proof.
  revert xs. induction w as [|w IH]; intros xs Hw; [reflexivity|].
  destruct xs as [|x xs]; simpl in Hw; [lia|].
  cbn [firstn seq map nth]. f_equal.
  rewrite <- seq_shift, map_map. apply IH. lia.
Qed.

(** The window of [w] rows starting at row [j], read by row number. *)
Lemma window_as_nth (default : A) (j w : nat) (xs : list A) :
  (j + w <= List.length xs)%nat ->
  firstn w (skipn j xs) = map (fun t => nth t xs default) (seq j w).
Proof.
  revert xs. induction j as [|j IH]; intros xs Hw.
  - apply firstn_as_nth. exact Hw.
  - destruct xs as [|x xs]; simpl in Hw; [lia|].
    cbn [skipn]. rewrite IH by lia.
    rewrite <- seq_shift, map_map. reflexivity.
Qed.

Lemma nth_error_map_seq {B : Type} (f : nat -> B) (n i : nat) :
  (i < n)%nat -> nth_error (map f (seq 0 n)) i = Some (f i).
Proof.
  intros Hi. rewrite nth_error_map.
  rewrite nth_error_seq. destruct (Nat.ltb_spec i n); [reflexivity|lia].
Qed.

End ListWindows.

Lemma nth_error_rolling {F : Type} {FL : Float F} (window : nat)
      (agg : list F -> F) (s : list F) (i : nat) :
  (i < List.length s)%nat ->
  nth_error (rolling window agg s) i
  = Some (if (window <=? i + 1)%nat then
            let win := firstn window (skipn (i + 1 - window) s) in
            if existsb f_isnan win then f_nan else agg win
          else f_nan).
Proof. intros Hi. unfold rolling. now rewrite nth_error_map_seq. Qed.

Section IdealSeries.
Import Ideal.
Local Open Scope R_scope.

Lemma Rltb_true (x y : R) : x < y -> Rltb x y = true.
Proof. unfold Rltb. destruct (Rlt_dec x y); tauto. Qed.

Lemma Rltb_false (x y : R) : ~ x < y -> Rltb x y = false.
Proof. unfold Rltb. destruct (Rlt_dec x y); tauto. Qed.

Lemma Reqb_true (x y : R) : x = y -> Reqb x y = true.
Proof. unfold Reqb. destruct (Req_dec_T x y); tauto. Qed.

Lemma Reqb_false (x y : R) : x <> y -> Reqb x y = false.
Proof. unfold Reqb. destruct (Req_dec_T x y); tauto. Qed.

Lemma fold_left_add_fin (l : list R) (a : R) :
  fold_left Ideal.add (map XFin l) (XFin a) = XFin (a + Rsum l).
Proof.
  revert a. induction l as [|x l IH]; intros a; simpl.
  - f_equal. lra.
  - rewrite IH. f_equal. unfold Rsum. simpl. lra.
Qed.

Lemma f_sum_fin (l : list R) : f_sum (map XFin l) = XFin (Rsum l).
Proof.
  unfold f_sum. simpl. rewrite fold_left_add_fin. f_equal. lra.
Qed.

Lemma no_nan_fin (l : list R) : existsb f_isnan (map XFin l) = false.
Proof. induction l; simpl; auto. Qed.

Lemma f_mean_fin (l : list R) :
  l <> [] ->
  f_mean (map XFin l) = XFin (Rsum l / IZR (Z.of_nat (List.length l))).
Proof.
  intros Hl. unfold f_mean. rewrite f_sum_fin, length_map. simpl.
  rewrite Reqb_false; [reflexivity|].
  apply not_0_IZR. destruct l; [congruence|]. simpl. lia.
Qed.

Lemma Rsum_squares_nonneg (l : list R) (m : R) :
  0 <= Rsum (map (fun x => (x - m) * (x - m)) l).
Proof.
  induction l as [|x l IH]; simpl; [lra|].
  pose proof (Rle_0_sqr (x - m)) as H. unfold Rsqr in H. lra.
Qed.

Lemma f_std_fin (l : list R) :
  (2 <= List.length l)%nat ->
  f_std 1 (map XFin l)
  = XFin (R_sqrt.sqrt
            (mean_square_deviation l
               (Rsum l / IZR (Z.of_nat (List.length l)))
               (IZR (Z.of_nat (List.length l) - 1)))).
Proof.
  intros Hl. unfold f_std, f_var.
  rewrite f_mean_fin by (destruct l; simpl in *; [lia|congruence]).
  rewrite map_map. cbn [f_sub f_mul Ideal.float Ideal.sub Ideal.mul].
  rewrite <- (map_map (fun x => (x - _) * (x - _)) XFin).
  rewrite f_sum_fin, !length_map.
  cbn [f_div f_of_Z f_sqrt Ideal.float Ideal.div Ideal.sqrt].
  change (Z.of_nat 1) with 1%Z.
  assert (Hn : IZR (Z.of_nat (List.length l) - 1) > 0).
  { apply IZR_lt. lia. }
  rewrite Reqb_false by lra. cbn [Ideal.sqrt].
  rewrite Rltb_false; [reflexivity|].
  unfold mean_square_deviation.
  pose proof (Rsum_squares_nonneg l (Rsum l / IZR (Z.of_nat (List.length l)))) as Hs.
  apply Rle_not_lt. apply Rmult_le_pos; [exact Hs|].
  left. now apply Rinv_0_lt_compat.
Qed.

(** The window of a complete row of a finite series. *)
Lemma window_fin (close : list R) (w i : nat) :
  (w <= i + 1)%nat -> (i < List.length close)%nat ->
  firstn w (skipn (i + 1 - w) (map XFin close))
  = map XFin (window_values close w i).
Proof.
  intros Hw Hi. unfold window_values, last_rows.
  rewrite skipn_map, firstn_map. f_equal.
  apply window_as_nth. lia.
Qed.

Lemma length_window_values (close : list R) (w i : nat) :
  List.length (window_values close w i) = w.
Proof. unfold window_values, last_rows. now rewrite length_map, length_seq. Qed.

Lemma rolling_mean_fin (close : list R) (w i : nat) :
  (1 <= w)%nat -> (w <= i + 1)%nat -> (i < List.length close)%nat ->
  nth_error (rolling_mean w (map XFin close)) i
  = Some (XFin (Rsum (window_values close w i) / IZR (Z.of_nat w))).
Proof.
  intros H1 Hw Hi. unfold rolling_mean.
  rewrite nth_error_rolling by (now rewrite length_map).
  destruct (Nat.leb_spec w (i + 1)); [|lia]. cbv zeta.
  rewrite window_fin by assumption.
  rewrite no_nan_fin, f_mean_fin, length_window_values; [reflexivity|].
  intros E. apply (f_equal (@List.length R)) in E.
  rewrite length_window_values in E. simpl in E. lia.
Qed.

Lemma rolling_std_fin (close : list R) (w i : nat) :
  (2 <= w)%nat -> (w <= i + 1)%nat -> (i < List.length close)%nat ->
  nth_error (rolling_std w (map XFin close)) i
  = Some (XFin (R_sqrt.sqrt
                  (mean_square_deviation (window_values close w i)
                     (Rsum (window_values close w i) / IZR (Z.of_nat w))
                     (IZR (Z.of_nat w - 1))))).
Proof.
  intros H1 Hw Hi. unfold rolling_std.
  rewrite nth_error_rolling by (now rewrite length_map).
  destruct (Nat.leb_spec w (i + 1)); [|lia]. cbv zeta.
  rewrite window_fin by assumption.
  rewrite no_nan_fin, f_std_fin, length_window_values; [reflexivity|].
  now rewrite length_window_values.
Qed.

(** The four Bollinger columns of a table with a finite [Close], at a
    row with 20 periods of history. *)
Lemma bollinger_cells (d : DataFrame Ideal.t) (close : list R) (i : nat) :
  lookup "Close" (df_columns d) = Some (FloatCol (map XFin close)) ->
  (19 <= i < List.length close)%nat ->
  let d' := bollinger_frame 20 (f_of_Z 2) d in
  cell d' "SMA" i = Some (XFin (sma_spec close i))
  /\ cell d' "STD" i = Some (XFin (sample_std_spec close i))
  /\ cell d' "Upper_Band" i
     = Some (XFin (sma_spec close i + 2 * sample_std_spec close i))
  /\ cell d' "Lower_Band" i
     = Some (XFin (sma_spec close i - 2 * sample_std_spec close i)).
Proof.
  intros Hc Hi d'. subst d'. unfold bollinger_frame, cell.
  rewrite (close_of_has_close _ Hc). cbn [as_float].
  pose proof (@rolling_mean_fin close 20 i) as Hm.
  pose proof (@rolling_std_fin close 20 i) as Hs.
  change (IZR (Z.of_nat 20)) with 20 in Hm, Hs.
  change (IZR (Z.of_nat 20 - 1)) with 19 in Hs.
  specialize (Hm ltac:(lia) ltac:(lia) ltac:(lia)).
  specialize (Hs ltac:(lia) ltac:(lia) ltac:(lia)).
  fold (sma_spec close i) in Hm, Hs. fold (sample_std_spec close i) in Hs.
  repeat split.
  - rewrite !lookup_df_assign_ne by reflexivity.
    rewrite lookup_df_assign_eq. exact Hm.
  - rewrite !lookup_df_assign_ne by reflexivity.
    rewrite lookup_df_assign_eq. exact Hs.
  - rewrite !lookup_df_assign_ne by reflexivity.
    rewrite lookup_df_assign_eq. cbn [as_float].
    erewrite nth_error_zip_with; [ | exact Hm | rewrite nth_error_map, Hs; reflexivity ].
    simpl. do 2 f_equal. lra.
  - rewrite lookup_df_assign_eq. cbn [as_float].
    erewrite nth_error_zip_with; [ | exact Hm | rewrite nth_error_map, Hs; reflexivity ].
    simpl. do 2 f_equal. lra.
Qed.

End IdealSeries.

Lemma spike_window : window_values spike_closes 20 19 = spike_closes.
Proof. reflexivity. Qed.

Lemma spike_sma : sma_spec spike_closes 19 = (1 / 20)%R.
Proof.
  unfold sma_spec. rewrite spike_window.
  unfold spike_closes, Rsum. cbn [repeat fold_right]. lra.
Qed.

Lemma spike_squares :
  Rsum (map (fun x => (x - 1 / 20) * (x - 1 / 20))%R spike_closes)
  = (19 / 20)%R.
Proof.
  unfold spike_closes, Rsum. cbn [repeat map fold_right]. lra.
Qed.

Lemma spike_sample_std :
  sample_std_spec spike_closes 19 = R_sqrt.sqrt (1 / 20)%R.
Proof.
  unfold sample_std_spec, mean_square_deviation.
  rewrite spike_window, spike_sma, spike_squares. f_equal. lra.
Qed.

Lemma spike_population_std :
  population_std_spec spike_closes 19 = R_sqrt.sqrt (19 / 400)%R.
Proof.
  unfold population_std_spec, mean_square_deviation.
  rewrite spike_window, spike_sma, spike_squares. f_equal. lra.
Qed.

Lemma spike_stds_differ :
  sample_std_spec spike_closes 19 <> population_std_spec spike_closes 19.
Proof.
  rewrite spike_sample_std, spike_population_std. intros E.
  apply R_sqrt.sqrt_inj in E; lra.
Qed.

(** C2, as amended.  On every table whose [Close] column is finite,
    [_calculate_bollinger_bands] with the defaults the engine passes
    (window 20, two deviations) stores, at every row with 20 periods of
    history, SMA = the mean of the 20 closes, STD = their sample standard
    deviation (divisor 19, pandas' default), Upper_Band = SMA + 2 STD and
    Lower_Band = SMA - 2 STD. *)
Theorem bollinger_bands_use_sample_std
        (st : State Ideal.t) (df : ref) (d : DataFrame Ideal.t)
        (close : list R) :
  frame_at st df d ->
  lookup "Close" (df_columns d) = Some (FloatCol (map Ideal.XFin close)) ->
  exists d',
    _calculate_bollinger_bands df 20 (f_of_Z 2) st = (Returns df, put df d' st)
    /\ forall i, (19 <= i < List.length close)%nat ->
         cell d' "SMA" i = Some (Ideal.XFin (sma_spec close i))
         /\ cell d' "STD" i = Some (Ideal.XFin (sample_std_spec close i))
         /\ cell d' "Upper_Band" i
            = Some (Ideal.XFin
                      (sma_spec close i + 2 * sample_std_spec close i))
         /\ cell d' "Lower_Band" i
            = Some (Ideal.XFin
                      (sma_spec close i - 2 * sample_std_spec close i)).
Proof.
  intros Hd Hc. exists (bollinger_frame 20 (f_of_Z 2) d). split.
  - apply bollinger_run; [assumption|]. eexists; eassumption.
  - intros i Hi. now apply bollinger_cells.
Qed.

Lemma bollinger_bands_use_sample_std_witness :
  frame_at (one_table (close_table (map Ideal.XFin spike_closes))) 0
           (close_table (map Ideal.XFin spike_closes))
  /\ exists d',
       _calculate_bollinger_bands 0 20 (f_of_Z 2)
         (one_table (close_table (map Ideal.XFin spike_closes)))
       = (Returns 0%nat,
          put 0 d' (one_table (close_table (map Ideal.XFin spike_closes))))
       /\ cell d' "SMA" 19 = Some (Ideal.XFin (sma_spec spike_closes 19)).
Proof.
  split; [reflexivity|].
  destruct (@bollinger_bands_use_sample_std
              (one_table (close_table (map Ideal.XFin spike_closes))) 0%nat
              (close_table (map Ideal.XFin spike_closes)) spike_closes
              eq_refl eq_refl) as [d' [Hrun Hcells]].
  exists d'. split; [exact Hrun|].
  apply (Hcells 19%nat). simpl. lia.
Defined.

(** C2 as stated fails: on the twenty closes 1, 0, ..., 0 the STD stored
    at row 19 is the sample deviation sqrt(1/20), not the population
    deviation sqrt(19/400); in binary64 the stored STD is likewise
    greater than the population deviation of the window. *)
Lemma bollinger_std_is_not_population :
  (exists d' s,
     _calculate_bollinger_bands 0 20 (f_of_Z 2)
       (one_table (close_table (map Ideal.XFin spike_closes)))
     = (Returns 0%nat,
        put 0 d' (one_table (close_table (map Ideal.XFin spike_closes))))
     /\ cell d' "STD" 19 = Some (Ideal.XFin s)
     /\ s <> population_std_spec spike_closes 19)
  /\ (exists d' s,
        _calculate_bollinger_bands 0 20 (f_of_Z 2)
          (one_table (close_table spike_closes_b64))
        = (Returns 0%nat, put 0 d' (one_table (close_table spike_closes_b64)))
        /\ cell d' "STD" 19 = Some s
        /\ B64.ltb (f_std 0 spike_closes_b64) s = true).
Proof.
  split.
  - exists (bollinger_frame 20 (f_of_Z 2)
              (close_table (map Ideal.XFin spike_closes))),
           (sample_std_spec spike_closes 19).
    split; [|split].
    + apply bollinger_run; [reflexivity|]. eexists; reflexivity.
    + apply (@bollinger_cells (close_table (map Ideal.XFin spike_closes))
               spike_closes 19%nat eq_refl). simpl. lia.
    + exact spike_stds_differ.
  - exists (bollinger_frame 20 (f_of_Z 2) (close_table spike_closes_b64)).
    eexists. split; [|split].
    + apply bollinger_run; [reflexivity|]. eexists; reflexivity.
    + vm_compute. reflexivity.
    + vm_compute. reflexivity.
Qed.

(* ------------------------------------------------------------------ *)
(** ** RSI over exact arithmetic *)

Lemma where_map {F : Type} (s : list F) (g : F -> bool) (other : F) :
  where_ s (map g s) other = map (fun x => if g x then x else other) s.
Proof. unfold where_. induction s; simpl; congruence. Qed.

Lemma Forall_firstn_skipn {A : Type} (P : A -> Prop) (n m : nat) (l : list A) :
  Forall P l -> Forall P (firstn n (skipn m l)).
Proof.
  intros H.
  assert (Hs : Forall P (skipn m l)).
  { clear n. revert m. induction H as [|x l Hx Hl IH]; intros [|m]; simpl;
      auto. }
  clear H. revert n. induction Hs as [|x l' Hx Hl IH]; intros [|n]; simpl;
    auto.
Qed.

Section IdealRSI.
Import Ideal.
Local Open Scope R_scope.

Lemma nonneg_add (a b : xreal) : nonneg a -> nonneg b -> nonneg (Ideal.add a b).
Proof. destruct a, b; simpl; try tauto. lra. Qed.

Lemma nonneg_fold_add (l : list xreal) (a : xreal) :
  nonneg a -> Forall nonneg l -> nonneg (fold_left Ideal.add l a).
Proof.
  revert a. induction l as [|x l IH]; intros a Ha Hl; simpl; [assumption|].
  inversion Hl; subst. apply IH; [now apply nonneg_add|assumption].
Qed.

Lemma nonneg_not_nan (l : list xreal) :
  Forall nonneg l -> existsb f_isnan l = false.
Proof.
  induction 1 as [|x l Hx _ IH]; cbn [existsb]; [reflexivity|].
  rewrite IH. destruct x; simpl in *; tauto.
Qed.

Lemma nonneg_mean (l : list xreal) :
  Forall nonneg l -> nonneg (f_mean l) \/ f_mean l = XNaN.
Proof.
  intros Hl. unfold f_mean, f_sum.
  assert (Hs : nonneg (fold_left f_add l (f_of_Z 0))).
  { apply nonneg_fold_add; [simpl; lra|assumption]. }
  assert (Hn : 0 <= IZR (Z.of_nat (List.length l))) by (apply IZR_le; lia).
  destruct (fold_left f_add l (f_of_Z 0)) as [| | |s]; simpl in Hs; try tauto;
    cbn [f_div f_of_Z Ideal.float Ideal.div].
  - left. rewrite Rltb_false by lra. exact I.
  - destruct (Req_dec_T (IZR (Z.of_nat (List.length l))) 0) as [E|E].
    + rewrite (Reqb_true E).
      destruct (Req_dec_T s 0) as [E'|E'].
      * right. now rewrite (Reqb_true E').
      * left. rewrite (Reqb_false E'), Rltb_false by lra. exact I.
    + left. rewrite (Reqb_false E). simpl.
      apply Rmult_le_pos; [assumption|].
      left. apply Rinv_0_lt_compat. lra.
Qed.

(** A rolling mean of non-negative cells is, where it is a number,
    non-negative. *)
Lemma nonneg_rolling_mean (window : nat) (s : list xreal) (i : nat) (x : R) :
  Forall nonneg s ->
  nth_error (rolling_mean window s) i = Some (XFin x) -> 0 <= x.
Proof.
  intros Hs Hx.
  assert (Hi : (i < List.length s)%nat).
  { assert (Hn : nth_error (rolling_mean window s) i <> None) by congruence.
    apply nth_error_Some in Hn.
    unfold rolling_mean in Hn. now rewrite length_rolling in Hn. }
  unfold rolling_mean in Hx. rewrite nth_error_rolling in Hx by assumption.
  destruct (window <=? i + 1)%nat; [|discriminate].
  cbv zeta in Hx.
  pose proof (@Forall_firstn_skipn _ nonneg window (i + 1 - window) s Hs) as Hw.
  rewrite (nonneg_not_nan Hw) in Hx.
  assert (Hm : f_mean (firstn window (skipn (i + 1 - window) s)) = XFin x)
    by congruence.
  destruct (nonneg_mean Hw) as [H|H]; rewrite Hm in H; [exact H|discriminate].
Qed.

Lemma gains_nonneg (delta : list xreal) :
  Forall nonneg
    (where_ delta (map (fun x => f_gtb x (f_of_Z 0)) delta) (f_of_Z 0)).
Proof.
  rewrite where_map. apply Forall_map, Forall_forall. intros x _.
  cbn [f_gtb f_of_Z Ideal.float Ideal.gtb].
  destruct x as [| | |x]; simpl; try lra; try exact I.
  unfold Rltb. destruct (Rlt_dec 0 x); simpl; lra.
Qed.

Lemma losses_nonneg (delta : list xreal) :
  Forall nonneg
    (map f_neg
       (where_ delta (map (fun x => f_ltb x (f_of_Z 0)) delta) (f_of_Z 0))).
Proof.
  rewrite where_map. apply Forall_map, Forall_map, Forall_forall. intros x _.
  cbn [f_ltb f_neg f_of_Z Ideal.float].
  destruct x as [| | |x]; simpl; try lra; try exact I.
  unfold Rltb. destruct (Rlt_dec x 0); simpl; lra.
Qed.

(** The RSI cell of a row whose average gain [g] and average loss [l]
    are numbers. *)
Lemma rsi_cell_cases (window : nat) (close : list xreal) (i : nat) (g l : R) :
  nth_error (rsi_gain window close) i = Some (XFin g) ->
  nth_error (rsi_loss window close) i = Some (XFin l) ->
  0 <= g /\ 0 <= l
  /\ (0 < l ->
      nth_error (rsi_series window close) i
      = Some (XFin (100 - 100 / (1 + g / l)))
      /\ 0 <= 100 - 100 / (1 + g / l) <= 100)
  /\ (l = 0 -> 0 < g ->
      nth_error (rsi_series window close) i = Some (XFin 100))
  /\ (l = 0 -> g = 0 ->
      nth_error (rsi_series window close) i = Some XNaN).
Proof.
  intros Hg Hl.
  assert (G : 0 <= g) by (eapply nonneg_rolling_mean; [apply gains_nonneg|exact Hg]).
  assert (L : 0 <= l) by (eapply nonneg_rolling_mean; [apply losses_nonneg|exact Hl]).
  assert (Hcell : nth_error (rsi_series window close) i
                  = Some (f_sub (f_of_Z 100)
                            (f_div (f_of_Z 100)
                               (f_add (f_of_Z 1) (f_div (XFin g) (XFin l)))))).
  { unfold rsi_series. rewrite nth_error_map.
    now rewrite (nth_error_zip_with f_div _ _ _ Hg Hl). }
  rewrite Hcell. cbn [f_sub f_div f_add f_of_Z Ideal.float Ideal.div].
  repeat split; try assumption.
  - rewrite Reqb_false by lra. cbn [Ideal.add Ideal.div].
    assert (0 <= g / l).
    { apply Rmult_le_pos; [assumption|]. left. now apply Rinv_0_lt_compat. }
    rewrite Reqb_false by lra. reflexivity.
  - assert (0 <= g / l).
    { apply Rmult_le_pos; [assumption|]. left. now apply Rinv_0_lt_compat. }
    assert (0 < / (1 + g / l)) by (apply Rinv_0_lt_compat; lra).
    assert (/ (1 + g / l) <= / 1) by (apply Rinv_le_contravar; lra).
    rewrite Rinv_1 in *. unfold Rdiv at 1. lra.
  - assert (0 <= g / l).
    { apply Rmult_le_pos; [assumption|]. left. now apply Rinv_0_lt_compat. }
    assert (0 < / (1 + g / l)) by (apply Rinv_0_lt_compat; lra).
    unfold Rdiv at 1. lra.
  - intros -> Hpos. rewrite Reqb_true by reflexivity.
    rewrite Reqb_false, Rltb_false by lra. simpl. do 2 f_equal. lra.
  - intros -> ->. rewrite Reqb_true by reflexivity. reflexivity.
Qed.

End IdealRSI.

(** C4, as amended.  On every table with a [Close] column,
    [_calculate_rsi] with the window the engine passes (14) stores an RSI
    with these properties at every row where the average gain [g] and
    the average loss [l] are numbers: both are non-negative; if the
    average loss is positive the RSI is a number in [0,100]; if the
    average loss is 0 and the average gain positive the RSI is exactly
    100; if both are 0 the RSI is nan, the undefined marker. *)
Theorem rsi_in_range_unless_flat
        (st : State Ideal.t) (df : ref) (d : DataFrame Ideal.t)
        (c : Column Ideal.t) :
  frame_at st df d ->
  lookup "Close" (df_columns d) = Some c ->
  exists d',
    _calculate_rsi df 14 st = (Returns df, put df d' st)
    /\ forall (i : nat) (g l : R),
         nth_error (rsi_gain 14 (as_float c)) i = Some (Ideal.XFin g) ->
         nth_error (rsi_loss 14 (as_float c)) i = Some (Ideal.XFin l) ->
         (0 <= g)%R /\ (0 <= l)%R
         /\ ((0 < l)%R ->
             exists r, cell d' "RSI" i = Some (Ideal.XFin r)
                       /\ (0 <= r <= 100)%R)
         /\ (l = 0%R -> (0 < g)%R ->
             cell d' "RSI" i = Some (Ideal.XFin 100))
         /\ (l = 0%R -> g = 0%R -> cell d' "RSI" i = Some Ideal.XNaN).
Proof.
  intros Hd Hc. exists (rsi_frame 14 d). split.
  - apply rsi_run; [assumption|]. eexists; eassumption.
  - intros i g l Hg Hl.
    assert (Hcell : cell (rsi_frame 14 d) "RSI" i
                    = nth_error (rsi_series 14 (as_float c)) i).
    { unfold cell, rsi_frame. rewrite lookup_df_assign_eq.
      now rewrite (close_of_has_close _ Hc). }
    rewrite Hcell.
    destruct (rsi_cell_cases _ _ _ Hg Hl) as (G & L & Hpos & Hinf & Hnan).
    repeat split; try assumption.
    intros Hl0. destruct (Hpos Hl0) as [E B]. eexists. split; [exact E|exact B].
Qed.

Lemma flat_gain :
  nth_error (rsi_gain 14 flat_closes) 13 = Some (Ideal.XFin 0).
Proof.
  unfold rsi_gain, flat_closes.
  cbn [repeat diff diff_from map where_ zip_with f_sub f_gtb f_of_Z
       Ideal.float Ideal.sub Ideal.gtb Ideal.ltb].
  rewrite !Rltb_false by lra.
  change (nth_error (rolling_mean 14 (map Ideal.XFin (repeat 0%R 14))) 13
          = Some (Ideal.XFin 0)).
  rewrite rolling_mean_fin by (simpl; lia).
  do 2 f_equal. unfold window_values, last_rows, Rsum. simpl. lra.
Qed.

Lemma flat_loss :
  nth_error (rsi_loss 14 flat_closes) 13 = Some (Ideal.XFin 0).
Proof.
  unfold rsi_loss, flat_closes.
  cbn [repeat diff diff_from map where_ zip_with f_sub f_ltb f_neg f_of_Z
       Ideal.float Ideal.sub Ideal.ltb Ideal.neg].
  rewrite !Rltb_false by lra.
  cbn [Ideal.neg].
  change (nth_error (rolling_mean 14 (map Ideal.XFin (repeat (- 0)%R 14))) 13
          = Some (Ideal.XFin 0)).
  rewrite rolling_mean_fin by (simpl; lia).
  do 2 f_equal. unfold window_values, last_rows, Rsum. simpl. lra.
Qed.

Lemma rsi_in_range_unless_flat_witness :
  frame_at (one_table (close_table flat_closes)) 0 (close_table flat_closes)
  /\ exists d',
       _calculate_rsi 0 14 (one_table (close_table flat_closes))
       = (Returns 0%nat, put 0 d' (one_table (close_table flat_closes)))
       /\ cell d' "RSI" 13 = Some Ideal.XNaN.
Proof.
  split; [reflexivity|].
  destruct (@rsi_in_range_unless_flat
              (one_table (close_table flat_closes)) 0%nat
              (close_table flat_closes) (FloatCol flat_closes)
              eq_refl eq_refl) as [d' [Hrun Hcells]].
  exists d'. split; [exact Hrun|].
  destruct (Hcells 13%nat 0%R 0%R flat_gain flat_loss) as (_ & _ & _ & _ & H).
  now apply H.
Defined.

(** C4 as stated fails: on fourteen equal closes the average gain and the
    average loss of row 13 are both the number 0, and the RSI stored
    there is nan: neither a value in [0,100] nor a defined value.  The
    binary64 run gives nan as well. *)
Lemma rsi_is_nan_on_flat_closes :
  (exists d',
     _calculate_rsi 0 14 (one_table (close_table flat_closes))
     = (Returns 0%nat, put 0 d' (one_table (close_table flat_closes)))
     /\ nth_error (rsi_gain 14 flat_closes) 13 = Some (Ideal.XFin 0)
     /\ nth_error (rsi_loss 14 flat_closes) 13 = Some (Ideal.XFin 0)
     /\ cell d' "RSI" 13 = Some Ideal.XNaN)
  /\ (exists d',
        _calculate_rsi 0 14 (one_table (close_table flat_closes_b64))
        = (Returns 0%nat, put 0 d' (one_table (close_table flat_closes_b64)))
        /\ nth_error (rsi_gain 14 flat_closes_b64) 13 = Some (S754_zero false)
        /\ nth_error (rsi_loss 14 flat_closes_b64) 13 = Some (S754_zero false)
        /\ cell d' "RSI" 13 = Some S754_nan).
Proof.
  split.
  - exists (rsi_frame 14 (close_table flat_closes)).
    split; [|split; [exact flat_gain|split; [exact flat_loss|]]].
    + apply rsi_run; [reflexivity|]. eexists; reflexivity.
    + unfold cell, rsi_frame. rewrite lookup_df_assign_eq.
      apply (rsi_cell_cases _ _ _ flat_gain flat_loss); reflexivity.
  - exists (rsi_frame 14 (close_table flat_closes_b64)).
    split; [|split; [|split]]; vm_compute; reflexivity.
Qed.

(* ------------------------------------------------------------------ *)
(** ** MACD over exact arithmetic *)

Lemma list_as_map_seq {A : Type} (l : list A) (f : nat -> A) :
  (forall t, (t < List.length l)%nat -> nth_error l t = Some (f t)) ->
  l = map f (seq 0 (List.length l)).
Proof.
  intros H. apply nth_error_ext. intros t.
  destruct (Nat.lt_ge_cases t (List.length l)) as [Ht|Ht].
  - rewrite (H t Ht). now rewrite nth_error_map_seq.
  - rewrite (proj2 (nth_error_None l t) Ht).
    symmetry. apply nth_error_None. now rewrite length_map, length_seq.
Qed.

Section IdealMACD.
Import Ideal.
Local Open Scope R_scope.

Lemma ewm_alpha_fin (span : Z) (alpha : R) :
  0 < IZR span -> alpha = 2 / (IZR span + 1) ->
  ewm_alpha span = XFin alpha.
Proof.
  intros Hs ->. unfold ewm_alpha.
  cbn [f_div f_add f_of_Z Ideal.float Ideal.div].
  rewrite Reqb_false by lra. cbn [Ideal.add Ideal.div].
  rewrite minus_IZR.
  rewrite Reqb_false by lra.
  f_equal. field. lra.
Qed.

Lemma ewm_from_fin (alpha y : R) (rest : list R) :
  ewm_from (XFin alpha) (XFin y, XFin 1) (map XFin rest)
  = map XFin (ema_from alpha y rest).
Proof.
  revert y. induction rest as [|x rest IH]; intros y; [reflexivity|].
  cbn [map ewm_from ema_from].
  assert (Hstep : ewm_step (XFin alpha) (XFin y, XFin 1) (XFin x)
                  = (XFin ((1 - alpha) * y + alpha * x), XFin 1)).
  { unfold ewm_step.
    cbn [f_isnan f_mul f_sub f_add f_div f_neb f_of_Z Ideal.float
         Ideal.isnan Ideal.mul Ideal.sub Ideal.add Ideal.neb negb].
    destruct (Req_dec_T y x) as [E|E].
    - rewrite (Reqb_true E). cbn [negb]. subst x. do 2 f_equal. lra.
    - rewrite (Reqb_false E). cbn [negb Ideal.div].
      rewrite Reqb_false by lra. do 2 f_equal. field. lra. }
  rewrite Hstep. cbn [fst]. f_equal. apply IH.
Qed.

Lemma ewm_mean_fin (span : Z) (alpha : R) (xs : list R) :
  0 < IZR span -> alpha = 2 / (IZR span + 1) ->
  ewm_mean span (map XFin xs) = map XFin (ema_list alpha xs).
Proof.
  intros Hs Ha. destruct xs as [|x rest]; [reflexivity|].
  cbn [map ewm_mean ema_list]. rewrite (@ewm_alpha_fin span alpha Hs Ha).
  f_equal. apply ewm_from_fin.
Qed.

Lemma zip_with_sub_fin (a b : list R) :
  zip_with f_sub (map XFin a) (map XFin b) = map XFin (zip_with Rminus a b).
Proof.
  revert b. induction a as [|x a IH]; intros [|y b]; simpl; try reflexivity.
  now rewrite <- IH.
Qed.

End IdealMACD.

Lemma ema_from_step (alpha : R) (rest : list R) (y : R) (t : nat) (x : R) :
  nth_error rest t = Some x ->
  exists prev,
    nth_error (y :: ema_from alpha y rest) t = Some prev
    /\ nth_error (ema_from alpha y rest) t
       = Some ((1 - alpha) * prev + alpha * x)%R.
Proof.
  revert y t. induction rest as [|x1 rest IH]; intros y [|t] Hx;
    simpl in Hx; try discriminate.
  - injection Hx as <-. exists y. split; reflexivity.
  - destruct (IH ((1 - alpha) * y + alpha * x1)%R t Hx) as [prev [Hp Hn]].
    exists prev. split; [exact Hp|exact Hn].
Qed.

(** The list computed along the series is the specification's
    recursion, row by row. *)
Lemma ema_list_spec (alpha : R) (xs : list R) (t : nat) :
  (t < List.length xs)%nat ->
  nth_error (ema_list alpha xs) t = Some (ema_spec alpha xs t).
Proof.
  destruct xs as [|x0 rest]; [simpl; lia|].
  induction t as [|t IH]; intros Ht; [reflexivity|].
  simpl in Ht.
  assert (Hx : nth_error rest t = Some (nth (S t) (x0 :: rest) 0%R)).
  { simpl. apply nth_error_nth'. lia. }
  destruct (ema_from_step alpha rest x0 t Hx) as [prev [Hp Hn]].
  unfold ema_list in IH. rewrite IH in Hp by (simpl; lia).
  injection Hp as <-. exact Hn.
Qed.

Lemma length_ema_from (alpha y : R) (rest : list R) :
  List.length (ema_from alpha y rest) = List.length rest.
Proof. revert y. induction rest; simpl; auto. Qed.

Lemma length_ema_list (alpha : R) (xs : list R) :
  List.length (ema_list alpha xs) = List.length xs.
Proof. destruct xs; simpl; auto using length_ema_from. Qed.

Lemma ema_list_as_map (alpha : R) (xs : list R) :
  ema_list alpha xs = map (ema_spec alpha xs) (seq 0 (List.length xs)).
Proof.
  rewrite <- (length_ema_list alpha xs). apply list_as_map_seq.
  intros t Ht. apply ema_list_spec. now rewrite length_ema_list in Ht.
Qed.

Lemma zip_with_map_seq {A B C : Type} (f : A -> B -> C) (g : nat -> A)
      (h : nat -> B) (n : nat) :
  zip_with f (map g (seq 0 n)) (map h (seq 0 n))
  = map (fun t => f (g t) (h t)) (seq 0 n).
Proof.
  generalize 0%nat. induction n as [|n IH]; intros s; simpl; [reflexivity|].
  now rewrite IH.
Qed.

(** The five MACD columns of a table with a finite [Close]. *)
Lemma macd_cells (d : DataFrame Ideal.t) (close : list R) (t : nat) :
  lookup "Close" (df_columns d) = Some (FloatCol (map Ideal.XFin close)) ->
  (t < List.length close)%nat ->
  let d' := macd_frame 12 26 9 d in
  cell d' "EMA_fast" t = Some (Ideal.XFin (ema_spec (2 / 13) close t))
  /\ cell d' "EMA_slow" t = Some (Ideal.XFin (ema_spec (2 / 27) close t))
  /\ cell d' "MACD" t = Some (Ideal.XFin (macd_spec close t))
  /\ cell d' "Signal_Line" t = Some (Ideal.XFin (signal_spec close t))
  /\ cell d' "MACD_Histogram" t
     = Some (Ideal.XFin (macd_spec close t - signal_spec close t)).
Proof.
  intros Hc Ht d'. subst d'. unfold macd_frame, cell.
  rewrite (close_of_has_close _ Hc). cbn [as_float].
  rewrite (@ewm_mean_fin 12 (2 / 13) close) by lra.
  rewrite (@ewm_mean_fin 26 (2 / 27) close) by lra.
  rewrite zip_with_sub_fin.
  rewrite !ema_list_as_map, zip_with_map_seq.
  change (map (fun t0 => ema_spec (2 / 13) close t0 - ema_spec (2 / 27) close t0)%R
              (seq 0 (List.length close)))
    with (map (macd_spec close) (seq 0 (List.length close))).
  rewrite (@ewm_mean_fin 9 (2 / 10) _) by lra.
  rewrite zip_with_sub_fin.
  rewrite ema_list_as_map, length_map, length_seq, zip_with_map_seq.
  fold (signal_spec close).
  repeat split.
  - rewrite !lookup_df_assign_ne by reflexivity. rewrite lookup_df_assign_eq.
    cbn [as_float]. rewrite nth_error_map, nth_error_map_seq by assumption.
    reflexivity.
  - rewrite !lookup_df_assign_ne by reflexivity. rewrite lookup_df_assign_eq.
    cbn [as_float]. rewrite nth_error_map, nth_error_map_seq by assumption.
    reflexivity.
  - rewrite !lookup_df_assign_ne by reflexivity. rewrite lookup_df_assign_eq.
    cbn [as_float]. rewrite nth_error_map, nth_error_map_seq by assumption.
    reflexivity.
  - rewrite !lookup_df_assign_ne by reflexivity. rewrite lookup_df_assign_eq.
    cbn [as_float]. rewrite nth_error_map, nth_error_map_seq by assumption.
    reflexivity.
  - rewrite lookup_df_assign_eq.
    cbn [as_float]. rewrite nth_error_map, nth_error_map_seq by assumption.
    reflexivity.
Qed.

(** The histogram column is the difference of the two columns it is
    computed from, cell by cell, whatever the arithmetic. *)
Lemma macd_histogram_cells {F : Type} {FL : Float F} (d : DataFrame F)
      (i : nat) (m s : F) :
  let d' := macd_frame 12 26 9 d in
  cell d' "MACD" i = Some m -> cell d' "Signal_Line" i = Some s ->
  cell d' "MACD_Histogram" i = Some (f_sub m s).
Proof.
  intros d'. subst d'. unfold macd_frame, cell.
  rewrite !lookup_df_assign_ne by reflexivity.
  rewrite !lookup_df_assign_eq.
  rewrite !lookup_df_assign_ne by reflexivity.
  rewrite !lookup_df_assign_eq. cbn [as_float].
  intros Hm Hs. now apply nth_error_zip_with.
Qed.

(** C5.  [_calculate_macd] with the spans the engine passes (12, 26, 9):
    on every table with a [Close] column, and whatever the float
    arithmetic, each cell of MACD_Histogram is the difference of the
    MACD and Signal_Line cells of its row; and on every table whose
    [Close] is finite, in exact arithmetic, EMA_fast and EMA_slow are the
    exponential averages of Close with [alpha = 2/13] and [2/27], each
    seeded with the first close ([ema_spec] at row 0 is the first
    observation), MACD is their difference, Signal_Line is the
    exponential average of MACD with [alpha = 2/10], and MACD_Histogram
    is MACD minus Signal_Line. *)
Theorem macd_is_ema_difference_and_histogram_exact :
  (forall (F : Type) (FL : Float F) (st : State F) (df : ref)
          (d : DataFrame F),
      frame_at st df d -> has_close d ->
      exists d',
        _calculate_macd df 12 26 9 st = (Returns df, put df d' st)
        /\ forall (i : nat) (m s : F),
             cell d' "MACD" i = Some m ->
             cell d' "Signal_Line" i = Some s ->
             cell d' "MACD_Histogram" i = Some (f_sub m s))
  /\ (forall (st : State Ideal.t) (df : ref) (d : DataFrame Ideal.t)
             (close : list R),
         frame_at st df d ->
         lookup "Close" (df_columns d)
         = Some (FloatCol (map Ideal.XFin close)) ->
         exists d',
           _calculate_macd df 12 26 9 st = (Returns df, put df d' st)
           /\ forall t, (t < List.length close)%nat ->
                cell d' "EMA_fast" t
                = Some (Ideal.XFin (ema_spec (2 / 13) close t))
                /\ cell d' "EMA_slow" t
                   = Some (Ideal.XFin (ema_spec (2 / 27) close t))
                /\ cell d' "MACD" t = Some (Ideal.XFin (macd_spec close t))
                /\ cell d' "Signal_Line" t
                   = Some (Ideal.XFin (signal_spec close t))
                /\ cell d' "MACD_Histogram" t
                   = Some (Ideal.XFin
                             (macd_spec close t - signal_spec close t))).
Proof.
  split.
  - intros F FL st df d Hd Hc. exists (macd_frame 12 26 9 d). split.
    + now apply macd_run.
    + intros i m s. apply macd_histogram_cells.
  - intros st df d close Hd Hc. exists (macd_frame 12 26 9 d). split.
    + apply macd_run; [assumption|]. eexists; eassumption.
    + intros t Ht. now apply macd_cells.
Qed.

Lemma macd_is_ema_difference_and_histogram_exact_witness :
  (exists d',
     _calculate_macd 0 12 26 9 (one_table (close_table three_closes_b64))
     = (Returns 0%nat, put 0 d' (one_table (close_table three_closes_b64))))
  /\ (exists d',
        _calculate_macd 0 12 26 9
          (one_table (close_table (map Ideal.XFin three_closes)))
        = (Returns 0%nat,
           put 0 d' (one_table (close_table (map Ideal.XFin three_closes))))
        /\ cell d' "EMA_fast" 0 = Some (Ideal.XFin 10)
        /\ cell d' "EMA_fast" 1
           = Some (Ideal.XFin ((1 - 2 / 13) * 10 + 2 / 13 * 12))).
Proof.
  destruct macd_is_ema_difference_and_histogram_exact as [Hgen Hideal].
  split.
  - destruct (Hgen B64.t B64.float
                (one_table (close_table three_closes_b64)) 0%nat
                (close_table three_closes_b64) eq_refl
                (ex_intro _ (FloatCol three_closes_b64) eq_refl))
      as [d' [Hrun _]].
    exists d'. exact Hrun.
  - destruct (Hideal (one_table (close_table (map Ideal.XFin three_closes)))
                0%nat (close_table (map Ideal.XFin three_closes))
                three_closes eq_refl eq_refl) as [d' [Hrun Hcells]].
    exists d'. split; [exact Hrun|].
    split.
    + apply (Hcells 0%nat). simpl. lia.
    + apply (Hcells 1%nat). simpl. lia.
Defined.

(* ------------------------------------------------------------------ *)
(** ** One analysis run, step by step *)

Section RunFacts.
Context {F : Type} {FL : Float F}.
Variable str_float : F -> string.
Variable format_2f : F -> string.
Variable w : World F.

Lemma log_log (a b : list (Event F)) (st : State F) :
  log b (log a st) = log (a ++ b) st.
Proof. unfold log, with_trace. simpl. now rewrite app_assoc. Qed.

Lemma get_current_price_run (stock : string) (st : State F) :
  get_current_price w stock st
  = (Returns (spot_price w stock), log [EvLatestPrice] st).
Proof.
  unfold get_current_price, spot_price, try_except, bind, call, raise, ret.
  destruct (w_latest_price w stock) as [[|[x|] q]|e]; reflexivity.
Qed.

Lemma get_youtube_transcript_run (st : State F) :
  get_youtube_transcript w st
  = (Returns (transcript_text w), log [EvTranscript] st).
Proof.
  unfold get_youtube_transcript, transcript_text, try_except, bind, call, ret.
  destruct (w_transcript w "rWl9ehSIiXc"); reflexivity.
Qed.

Lemma get_fear_and_greed_index_run (st : State F) :
  get_fear_and_greed_index w st = (w_fear_and_greed w, log [EvFearGreed] st).
Proof. reflexivity. Qed.

Lemma translate_run (text : string) (st : State F) :
  _translate_to_korean w text st
  = (Returns (translated w text), log [EvTranslate text] st).
Proof.
  unfold _translate_to_korean, translated, try_except, call, ret.
  destruct (w_translate w text); reflexivity.
Qed.

(** Each headline fetch returns a list, whatever the provider does; the
    list is empty when the request fails. *)
Lemma google_news_guarded (stock : string) (st : State F) :
  exists items,
    _get_news_from_google w stock st = (Returns items, log [EvGoogleNews] st)
    /\ (forall e, w_google_news w stock = Raises e -> items = []).
Proof.
  unfold _get_news_from_google, try_except, bind, call, lift, ret.
  destruct (w_google_news w stock) as [data|e].
  - match goal with
    | |- context [all_some ?l] => destruct (all_some l) as [items|]
    end.
    + exists items. split; [reflexivity|]. intros e H. discriminate.
    + exists []. split; [reflexivity|]. intros e H. discriminate.
  - exists []. split; [reflexivity|]. reflexivity.
Qed.

Lemma alpha_vantage_news_guarded (stock : string) (st : State F) :
  exists items,
    _get_news_from_alpha_vantage w stock st
    = (Returns items, log [EvAlphaVantage] st)
    /\ (forall e, w_alpha_vantage w stock = Raises e -> items = []).
Proof.
  unfold _get_news_from_alpha_vantage, try_except, bind, call, lift, ret.
  destruct (w_alpha_vantage w stock) as [[feed|]|e].
  - match goal with
    | |- context [all_some ?l] => destruct (all_some l) as [items|]
    end.
    + exists items. split; [reflexivity|]. intros e H. discriminate.
    + exists []. split; [reflexivity|]. intros e H. discriminate.
  - exists []. split; [reflexivity|]. intros e H. discriminate.
  - exists []. split; [reflexivity|]. reflexivity.
Qed.

Lemma news_of_state (stock : string) (st st' : State F) :
  news_of w stock st = news_of w stock st'.
Proof.
  unfold news_of, get_news, bind.
  destruct (google_news_guarded stock st) as [g [Hg _]].
  destruct (google_news_guarded stock st') as [g' [Hg' _]].
  rewrite Hg, Hg'.
  destruct (alpha_vantage_news_guarded stock (log [EvGoogleNews] st))
    as [a [Ha _]].
  destruct (alpha_vantage_news_guarded stock (log [EvGoogleNews] st'))
    as [a' [Ha' _]].
  rewrite Ha, Ha'. unfold ret.
  unfold _get_news_from_google, try_except, bind, call, lift, ret in Hg, Hg'.
  unfold _get_news_from_alpha_vantage, try_except, bind, call, lift, ret
    in Ha, Ha'.
  destruct (w_google_news w stock) as [data|e];
    destruct (w_alpha_vantage w stock) as [[feed|]|e'];
    repeat match goal with
           | H : context [all_some ?l] |- _ => destruct (all_some l)
           end; congruence.
Qed.

Lemma get_news_run (stock : string) (st : State F) :
  get_news w stock st
  = (Returns (headlines w stock), log [EvGoogleNews; EvAlphaVantage] st).
Proof.
  unfold headlines. rewrite (news_of_state stock empty_state st).
  unfold news_of.
  unfold get_news, bind.
  destruct (google_news_guarded stock st) as [g [Hg _]]. rewrite Hg.
  destruct (alpha_vantage_news_guarded stock (log [EvGoogleNews] st))
    as [a [Ha _]].
  rewrite Ha. unfold ret. now rewrite log_log.
Qed.

Lemma process_df_raises (historicals : list (RawBar F)) (st st' : State F)
      (e : exn) :
  _process_df historicals st = (Raises e, st') -> st' = st.
Proof.
  unfold _process_df, raise, alloc.
  destruct historicals as [|b bs]; [congruence|].
  repeat match goal with
         | |- context [all_some ?l] => destruct (all_some l)
         end; congruence.
Qed.

(** [get_chart_data] touches the heap and the trace only, the calls it
    makes are the two historicals requests, and the references it
    returns hold tables. *)
Lemma get_chart_data_run (stock : string) (st st' : State F)
      (o : outcome (ref * ref)) :
  get_chart_data w stock st = (o, st') ->
  ledger st' = ledger st /\ said st' = said st
  /\ (exists evs, trace st' = trace st ++ evs /\ Forall is_historicals evs)
  /\ (forall m d, o = Returns (m, d) ->
                  exists dm dd, frame_at st' m dm /\ frame_at st' d dd).
Proof.
  unfold get_chart_data. unfold bind at 1. unfold call at 1.
  destruct (w_historicals w stock "day" "3month") as [hm|e].
  2:{ intros H. injection H as <- <-. simpl. repeat split.
      - exists [EvHistoricals "day" "3month"]. split; [reflexivity|].
        repeat constructor.
      - discriminate. }
  unfold bind at 1. unfold call at 1.
  destruct (w_historicals w stock "5minute" "day") as [hd|e].
  2:{ intros H. injection H as <- <-. simpl. repeat split.
      - exists [EvHistoricals "day" "3month"; EvHistoricals "5minute" "day"].
        split; [now rewrite <- app_assoc|]. repeat constructor.
      - discriminate. }
  set (s2 := with_trace _ _).
  assert (Hs2 : ledger s2 = ledger st /\ said s2 = said st
                /\ trace s2 = trace st
                              ++ [EvHistoricals "day" "3month";
                                  EvHistoricals "5minute" "day"]).
  { subst s2. simpl. now rewrite <- app_assoc. }
  destruct Hs2 as (Hl & Hsd & Ht).
  assert (Hev : exists evs, trace s2 = trace st ++ evs
                            /\ Forall is_historicals evs).
  { eexists. split; [exact Ht|]. repeat constructor. }
  clearbody s2.
  unfold bind at 1.
  destruct (_process_df hm s2) as [[m|e] s3] eqn:E3.
  2:{ apply process_df_raises in E3. subst s3.
      intros H. injection H as <- <-. repeat split; auto. discriminate. }
  destruct (process_df_normalized _ _ E3) as (dm & -> & -> & Nm).
  unfold bind at 1.
  destruct (_process_df hd _) as [[d|e] s4] eqn:E4.
  2:{ apply process_df_raises in E4. subst s4.
      intros H. injection H as <- <-. repeat split; auto. discriminate. }
  destruct (process_df_normalized _ _ E4) as (dd & -> & -> & Nd).
  cbn [heap with_heap].
  rewrite (@add_indicators_run _ _ _ (List.length (heap s2))
             (List.length (heap s2 ++ [dm])) dm dd).
  - intros H. injection H as <- <-. cbn. repeat split; auto.
    intros m d H. injection H as <- <-.
    eexists _, _. split.
    + eapply frame_at_put. apply frame_at_put_other.
      * rewrite length_app. simpl. lia.
      * eapply frame_at_put. unfold frame_at. cbn.
        rewrite nth_error_app1 by (rewrite length_app; simpl; lia).
        now rewrite nth_error_app2, Nat.sub_diag by lia.
    + apply frame_at_put_other; [rewrite length_app; simpl; lia|].
      eapply frame_at_put. apply frame_at_put_other.
      * rewrite length_app. simpl. lia.
      * unfold frame_at. cbn.
        now rewrite nth_error_app2, Nat.sub_diag by lia.
  - rewrite length_app. simpl. lia.
  - unfold frame_at. cbn.
    rewrite nth_error_app1 by (rewrite length_app; simpl; lia).
    now rewrite nth_error_app2, Nat.sub_diag by lia.
  - unfold frame_at. cbn.
    now rewrite nth_error_app2, Nat.sub_diag by lia.
  - now apply normalized_has_close.
  - now apply normalized_has_close.
Qed.

Lemma decide_run (stock : string) (monthly daily : DataFrame F)
      (fgi : FearGreed F) (current_price : F) (st : State F) :
  let system := system_prompt str_float current_price (transcript_text w) in
  let user := {| stock := stock;
                 monthly_data := monthly;
                 daily_data := daily;
                 fear_and_greed_index := fgi;
                 news := headlines w stock |} in
  decide str_float w stock monthly daily fgi current_price st
  = if is_unique (df_index monthly) && is_unique (df_index daily) then
      match w_oracle w system user with
      | Raises e => (Raises e, log [EvOracle system user] st)
      | Returns response =>
          match model_validate_json (w_lax w) response with
          | Raises e => (Raises e, log [EvOracle system user] st)
          | Returns result =>
              if int64 (percentage result)
                 && int64 (next_row_id (ledger st)) then
                (Returns (PyTuple [PyDecision result;
                                   PyStr (translated w (reason result));
                                   PyNews (headlines w stock);
                                   PyFearGreed fgi; PyFloat current_price]),
                 with_ledger
                   (ledger st
                    ++ [ledger_row w stock (ledger st) result current_price])
                   (log [EvOracle system user; EvTranslate (reason result)]
                      st))
              else
                (Raises (if int64 (percentage result) then table_full
                         else integer_overflow),
                 log [EvOracle system user; EvTranslate (reason result)] st)
          end
      end
    else (Raises non_unique_index, st).
Proof.
  intros system user. unfold decide. fold system.
  unfold bind at 1. unfold lift at 1. unfold to_json at 1.
  destruct (is_unique (df_index monthly)); [|reflexivity].
  unfold bind at 1. unfold lift at 1. unfold to_json at 1.
  destruct (is_unique (df_index daily)); [|reflexivity].
  fold user. cbn [andb].
  unfold bind at 1. unfold call at 1.
  destruct (w_oracle w system user) as [response|e]; [|reflexivity].
  unfold bind at 1. unfold lift at 1.
  destruct (model_validate_json (w_lax w) response) as [result|e];
    [|reflexivity].
  unfold bind at 1. rewrite translate_run.
  unfold bind, _record_trading_decision, ret, ledger_row.
  cbn [dict_Percentage dict_Decision dict_Reason dict_CurrentPrice
       dict_ExpectedNextDayPrice ledger log with_trace].
  destruct (int64 (percentage result)); cbn [negb andb].
  - destruct (int64 (next_row_id (ledger st))); cbn [negb].
    + unfold log, with_ledger, with_trace. cbn. now rewrite <- app_assoc.
    + unfold log, with_trace. cbn. now rewrite <- app_assoc.
  - unfold log, with_trace. cbn. now rewrite <- app_assoc.
Qed.

(** How the decision phase ends when it raises: the ledger and the
    messages are as they were, and at most the oracle and the translator
    were called. *)
Lemma decide_raises (stock : string) (monthly daily : DataFrame F)
      (fgi : FearGreed F) (current_price : F) (st st' : State F) (e : exn) :
  decide str_float w stock monthly daily fgi current_price st
  = (Raises e, st') ->
  ledger st' = ledger st /\ said st' = said st /\ heap st' = heap st
  /\ exists evs,
       trace st' = trace st ++ evs
       /\ (evs = []
           \/ exists user,
                evs = [EvOracle (system_prompt str_float current_price
                                   (transcript_text w)) user]
                \/ exists text,
                     evs = [EvOracle (system_prompt str_float current_price
                                        (transcript_text w)) user;
                            EvTranslate text]).
Proof.
  rewrite decide_run.
  destruct (is_unique (df_index monthly) && is_unique (df_index daily)).
  2:{ intros H. injection H as _ <-. repeat split; auto.
      exists []. split; [now rewrite app_nil_r|now left]. }
  match goal with
  | |- context [w_oracle w ?s ?u] => destruct (w_oracle w s u) as [response|e1]
  end.
  2:{ intros H. injection H as _ <-. repeat split; auto.
      eexists. split; [reflexivity|]. right. eexists. left. reflexivity. }
  destruct (model_validate_json (w_lax w) response) as [result|e1].
  2:{ intros H. injection H as _ <-. repeat split; auto.
      eexists. split; [reflexivity|]. right. eexists. left. reflexivity. }
  destruct (int64 (percentage result) && int64 (next_row_id (ledger st)));
    [discriminate|].
  intros H. injection H as _ <-. repeat split; auto.
  eexists. split; [reflexivity|]. right. eexists. right. eexists. reflexivity.
Qed.

(** How the decision phase ends when it returns: both tables had a
    unique index, the oracle answered, its answer validated, and the
    row was written. *)
Lemma decide_returns (stock : string) (monthly daily : DataFrame F)
      (fgi : FearGreed F) (current_price : F) (st st' : State F)
      (v : pyval F) :
  decide str_float w stock monthly daily fgi current_price st
  = (Returns v, st') ->
  let system := system_prompt str_float current_price (transcript_text w) in
  let user := {| stock := stock;
                 monthly_data := monthly;
                 daily_data := daily;
                 fear_and_greed_index := fgi;
                 news := headlines w stock |} in
  exists response result,
    is_unique (df_index monthly) = true /\ is_unique (df_index daily) = true
    /\ w_oracle w system user = Returns response
    /\ model_validate_json (w_lax w) response = Returns result
    /\ int64 (percentage result) = true
    /\ int64 (next_row_id (ledger st)) = true
    /\ v = PyTuple [PyDecision result; PyStr (translated w (reason result));
                    PyNews (headlines w stock); PyFearGreed fgi;
                    PyFloat current_price]
    /\ st' = with_ledger
               (ledger st
                ++ [ledger_row w stock (ledger st) result current_price])
               (log [EvOracle system user; EvTranslate (reason result)] st).
Proof.
  rewrite decide_run. intros H system user. fold system user in H.
  destruct (is_unique (df_index monthly)) eqn:Um; [|discriminate].
  destruct (is_unique (df_index daily)) eqn:Ud; [|discriminate].
  cbn [andb] in H.
  destruct (w_oracle w system user) as [response|e1] eqn:Eo; [|discriminate].
  destruct (model_validate_json (w_lax w) response) as [result|e1] eqn:Ev;
    [|discriminate].
  destruct (int64 (percentage result)) eqn:Ip; [|discriminate].
  destruct (int64 (next_row_id (ledger st))) eqn:In'; [|discriminate].
  cbn [andb] in H. injection H as <- <-.
  exists response, result. repeat split; auto.
Qed.

(** With a unique index in both tables the decision phase calls the
    oracle, whatever happens afterwards. *)
Lemma decide_calls_oracle (stock : string) (monthly daily : DataFrame F)
      (fgi : FearGreed F) (current_price : F) (st : State F) :
  is_unique (df_index monthly) = true ->
  is_unique (df_index daily) = true ->
  exists tail,
    trace (snd (decide str_float w stock monthly daily fgi current_price st))
    = trace st
      ++ EvOracle (system_prompt str_float current_price (transcript_text w))
           {| stock := stock; monthly_data := monthly; daily_data := daily;
              fear_and_greed_index := fgi; news := headlines w stock |}
         :: tail.
Proof.
  intros Um Ud. rewrite decide_run, Um, Ud. cbn [andb].
  match goal with
  | |- context [w_oracle w ?s ?u] => destruct (w_oracle w s u) as [response|e1]
  end.
  - destruct (model_validate_json (w_lax w) response) as [result|e1].
    + destruct (int64 (percentage result) && int64 (next_row_id (ledger st)));
        eexists; reflexivity.
    + eexists. reflexivity.
  - eexists. reflexivity.
Qed.

(** [ai_stock_analysis] as a decision tree over what its steps return. *)
Lemma ai_stock_analysis_run (stock : string) (st : State F) :
  ai_stock_analysis str_float w stock st
  = match get_chart_data w stock st with
    | (Raises e, s1) => (Raises e, s1)
    | (Returns (monthly_df, daily_df), s1) =>
        let s4 := log [EvGoogleNews; EvAlphaVantage; EvTranscript; EvFearGreed]
                      s1 in
        match w_fear_and_greed w with
        | Raises e => (Raises e, s4)
        | Returns fgi =>
            let s5 := log [EvGoogleNews; EvAlphaVantage; EvTranscript;
                           EvFearGreed; EvLatestPrice] s1 in
            match spot_price w stock with
            | None => (Returns (PyTuple [PyNone; PyNone]), s5)
            | Some current_price =>
                match nth_error (heap s1) monthly_df,
                      nth_error (heap s1) daily_df with
                | Some monthly, Some daily =>
                    decide str_float w stock monthly daily fgi current_price s5
                | _, _ =>
                    (Raises (Exn "ReferenceError" "no such object"), s5)
                end
            end
        end
    end.
Proof.
  unfold ai_stock_analysis. unfold bind at 1.
  destruct (get_chart_data w stock st) as [[[monthly_df daily_df]|e] s1];
    [|reflexivity].
  unfold bind at 1. rewrite get_news_run.
  unfold bind at 1. rewrite get_youtube_transcript_run.
  unfold bind at 1. rewrite get_fear_and_greed_index_run.
  rewrite !log_log. cbn [app].
  destruct (w_fear_and_greed w) as [fgi|e]; [|reflexivity].
  unfold bind at 1. rewrite get_current_price_run.
  rewrite !log_log. cbn [app]. cbv zeta.
  destruct (spot_price w stock) as [current_price|]; [|reflexivity].
  unfold bind at 1. unfold load at 1. cbn [heap log with_trace].
  destruct (nth_error (heap s1) monthly_df) as [monthly|].
  2:{ destruct (nth_error (heap s1) daily_df); reflexivity. }
  unfold bind at 1. unfold load at 1. cbn [heap log with_trace].
  destruct (nth_error (heap s1) daily_df) as [daily|]; [|reflexivity].
  reflexivity.
Qed.

End RunFacts.

(* ------------------------------------------------------------------ *)
(** ** The ways one analysis run can end *)

Lemma historicals_only {F : Type} (evs : list (Event F)) :
  Forall is_historicals evs ->
  existsb is_oracle_call evs = false /\ existsb is_price_fetch evs = false.
Proof.
  induction 1 as [|ev evs Hev _ [IH1 IH2]]; [split; reflexivity|].
  destruct ev; try contradiction. simpl. now rewrite IH1, IH2.
Qed.

Section RunCases.
Context {F : Type} {FL : Float F}.
Variable str_float : F -> string.
Variable w : World F.

(** Every run ends in one of four ways: the chart data raises; the
    sentiment index raises; the price is missing; or the run reaches
    the decision phase [decide] with everything it gathered. *)
Lemma analysis_cases (stock : string) (st : State F) :
  exists evs_h,
    Forall is_historicals evs_h /\
    ((exists e s1,
         get_chart_data w stock st = (Raises e, s1)
         /\ ai_stock_analysis str_float w stock st = (Raises e, s1)
         /\ trace s1 = trace st ++ evs_h
         /\ ledger s1 = ledger st /\ said s1 = said st)
     \/ (exists e s4,
            returned (fst (get_chart_data w stock st)) = true
            /\ w_fear_and_greed w = Raises e
            /\ ai_stock_analysis str_float w stock st = (Raises e, s4)
            /\ trace s4
               = trace st ++ evs_h
                 ++ [EvGoogleNews; EvAlphaVantage; EvTranscript; EvFearGreed]
            /\ ledger s4 = ledger st /\ said s4 = said st)
     \/ (exists fgi s5,
            returned (fst (get_chart_data w stock st)) = true
            /\ w_fear_and_greed w = Returns fgi
            /\ spot_price w stock = None
            /\ ai_stock_analysis str_float w stock st
               = (Returns (PyTuple [PyNone; PyNone]), s5)
            /\ trace s5 = trace st ++ evs_h ++ fetch_events
            /\ ledger s5 = ledger st /\ said s5 = said st)
     \/ (exists fgi current_price monthly daily s5,
            returned (fst (get_chart_data w stock st)) = true
            /\ w_fear_and_greed w = Returns fgi
            /\ spot_price w stock = Some current_price
            /\ ai_stock_analysis str_float w stock st
               = decide str_float w stock monthly daily fgi current_price s5
            /\ trace s5 = trace st ++ evs_h ++ fetch_events
            /\ ledger s5 = ledger st /\ said s5 = said st)).
Proof.
  rewrite ai_stock_analysis_run.
  destruct (get_chart_data w stock st) as [o s1] eqn:E.
  destruct (get_chart_data_run _ _ _ E) as (Hl & Hs & (evs_h & Ht & Hh) & Hf).
  exists evs_h. split; [exact Hh|].
  destruct o as [[m d]|e].
  2:{ left. exists e, s1. repeat split; auto. }
  right. destruct (Hf m d eq_refl) as (dm & dd & Hm & Hd).
  unfold frame_at in Hm, Hd.
  destruct (w_fear_and_greed w) as [fgi|e].
  2:{ left. eexists _, _. repeat split; auto.
      cbn. now rewrite Ht, <- app_assoc. }
  right. cbv zeta.
  destruct (spot_price w stock) as [cp|].
  - right. rewrite Hm, Hd. exists fgi, cp, dm, dd. eexists.
    repeat split; auto. cbn. now rewrite Ht, <- app_assoc.
  - left. exists fgi. eexists. repeat split; auto.
    cbn. now rewrite Ht, <- app_assoc.
Qed.

Lemma fetch_events_no_oracle :
  existsb is_oracle_call (@fetch_events F) = false.
Proof. reflexivity. Qed.

(** An oracle call in the trace of a run is the one call of its decision
    phase: it comes right after the price fetch, with the instruction
    and the payload of this run, and only the translation can follow
    it. *)
Lemma oracle_event_of_run (stock : string) (st : State F) (system : string)
      (user : Payload F) (evs : list (Event F)) :
  trace (snd (ai_stock_analysis str_float w stock st)) = trace st ++ evs ->
  In (EvOracle system user) evs ->
  exists fgi cp monthly daily s5 evs_h tail,
    Forall is_historicals evs_h
    /\ w_fear_and_greed w = Returns fgi
    /\ spot_price w stock = Some cp
    /\ ai_stock_analysis str_float w stock st
       = decide str_float w stock monthly daily fgi cp s5
    /\ trace s5 = trace st ++ evs_h ++ fetch_events
    /\ ledger s5 = ledger st /\ said s5 = said st
    /\ is_unique (df_index monthly) && is_unique (df_index daily) = true
    /\ system = system_prompt str_float cp (transcript_text w)
    /\ user = {| stock := stock; monthly_data := monthly;
                 daily_data := daily; fear_and_greed_index := fgi;
                 news := headlines w stock |}
    /\ evs = evs_h ++ fetch_events ++ EvOracle system user :: tail
    /\ (tail = [] \/ exists text, tail = [EvTranslate text]).
Proof.
  intros Htrace Hin.
  destruct (analysis_cases stock st) as (evs_h & Hh & Hcase).
  destruct (historicals_only Hh) as [Ho _].
  assert (Hno : forall evs', evs = evs' ->
                             existsb is_oracle_call evs' = false -> False).
  { intros evs' <- H.
    assert (Ht : existsb is_oracle_call evs = true).
    { apply existsb_exists. exists (EvOracle system user). auto. }
    rewrite Ht in H. discriminate. }
  destruct Hcase as [(e0 & s1 & _ & Hr & Ht & _)
                    |[(e0 & s4 & _ & _ & Hr & Ht & _)
                     |[(fgi & s5 & _ & _ & _ & Hr & Ht & _)
                      |(fgi & cp & monthly & daily & s5 & _ & Hf & Hp
                        & Hr & Ht & Hl & Hs)]]].
  - exfalso. rewrite Hr in Htrace. cbn [snd] in Htrace.
    rewrite Ht in Htrace. apply app_inv_head in Htrace.
    apply (Hno evs_h); auto.
  - exfalso. rewrite Hr in Htrace. cbn [snd] in Htrace.
    rewrite Ht in Htrace. apply app_inv_head in Htrace.
    apply (Hno _ (eq_sym Htrace)). now rewrite existsb_app, Ho.
  - exfalso. rewrite Hr in Htrace. cbn [snd] in Htrace.
    rewrite Ht in Htrace. apply app_inv_head in Htrace.
    apply (Hno _ (eq_sym Htrace)). now rewrite existsb_app, Ho.
  - exists fgi, cp, monthly, daily, s5, evs_h.
    rewrite Hr, decide_run in Htrace.
    set (sys := system_prompt str_float cp (transcript_text w)) in *.
    set (usr := {| stock := stock; monthly_data := monthly;
                   daily_data := daily; fear_and_greed_index := fgi;
                   news := headlines w stock |}) in *.
    assert (Hsame : forall tail,
               evs = evs_h ++ fetch_events ++ EvOracle sys usr :: tail ->
               (forall ev, In ev tail -> is_oracle_call ev = false) ->
               system = sys /\ user = usr).
    { intros tail Hevs Htail. rewrite Hevs in Hin.
      apply in_app_or in Hin. destruct Hin as [Hin|Hin].
      - exfalso. rewrite Forall_forall in Hh. apply (Hh _ Hin).
      - apply in_app_or in Hin. destruct Hin as [Hin|Hin].
        + exfalso. simpl in Hin.
          repeat (destruct Hin as [Hin|Hin]; [discriminate|]). exact Hin.
        + destruct Hin as [Hin|Hin].
          * injection Hin as <- <-. auto.
          * apply Htail in Hin. discriminate. }
    destruct (is_unique (df_index monthly) && is_unique (df_index daily))
      eqn:Eu.
    2:{ exfalso. cbn [snd] in Htrace. rewrite Ht in Htrace.
        apply app_inv_head in Htrace.
        apply (Hno _ (eq_sym Htrace)). now rewrite existsb_app, Ho. }
    assert (Hend : exists tail,
               evs = evs_h ++ fetch_events ++ EvOracle sys usr :: tail
               /\ (tail = [] \/ exists text, tail = [EvTranslate text])).
    { destruct (w_oracle w sys usr) as [response|e1].
      - destruct (model_validate_json (w_lax w) response) as [result|e1].
        + exists [EvTranslate (reason result)]. split; [|right; eauto].
          destruct (int64 (percentage result)
                    && int64 (next_row_id (ledger s5)));
            cbn [snd trace with_ledger log with_trace] in Htrace;
            rewrite Ht, <- !app_assoc in Htrace;
            apply app_inv_head in Htrace; now rewrite Htrace.
        + exists []. split; [|now left].
          cbn [snd trace log with_trace] in Htrace.
          rewrite Ht, <- !app_assoc in Htrace.
          apply app_inv_head in Htrace. now rewrite Htrace.
      - exists []. split; [|now left].
        cbn [snd trace log with_trace] in Htrace.
        rewrite Ht, <- !app_assoc in Htrace.
        apply app_inv_head in Htrace. now rewrite Htrace. }
    destruct Hend as (tail & Hevs & Htail).
    destruct (Hsame tail Hevs) as [-> ->].
    { intros ev Hev. destruct Htail as [->|[text ->]].
      - destruct Hev.
      - destruct Hev as [<-|[]]. reflexivity. }
    exists tail. repeat split; auto.
Qed.

End RunCases.

(* ------------------------------------------------------------------ *)
(** ** C6: a missing price aborts the run *)

(** C6.  In every run in which the spot-price fetch fails
    ([get_current_price] returns [None]: the request raises, or its
    answer has no first entry that converts to a float),
    [ai_stock_analysis] makes no oracle call and writes no ledger row,
    and it returns the pair (None, None); the only other way such a run
    ends is an exception raised before the price fetch was attempted. *)
Theorem missing_price_aborts_before_oracle
        {F : Type} {FL : Float F} (str_float : F -> string) (w : World F)
        (stock : string) (st : State F) :
  spot_price w stock = None ->
  exists evs,
    trace (snd (ai_stock_analysis str_float w stock st)) = trace st ++ evs
    /\ existsb is_oracle_call evs = false
    /\ ledger (snd (ai_stock_analysis str_float w stock st)) = ledger st
    /\ (fst (ai_stock_analysis str_float w stock st)
        = Returns (PyTuple [PyNone; PyNone])
        \/ (exists e,
               fst (ai_stock_analysis str_float w stock st) = Raises e
               /\ existsb is_price_fetch evs = false)).
Proof.
  intros Hp.
  destruct (analysis_cases str_float w stock st) as (evs_h & Hh & Hcase).
  destruct (historicals_only Hh) as [Ho Hpf].
  destruct Hcase as [(e & s1 & _ & -> & Ht & Hl & _)
                    |[(e & s4 & _ & _ & -> & Ht & Hl & _)
                     |[(fgi & s5 & _ & _ & _ & -> & Ht & Hl & _)
                      |(fgi & cp & _ & _ & _ & _ & _ & Hcp & _)]]].
  - exists evs_h. cbn [fst snd]. repeat split; auto.
    right. exists e. auto.
  - eexists. cbn [fst snd]. split; [exact Ht|].
    rewrite !existsb_app, Ho, Hpf. repeat split; auto.
    right. exists e. auto.
  - eexists. cbn [fst snd]. split; [exact Ht|].
    rewrite existsb_app, Ho. repeat split; auto.
  - congruence.
Qed.

Lemma missing_price_aborts_before_oracle_witness :
  spot_price (sample_world sample_transcript (Returns sample_fear_greed)
                (Raises fetch_failure)
                (Returns (Json (decision_json "BUY" 30 (B64.dec 102345 3)))))
             "AAPL" = None
  /\ exists evs,
       trace (snd (ai_stock_analysis str_100
                     (sample_world sample_transcript
                        (Returns sample_fear_greed) (Raises fetch_failure)
                        (Returns (Json (decision_json "BUY" 30
                                          (B64.dec 102345 3)))))
                     "AAPL" empty_state))
       = trace (@empty_state B64.t) ++ evs
       /\ existsb is_oracle_call evs = false.
Proof.
  split; [reflexivity|].
  destruct (@missing_price_aborts_before_oracle _ _ str_100
              (sample_world sample_transcript (Returns sample_fear_greed)
                 (Raises fetch_failure)
                 (Returns (Json (decision_json "BUY" 30 (B64.dec 102345 3)))))
              "AAPL" empty_state eq_refl) as (evs & Ht & Ho & _).
  exists evs. split; [exact Ht|exact Ho].
Defined.

(* ------------------------------------------------------------------ *)
(** ** C7: the sentiment index is not guarded, the headlines are *)

(** C7.  When the Fear and Greed fetch raises, [get_fear_and_greed_index]
    raises the same exception (it has no guard), and a run whose chart
    data was fetched ends with that exception, with no oracle call and
    no ledger row.  Each headline fetch, in contrast, always returns a
    list, which is empty when its request raises. *)
Theorem sentiment_failure_propagates_headline_failures_do_not
        {F : Type} {FL : Float F} (str_float : F -> string) (w : World F)
        (stock : string) (st : State F) (e : exn) :
  w_fear_and_greed w = Raises e ->
  returned (fst (get_chart_data w stock st)) = true ->
  fst (get_fear_and_greed_index w st) = Raises e
  /\ fst (ai_stock_analysis str_float w stock st) = Raises e
  /\ ledger (snd (ai_stock_analysis str_float w stock st)) = ledger st
  /\ (exists evs,
         trace (snd (ai_stock_analysis str_float w stock st))
         = trace st ++ evs
         /\ existsb is_oracle_call evs = false)
  /\ (exists items,
         fst (_get_news_from_google w stock st) = Returns items
         /\ (forall e', w_google_news w stock = Raises e' -> items = []))
  /\ (exists items,
         fst (_get_news_from_alpha_vantage w stock st) = Returns items
         /\ (forall e', w_alpha_vantage w stock = Raises e' -> items = [])).
Proof.
  intros Hf Hc.
  split; [rewrite get_fear_and_greed_index_run; exact Hf|].
  destruct (analysis_cases str_float w stock st) as (evs_h & Hh & Hcase).
  destruct (historicals_only Hh) as [Ho Hpf].
  assert (Hrun : fst (ai_stock_analysis str_float w stock st) = Raises e
                 /\ ledger (snd (ai_stock_analysis str_float w stock st))
                    = ledger st
                 /\ exists evs,
                      trace (snd (ai_stock_analysis str_float w stock st))
                      = trace st ++ evs
                      /\ existsb is_oracle_call evs = false).
  { destruct Hcase as [(e0 & s1 & Hg & _)
                      |[(e0 & s4 & _ & Hf' & -> & Ht & Hl & _)
                       |[(fgi & s5 & _ & Hf' & _)
                        |(fgi & cp & _ & _ & _ & _ & Hf' & _)]]];
      try congruence.
    - rewrite Hg in Hc. discriminate.
    - cbn [fst snd]. split; [congruence|]. split; [exact Hl|].
      eexists. split; [exact Ht|]. now rewrite existsb_app, Ho. }
  destruct Hrun as (H1 & H2 & H3).
  split; [exact H1|]. split; [exact H2|]. split; [exact H3|].
  split.
  - destruct (google_news_guarded w stock st) as [items [Hg Hempty]].
    exists items. rewrite Hg. split; [reflexivity|exact Hempty].
  - destruct (alpha_vantage_news_guarded w stock st) as [items [Hg Hempty]].
    exists items. rewrite Hg. split; [reflexivity|exact Hempty].
Qed.

Lemma sentiment_failure_propagates_headline_failures_do_not_witness :
  fst (ai_stock_analysis str_100
         (sample_world sample_transcript (Raises fetch_failure) price_100
            (Returns (Json (decision_json "BUY" 30 (B64.dec 102345 3)))))
         "AAPL" empty_state)
  = Raises fetch_failure.
Proof.
  apply (@sentiment_failure_propagates_headline_failures_do_not
           _ _ str_100
           (sample_world sample_transcript (Raises fetch_failure) price_100
              (Returns (Json (decision_json "BUY" 30 (B64.dec 102345 3)))))
           "AAPL" empty_state fetch_failure eq_refl).
  vm_compute. reflexivity.
Defined.

(* ------------------------------------------------------------------ *)
(** ** C9: two shapes of result *)

Section ResultShape.
Context {F : Type} {FL : Float F}.
Variable str_float : F -> string.
Variable format_2f : F -> string.
Variable w : World F.

(** A value [ai_stock_analysis] returns is a pair of [None] when the
    price is missing and a 5-tuple otherwise. *)
Lemma analysis_returns (stock : string) (st st' : State F) (v : pyval F) :
  ai_stock_analysis str_float w stock st = (Returns v, st') ->
  said st' = said st
  /\ match spot_price w stock with
     | None => v = PyTuple [PyNone; PyNone]
     | Some current_price =>
         exists result reason_kr news fgi,
           v = PyTuple [PyDecision result; PyStr reason_kr; PyNews news;
                        PyFearGreed fgi; PyFloat current_price]
     end.
Proof.
  intros Hrun.
  destruct (analysis_cases str_float w stock st) as (evs_h & Hh & Hcase).
  destruct Hcase as [(e0 & s1 & _ & Hr & _)
                    |[(e0 & s4 & _ & _ & Hr & _)
                     |[(fgi & s5 & _ & _ & Hp & Hr & _ & _ & Hs)
                      |(fgi & cp & monthly & daily & s5 & _ & _ & Hp
                        & Hr & _ & _ & Hs)]]];
    rewrite Hr in Hrun; try discriminate.
  - injection Hrun as <- <-. rewrite Hp. auto.
  - rewrite Hp.
    apply decide_returns in Hrun. cbv zeta in Hrun.
    destruct Hrun as (response & result & _ & _ & _ & _ & _ & _ & -> & ->).
    split; [exact Hs|]. eauto.
Qed.

End ResultShape.

(** C9.  [ai_stock_analysis] returns values of two shapes: the 2-tuple
    (None, None) when the price is missing, a 5-tuple (result,
    reason_kr, news, fgi, current_price) otherwise.  Unpacking the
    2-tuple into five names raises ValueError, and [process_trading],
    which does so, ends in its handler: it sends the error message and
    no report. *)
Theorem analysis_result_has_two_shapes
        {F : Type} {FL : Float F} (str_float format_2f : F -> string)
        (w : World F) (stock : string) (st0 st' : State F) (v : pyval F) :
  w_login w = Returns tt ->
  ai_stock_analysis str_float w stock (after_login stock st0)
  = (Returns v, st') ->
  match spot_price w stock with
  | None =>
      v = PyTuple [PyNone; PyNone]
      /\ unpack5 v = Raises (Exn "ValueError" "not enough values to unpack")
      /\ process_trading str_float format_2f w stock st0
         = (Returns tt,
            with_said (said st0 ++ [processing_message stock;
                                    error_message stock]) st')
  | Some current_price =>
      exists result reason_kr news fgi,
        v = PyTuple [PyDecision result; PyStr reason_kr; PyNews news;
                     PyFearGreed fgi; PyFloat current_price]
        /\ unpack5 v
           = Returns (PyDecision result, PyStr reason_kr, PyNews news,
                      PyFearGreed fgi, PyFloat current_price)
  end.
Proof.
  intros Hlogin Hrun.
  destruct (@analysis_returns _ _ _ _ _ _ _ _ Hrun) as [Hsaid Hshape].
  destruct (spot_price w stock) as [cp|].
  - destruct Hshape as (result & reason_kr & news & fgi & ->).
    exists result, reason_kr, news, fgi. split; reflexivity.
  - subst v. split; [reflexivity|]. split; [reflexivity|].
    unfold process_trading.
    unfold bind at 1. unfold say at 1.
    unfold try_except.
    unfold bind at 1. unfold AIStockAdvisorSystem, call. rewrite Hlogin.
    fold (processing_message stock).
    change (with_trace _ _) with (after_login stock st0).
    unfold bind at 1. rewrite Hrun.
    unfold bind at 1. unfold lift at 1. cbn [unpack5 List.length Nat.ltb Nat.leb].
    unfold say. fold (error_message stock). f_equal.
    unfold with_said. rewrite Hsaid. cbn. now rewrite <- app_assoc.
Qed.

Lemma analysis_result_has_two_shapes_witness :
  process_trading str_100 format_100
    (sample_world sample_transcript (Returns sample_fear_greed)
       (Raises fetch_failure)
       (Returns (Json (decision_json "BUY" 30 (B64.dec 102345 3)))))
    "AAPL" empty_state
  = (Returns tt,
     with_said
       (said (@empty_state B64.t)
        ++ [processing_message "AAPL"; error_message "AAPL"])
       (snd (ai_stock_analysis str_100
               (sample_world sample_transcript (Returns sample_fear_greed)
                  (Raises fetch_failure)
                  (Returns (Json (decision_json "BUY" 30
                                    (B64.dec 102345 3)))))
               "AAPL" (after_login "AAPL" empty_state)))).
Proof.
  apply (@analysis_result_has_two_shapes _ _ str_100 format_100
           (sample_world sample_transcript (Returns sample_fear_greed)
              (Raises fetch_failure)
              (Returns (Json (decision_json "BUY" 30 (B64.dec 102345 3)))))
           "AAPL" empty_state _ (PyTuple [PyNone; PyNone]) eq_refl).
  vm_compute. reflexivity.
Defined.

(* ------------------------------------------------------------------ *)
(** ** C1: what the validation of the oracle's answer checks *)




Section Validation.
Context {F : Type} {FL : Float F}.
Variable lax : Lax F.



End Validation.






(* ------------------------------------------------------------------ *)
(** ** C3: what the ledger stores *)





Lemma sample_run_completes :
  ai_stock_analysis str_100 (answering_world "BUY" 30) "AAPL" empty_state
  = (Returns
       (PyTuple
          [PyDecision {| decision := "BUY"; percentage := 30;
                         reason := "momentum";
                         expected_next_day_price := B64.dec 102345 3 |};
           PyStr "momentum";
           PyNews {| google_news := []; alpha_vantage_news := [] |};
           PyFearGreed sample_fear_greed; PyFloat (B64.dec 10000 2)]),
     snd (ai_stock_analysis str_100 (answering_world "BUY" 30) "AAPL"
            empty_state)).
Proof. vm_compute. reflexivity. Qed.


(* ------------------------------------------------------------------ *)
(** ** Whole words in a text *)

(** Decides the comparisons of character codes a goal is made of. *)
Ltac char_cases :=
  repeat match goal with
         | H : context [(?a <=? ?b)%N] |- _ => destruct (N.leb_spec a b)
         | |- context [(?a <=? ?b)%N] => destruct (N.leb_spec a b)
         end;
  simpl in *; try reflexivity; try discriminate; try lia.

Section MentionFacts.
Variable ua : N -> bool.

Lemma is_letter_lt c : is_letter c = true -> (c <? 128)%N = true.
Proof.
  unfold is_letter, is_upper, is_lower. intros H.
  apply N.ltb_lt.
  apply orb_true_iff in H. destruct H as [H|H];
    apply andb_true_iff in H; destruct H as [_ H]; apply N.leb_le in H; lia.
Qed.

Lemma is_letter_word c : is_letter c = true -> is_word ua c = true.
Proof.
  intros H. unfold is_word. rewrite (is_letter_lt _ H), H. reflexivity.
Qed.

Lemma letters_upto_le max s : (letters_upto max s <= max)%nat.
Proof.
  revert s. induction max as [|m IH]; intros [|c s]; simpl; try lia.
  destruct (is_letter c); [specialize (IH s)|]; lia.
Qed.

Lemma letters_upto_length max s : (letters_upto max s <= List.length s)%nat.
Proof.
  revert s. induction max as [|m IH]; intros [|c s]; simpl; try lia.
  destruct (is_letter c); [specialize (IH s)|]; lia.
Qed.

Lemma letters_upto_letters max s j :
  (j <= letters_upto max s)%nat -> forallb is_letter (firstn j s) = true.
Proof.
  revert s j. induction max as [|m IH]; intros [|c s] [|j]; simpl;
    try reflexivity; try lia.
  destruct (is_letter c) eqn:E; [|lia].
  intros H. simpl. apply IH. lia.
Qed.

Lemma letters_upto_app max m post :
  forallb is_letter m = true -> (List.length m <= max)%nat ->
  (List.length m = max
   \/ match hd_error post with Some c => is_letter c = false | None => True end) ->
  letters_upto max (m ++ post) = List.length m.
Proof.
  revert m. induction max as [|k IH]; intros [|c m] Hl Hm Hend; simpl in *;
    try reflexivity; try lia.
  - destruct post as [|c post]; [reflexivity|]. simpl in Hend.
    destruct Hend as [Hend|Hend]; [lia|]. now rewrite Hend.
  - apply andb_true_iff in Hl. destruct Hl as [Hc Hl]. rewrite Hc.
    f_equal. apply IH; [assumption|lia|]. destruct Hend; [left; lia|now right].
Qed.

Lemma try_lengths_Some k s m :
  try_lengths ua k s = Some m ->
  exists j, (j < k)%nat /\ m = firstn (S j) s
            /\ word_boundary ua (nth_error s j) (nth_error s (S j)) = true.
Proof.
  induction k as [|k IH]; cbn [try_lengths]; [discriminate|].
  destruct (word_boundary ua (nth_error s k) (nth_error s (S k))) eqn:E.
  - intros H. injection H as <-. exists k. repeat split; auto.
  - intros H. destruct (IH H) as (j & Hj & Hm & Hb). exists j. auto.
Qed.

Lemma forallb_nth_error {A} (p : A -> bool) l i x :
  forallb p l = true -> nth_error l i = Some x -> p x = true.
Proof.
  intros H Hx. rewrite forallb_forall in H. apply H.
  eapply nth_error_In; eauto.
Qed.

Lemma hd_error_skipn {A} (l : list A) j : hd_error (skipn j l) = nth_error l j.
Proof.
  revert l. induction j as [|j IH]; intros [|x l]; simpl; auto.
Qed.

(** What a match at one position is. *)
Lemma match_here_sound before s m :
  match_here ua before s = Some m ->
  exists post,
    s = m ++ post /\ (1 <= List.length m <= 5)%nat
    /\ forallb is_letter m = true
    /\ word_at ua before = false /\ word_at ua (hd_error post) = false.
Proof.
  unfold match_here.
  destruct (word_boundary ua before (hd_error s)) eqn:Hb; [|discriminate].
  intros H. apply try_lengths_Some in H. destruct H as (j & Hj & -> & Hbj).
  pose proof (letters_upto_le 5 s) as H5.
  pose proof (letters_upto_length 5 s) as Hlen.
  pose proof (@letters_upto_letters 5 s (S j) ltac:(lia)) as Hl.
  exists (skipn (S j) s).
  assert (Hfl : List.length (firstn (S j) s) = S j).
  { rewrite length_firstn. lia. }
  split; [now rewrite firstn_skipn|].
  split; [lia|]. split; [exact Hl|].
  assert (Hnth : forall i, (i <= j)%nat -> exists c, nth_error s i = Some c
                                      /\ is_letter c = true).
  { intros i Hi. destruct (nth_error s i) as [c|] eqn:E.
    - exists c. split; [reflexivity|].
      apply (@forallb_nth_error _ is_letter (firstn (S j) s) i c Hl).
      rewrite nth_error_firstn. destruct (Nat.ltb_spec i (S j)); [exact E|lia].
    - apply nth_error_None in E. lia. }
  split.
  - destruct (Hnth 0%nat ltac:(lia)) as (c & Hc & Hlc).
    destruct s as [|c0 s]; [discriminate|]. simpl in Hc. injection Hc as ->.
    destruct (word_at ua before) eqn:E; [|reflexivity].
    unfold word_boundary in Hb. rewrite E in Hb. cbn [hd_error word_at] in Hb.
    rewrite (is_letter_word _ Hlc) in Hb. discriminate.
  - rewrite hd_error_skipn.
    destruct (Hnth j ltac:(lia)) as (c & Hc & Hlc).
    destruct (word_at ua (nth_error s (S j))) eqn:E; [|reflexivity].
    unfold word_boundary in Hbj. rewrite E, Hc in Hbj. cbn [word_at] in Hbj.
    rewrite (is_letter_word _ Hlc) in Hbj. discriminate.
Qed.

Lemma word_at_not_letter c :
  word_at ua c = false ->
  match c with Some c => is_letter c = false | None => True end.
Proof.
  destruct c as [c|]; simpl; [|trivial].
  intros H. destruct (is_letter c) eqn:E; [|reflexivity].
  now rewrite (is_letter_word _ E) in H.
Qed.

Lemma try_lengths_hit k s :
  word_boundary ua (nth_error s k) (nth_error s (S k)) = true ->
  try_lengths ua (S k) s = Some (firstn (S k) s).
Proof. cbn [try_lengths]. now intros ->. Qed.

Lemma match_here_complete before m post :
  (1 <= List.length m <= 5)%nat -> forallb is_letter m = true ->
  word_at ua before = false -> word_at ua (hd_error post) = false ->
  match_here ua before (m ++ post) = Some m.
Proof.
  intros Hlen Hl Hb Ha. unfold match_here.
  destruct m as [|c m]; [simpl in Hlen; lia|].
  assert (Hc : is_letter c = true).
  { simpl in Hl. now apply andb_true_iff in Hl. }
  unfold word_boundary at 1. simpl hd_error. simpl word_at at 2.
  rewrite Hb, (is_letter_word _ Hc). simpl xorb.
  rewrite letters_upto_app; [|assumption|lia|right; now apply word_at_not_letter].
  simpl List.length.
  rewrite try_lengths_hit.
  - f_equal. change (S (List.length m)) with (List.length (c :: m)).
    now rewrite firstn_app, firstn_all, Nat.sub_diag, app_nil_r.
  - assert (Hlast : exists x, nth_error ((c :: m) ++ post) (List.length m) = Some x
                              /\ is_letter x = true).
    { destruct (nth_error (c :: m) (List.length m)) as [x|] eqn:E.
      - exists x. split.
        + rewrite nth_error_app1 by (simpl; lia). exact E.
        + eapply forallb_nth_error; eauto.
      - apply nth_error_None in E. simpl in E. lia. }
    destruct Hlast as (x & Hx & Hlx). rewrite Hx.
    change (S (List.length m)) with (List.length (c :: m)).
    rewrite nth_error_app2 by lia. rewrite Nat.sub_diag.
    unfold word_boundary. simpl word_at at 1.
    rewrite (is_letter_word _ Hlx).
    destruct post as [|p post]; simpl in *; [reflexivity|now rewrite Ha].
Qed.

Lemma prev_char_snoc before pre c : prev_char before (pre ++ [c]) = Some c.
Proof. unfold prev_char. now rewrite rev_app_distr. Qed.

Lemma prev_char_cons before c pre :
  prev_char before (c :: pre) = prev_char (Some c) pre.
Proof.
  unfold prev_char. simpl.
  destruct (rev pre) as [|x r] eqn:E; simpl; reflexivity.
Qed.

(** A search that succeeds: where the match stands, and that no earlier
    position has one. *)
Lemma search_from_Some before s m :
  search_from ua before s = Some m ->
  exists pre post,
    s = pre ++ m ++ post
    /\ match_here ua (prev_char before pre) (m ++ post) = Some m
    /\ forall pre1 rest1,
         pre = pre1 ++ rest1 -> rest1 <> [] ->
         match_here ua (prev_char before pre1) (rest1 ++ m ++ post) = None.
Proof.
  revert before. induction s as [|c s IH]; intros before; simpl.
  - destruct (match_here ua before []) as [m'|] eqn:E; [|discriminate].
    intros H. injection H as ->.
    destruct (match_here_sound _ _ E) as (post & Hs & _).
    exists [], post. split; [exact Hs|]. split.
    + simpl. now rewrite <- Hs.
    + intros pre1 rest1 Hp Hr. destruct pre1; destruct rest1; simpl in Hp;
        congruence.
  - destruct (match_here ua before (c :: s)) as [m'|] eqn:E.
    + intros H. injection H as ->.
      destruct (match_here_sound _ _ E) as (post & Hs & _).
      exists [], post. split; [exact Hs|]. split.
      * simpl. now rewrite <- Hs.
      * intros pre1 rest1 Hp Hr. destruct pre1; destruct rest1; simpl in Hp;
          congruence.
    + intros H. destruct (IH _ H) as (pre & post & Hs & Hm & Hleft).
      exists (c :: pre), post. split; [simpl; now rewrite Hs|].
      split; [now rewrite prev_char_cons|].
      intros pre1 rest1 Hp Hr. destruct pre1 as [|c1 pre1].
      * simpl in Hp. subst rest1. simpl. rewrite <- Hs. exact E.
      * simpl in Hp. injection Hp as <- Hp. rewrite prev_char_cons.
        now apply Hleft.
Qed.

Lemma search_from_hit before s m :
  match_here ua before s = Some m -> search_from ua before s = Some m.
Proof. destruct s; cbn [search_from]; now intros ->. Qed.

Lemma search_from_None before s :
  search_from ua before s = None ->
  forall pre rest, s = pre ++ rest ->
                   match_here ua (prev_char before pre) rest = None.
Proof.
  revert before. induction s as [|c s IH]; intros before; simpl.
  - destruct (match_here ua before []) eqn:E; [discriminate|].
    intros _ pre rest Hs. destruct pre; destruct rest; try discriminate.
    exact E.
  - destruct (match_here ua before (c :: s)) eqn:E; [discriminate|].
    intros H pre rest Hs. destruct pre as [|c1 pre].
    + simpl in Hs. subst rest. exact E.
    + simpl in Hs. injection Hs as <- Hs. rewrite prev_char_cons.
      now apply IH.
Qed.

Lemma app_split_shorter {A} (pre X pre' Y : list A) :
  pre ++ X = pre' ++ Y -> (List.length pre' < List.length pre)%nat ->
  exists rest1, pre = pre' ++ rest1 /\ rest1 <> [] /\ Y = rest1 ++ X.
Proof.
  revert pre'. induction pre as [|a pre IH]; intros [|b pre'] H Hl; simpl in *;
    try lia.
  - exists (a :: pre). repeat split; [discriminate|now rewrite <- H].
  - injection H as <- H. destruct (IH pre' H ltac:(lia)) as (r & -> & Hr & ->).
    exists r. auto.
Qed.

(** The match the search returns is a whole word of one to five letters,
    and the first one of the text. *)
Lemma search_finds_first_whole_word text m :
  search_from ua None text = Some m ->
  exists pre post,
    text = pre ++ m ++ post /\ whole_word ua pre m post
    /\ forall pre' w' post',
         text = pre' ++ w' ++ post' -> whole_word ua pre' w' post' ->
         (List.length pre <= List.length pre')%nat.
Proof.
  intros H. destruct (search_from_Some _ _ H) as (pre & post & Hs & Hm & Hleft).
  exists pre, post. split; [exact Hs|].
  destruct (match_here_sound _ _ Hm) as (post0 & Hs0 & Hlen & Hl & Hb & Ha).
  apply app_inv_head in Hs0. subst post0.
  split; [repeat split; auto; lia|].
  intros pre' w' post' Hs' (Hlen' & Hl' & Hb' & Ha').
  destruct (Nat.le_gt_cases (List.length pre) (List.length pre')) as [|Hlt];
    [assumption|exfalso].
  rewrite Hs in Hs'.
  destruct (app_split_shorter _ _ _ _ Hs' Hlt) as (rest1 & Hp & Hr & HY).
  specialize (Hleft pre' rest1 Hp Hr). rewrite <- HY in Hleft.
  rewrite (@match_here_complete _ _ _ Hlen' Hl' Hb' Ha') in Hleft. discriminate.
Qed.

Lemma search_none_iff text :
  search_from ua None text = None
  <-> ~ exists pre w post, text = pre ++ w ++ post /\ whole_word ua pre w post.
Proof.
  split.
  - intros H (pre & w & post & Hs & Hlen & Hl & Hb & Ha).
    pose proof (@search_from_None _ _ H pre (w ++ post) Hs) as Hn.
    rewrite (@match_here_complete _ _ _ Hlen Hl Hb Ha) in Hn. discriminate.
  - intros Hno. destruct (search_from ua None text) as [m|] eqn:E; [|reflexivity].
    exfalso. apply Hno.
    destruct (search_finds_first_whole_word _ E) as (pre & post & Hs & Hw & _).
    exists pre, m, post. auto.
Qed.

(** *** Case *)

Lemma is_letter_upper_char c : is_letter (upper_char c) = is_letter c.
Proof.
  unfold upper_char, is_letter, is_upper, is_lower.
  destruct (N.leb_spec 97 c), (N.leb_spec c 122); cbn [andb]; char_cases.
Qed.

Lemma upper_char_letter c : is_letter c = true -> is_upper (upper_char c) = true.
Proof.
  unfold upper_char, is_letter, is_upper, is_lower.
  destruct (N.leb_spec 97 c), (N.leb_spec c 122); cbn [andb]; char_cases.
Qed.

Lemma upper_char_upper c : is_upper c = true -> upper_char c = c.
Proof.
  unfold upper_char, is_upper, is_lower.
  destruct (N.leb_spec 97 c), (N.leb_spec c 122); cbn [andb]; char_cases.
Qed.

Lemma is_word_upper_char c : is_word ua (upper_char c) = is_word ua c.
Proof.
  destruct (is_lower c) eqn:E.
  - assert (Hl : is_letter c = true) by (unfold is_letter; rewrite E; apply orb_true_r).
    rewrite (is_letter_word _ Hl). apply is_letter_word.
    now rewrite is_letter_upper_char.
  - unfold upper_char. now rewrite E.
Qed.

Lemma word_at_upper c : word_at ua (option_map upper_char c) = word_at ua c.
Proof. destruct c; simpl; [apply is_word_upper_char|reflexivity]. Qed.

Lemma letters_upto_upper max s :
  letters_upto max (map upper_char s) = letters_upto max s.
Proof.
  revert s. induction max as [|k IH]; intros [|c s]; simpl; try reflexivity.
  rewrite is_letter_upper_char, IH. reflexivity.
Qed.

Lemma try_lengths_upper k s :
  try_lengths ua k (map upper_char s)
  = option_map (map upper_char) (try_lengths ua k s).
Proof.
  induction k as [|k IH]; cbn [try_lengths]; [reflexivity|].
  rewrite !nth_error_map. unfold word_boundary. rewrite !word_at_upper.
  fold (word_boundary ua (nth_error s k) (nth_error s (S k))).
  destruct (word_boundary ua (nth_error s k) (nth_error s (S k))).
  - simpl. destruct s as [|c s]; simpl; [reflexivity|]. now rewrite firstn_map.
  - exact IH.
Qed.

Lemma match_here_upper before s :
  match_here ua (option_map upper_char before) (map upper_char s)
  = option_map (map upper_char) (match_here ua before s).
Proof.
  unfold match_here, word_boundary.
  replace (hd_error (map upper_char s)) with (option_map upper_char (hd_error s))
    by (destruct s; reflexivity).
  rewrite !word_at_upper, letters_upto_upper, try_lengths_upper.
  destruct (xorb _ _); reflexivity.
Qed.

Lemma search_from_upper before s :
  search_from ua (option_map upper_char before) (map upper_char s)
  = option_map (map upper_char) (search_from ua before s).
Proof.
  revert before. induction s as [|c s IH]; intros before.
  - pose proof (match_here_upper before []) as H. cbn [map] in H.
    cbn [search_from map]. rewrite H.
    destruct (match_here ua before []); reflexivity.
  - pose proof (match_here_upper before (c :: s)) as H. cbn [map] in H.
    cbn [search_from map]. rewrite H.
    destruct (match_here ua before (c :: s)); [reflexivity|].
    cbn [option_map]. apply (IH (Some c)).
Qed.

Lemma upper_char_idem c : upper_char (upper_char c) = upper_char c.
Proof.
  unfold upper_char at 1. destruct (is_lower (upper_char c)) eqn:E; [|reflexivity].
  exfalso. unfold upper_char, is_lower in E.
  destruct (N.leb_spec 97 c), (N.leb_spec c 122); cbn [andb] in E; char_cases.
Qed.

(** *** Texts and strings *)

Lemma length_string_of_list_ascii l :
  String.length (string_of_list_ascii l) = List.length l.
Proof. induction l; simpl; auto. Qed.

Lemma text_of_string_of_text t :
  Forall (fun c => (c < 256)%N) t -> text_of_string (string_of_text t) = t.
Proof.
  unfold text_of_string, string_of_text.
  rewrite list_ascii_of_string_of_list_ascii, map_map.
  induction 1 as [|c t Hc _ IH]; simpl; [reflexivity|].
  now rewrite N_ascii_embedding, IH.
Qed.

Lemma upper_letters_small m :
  forallb is_letter m = true ->
  Forall (fun c => (c < 256)%N) (map upper_char m)
  /\ forallb is_upper (map upper_char m) = true.
Proof.
  induction m as [|c m IH]; simpl; [auto|].
  intros H. apply andb_true_iff in H. destruct H as [Hc Hm].
  destruct (IH Hm) as [IH1 IH2].
  pose proof (upper_char_letter _ Hc) as Hu. rewrite Hu, IH2.
  split; [|reflexivity]. constructor; [|assumption].
  unfold is_upper in Hu. apply andb_true_iff in Hu. destruct Hu as [_ Hu].
  apply N.leb_le in Hu. lia.
Qed.

Lemma is_upper_letter c : is_upper c = true -> is_letter c = true.
Proof. unfold is_letter. now intros ->. Qed.

End MentionFacts.

(* ------------------------------------------------------------------ *)
(** ** The headlines and their lines in the report *)

Lemma all_some_map_Forall2 {A B : Type} (f : A -> option B) (l : list A)
      (r : list B) :
  all_some (map f l) = Some r -> Forall2 (fun x y => f x = Some y) l r.
Proof.
  revert r. induction l as [|x l IH]; simpl; intros r H.
  - injection H as <-. constructor.
  - destruct (f x) as [y|] eqn:E; [|discriminate].
    destruct (all_some (map f l)) as [r'|]; [|discriminate].
    injection H as <-. constructor; auto.
Qed.

Lemma all_some_map_None {A B : Type} (f : A -> option B) (l : list A) :
  all_some (map f l) = None <-> Exists (fun x => f x = None) l.
Proof.
  induction l as [|x l IH]; simpl.
  - split; [discriminate|]. intros H. inversion H.
  - destruct (f x) as [y|] eqn:E.
    + destruct (all_some (map f l)) as [r'|].
      * split; [discriminate|]. intros H. inversion H; subst; [congruence|].
        apply IH in H1. discriminate.
      * split; [|reflexivity]. intros _. apply Exists_cons_tl. now apply IH.
    + split; [|reflexivity]. intros _. now apply Exists_cons_hd.
Qed.

Lemma all_some_map_total {A B : Type} (f : A -> option B) (g : A -> B)
      (l : list A) :
  Forall (fun x => f x = Some (g x)) l -> all_some (map f l) = Some (map g l).
Proof.
  induction 1 as [|x l Hx _ IH]; simpl; [reflexivity|].
  now rewrite Hx, IH.
Qed.

Lemma Forall2_length_le {A B : Type} (P : A -> B -> Prop) l r :
  Forall2 P l r -> List.length r = List.length l.
Proof. induction 1; simpl; auto. Qed.

Section NewsFacts.
Context {F : Type} {FL : Float F}.
Variable w : World F.

Lemma google_news_items (stock : string) (st : State F) :
  exists items,
    _get_news_from_google w stock st = (Returns items, log [EvGoogleNews] st)
    /\ match w_google_news w stock with
       | Returns (Some results) =>
           Forall2 google_item (firstn 5 results) items
           \/ (items = []
               /\ Exists (fun r => g_title r = None \/ g_date r = None)
                         (firstn 5 results))
       | _ => items = []
       end.
Proof.
  unfold _get_news_from_google, try_except, bind, call, lift, ret.
  destruct (w_google_news w stock) as [[results|]|e].
  - match goal with
    | |- context [all_some (map ?f ?l)] =>
        destruct (all_some (map f l)) as [items|] eqn:E
    end.
    + exists items. split; [reflexivity|]. left.
      apply all_some_map_Forall2 in E.
      eapply Forall2_impl; [|exact E]. intros r item H. cbv beta in H.
      unfold google_item.
      destruct (g_title r) as [t|]; [|discriminate].
      destruct (g_date r) as [d|]; [|discriminate].
      injection H as <-. eauto.
    + exists []. split; [reflexivity|]. right. split; [reflexivity|].
      apply all_some_map_None in E.
      eapply Exists_impl; [|exact E]. intros r H. cbv beta in H.
      destruct (g_title r); [|auto]. destruct (g_date r); [discriminate|auto].
  - exists []. split; reflexivity.
  - exists []. split; reflexivity.
Qed.

Lemma alpha_vantage_news_items (stock : string) (st : State F) :
  exists items,
    _get_news_from_alpha_vantage w stock st
    = (Returns items, log [EvAlphaVantage] st)
    /\ match w_alpha_vantage w stock with
       | Returns (Some feed) =>
           Forall2 alpha_item (firstn 10 feed) items
           \/ (items = []
               /\ Exists (fun a => exists tp,
                              a_time_published a = Some tp
                              /\ tp <> "No date"%string
                              /\ a_time_formatted a = None)
                         (firstn 10 feed))
       | _ => items = []
       end.
Proof.
  unfold _get_news_from_alpha_vantage, try_except, bind, call, lift, ret.
  destruct (w_alpha_vantage w stock) as [[feed|]|e].
  - match goal with
    | |- context [all_some (map ?f ?l)] =>
        destruct (all_some (map f l)) as [items|] eqn:E
    end.
    + exists items. split; [reflexivity|]. left.
      apply all_some_map_Forall2 in E.
      eapply Forall2_impl; [|exact E]. intros a item H. cbv beta zeta in H.
      unfold alpha_item.
      destruct (a_time_published a) as [tp|].
      * destruct (String.eqb tp "No date") eqn:Etp.
        -- injection H as <-. eexists _, _. split; [reflexivity|].
           split; [reflexivity|]. reflexivity.
        -- destruct (a_time_formatted a) as [p|]; [|discriminate].
           injection H as <-. eexists _, _. split; [reflexivity|].
           split; reflexivity.
      * cbn in H. injection H as <-. eexists _, _. split; [reflexivity|].
        split; reflexivity.
    + exists []. split; [reflexivity|]. right. split; [reflexivity|].
      apply all_some_map_None in E.
      eapply Exists_impl; [|exact E]. intros a H. cbv beta zeta in H.
      destruct (a_time_published a) as [tp|].
      * destruct (String.eqb tp "No date") eqn:Etp; [discriminate|].
        exists tp. split; [reflexivity|]. split.
        -- intros ->. discriminate.
        -- destruct (a_time_formatted a); [discriminate|reflexivity].
      * cbn in H. discriminate.
  - exists []. split; reflexivity.
  - exists []. split; reflexivity.
Qed.

End NewsFacts.

(* ------------------------------------------------------------------ *)
(** ** The lines of the report *)

Lemma format_news_lines (g a : list dict) :
  Forall (fun item => exists t d, item = [("title", t); ("date", d)]%string) g ->
  Forall (fun item => exists t p, item = [("title", t); ("pubDate", p)]%string) a ->
  _format_news {| google_news := g; alpha_vantage_news := a |}
  = Returns (join (String (ascii_of_nat 10) "")
               (map dated_line (firstn 3 g) ++ map undated_line (firstn 3 a))).
Proof.
  intros Hg Ha. unfold _format_news. cbn [google_news alpha_vantage_news].
  rewrite map_app.
  assert (E : forall l1 l2 r1 r2,
             all_some l1 = Some r1 -> all_some l2 = Some r2 ->
             @all_some string (l1 ++ l2) = Some (r1 ++ r2)).
  { induction l1 as [|[x|] l1 IH]; simpl; intros l2 r1 r2 H1 H2.
    - injection H1 as <-. exact H2.
    - destruct (all_some l1) as [r|] eqn:E1; [|discriminate].
      injection H1 as <-. now rewrite (IH l2 r r2 eq_refl H2).
    - discriminate. }
  erewrite E; [reflexivity| |].
  - apply all_some_map_total.
    eapply Forall_impl; [|exact (@Forall_firstn_skipn _ _ 3 0 _ Hg)].
    intros item (t & d & ->). reflexivity.
  - apply all_some_map_total.
    eapply Forall_impl; [|exact (@Forall_firstn_skipn _ _ 3 0 _ Ha)].
    intros item (t & p & ->). reflexivity.
Qed.

Lemma Forall2_Forall_r {A B : Type} (P : A -> B -> Prop) (Q : B -> Prop)
      (l : list A) (r : list B) :
  (forall x y, P x y -> Q y) -> Forall2 P l r -> Forall Q r.
Proof. intros H. induction 1; constructor; eauto. Qed.

Section HeadlineFacts.
Context {F : Type} {FL : Float F}.
Variable w : World F.

(** The headlines of a run are the lists of the two fetches. *)
Lemma headlines_lists (stock : string) (st : State F) :
  exists g a,
    headlines w stock = {| google_news := g; alpha_vantage_news := a |}
    /\ fst (_get_news_from_google w stock st) = Returns g
    /\ fst (_get_news_from_alpha_vantage w stock st) = Returns a.
Proof.
  unfold headlines, news_of, get_news, bind, ret.
  destruct (google_news_guarded w stock empty_state) as [g [Hg _]].
  rewrite Hg.
  destruct (alpha_vantage_news_guarded w stock (log [EvGoogleNews] empty_state))
    as [a [Ha _]].
  rewrite Ha. exists g, a. split; [reflexivity|].
  destruct (google_news_guarded w stock st) as [g' [Hg' _]].
  destruct (alpha_vantage_news_guarded w stock st) as [a' [Ha' _]].
  rewrite Hg', Ha'. cbn [fst].
  unfold _get_news_from_google, try_except, bind, call, lift, ret in Hg, Hg'.
  unfold _get_news_from_alpha_vantage, try_except, bind, call, lift, ret
    in Ha, Ha'.
  destruct (w_google_news w stock) as [data|e];
    destruct (w_alpha_vantage w stock) as [[feed|]|e'];
    repeat match goal with
           | H : context [all_some ?l] |- _ => destruct (all_some l)
           end; split; congruence.
Qed.

Lemma google_items_shape (stock : string) (st : State F) (g : list dict) :
  fst (_get_news_from_google w stock st) = Returns g ->
  Forall (fun item => exists t d, item = [("title", t); ("date", d)]%string) g.
Proof.
  destruct (google_news_items w stock st) as [items [Hrun Hshape]].
  rewrite Hrun. cbn [fst]. intros H. injection H as <-.
  destruct (w_google_news w stock) as [[results|]|e]; try (subst; constructor).
  destruct Hshape as [H|[-> _]]; [|constructor].
  eapply Forall2_Forall_r; [|exact H].
  intros r item (t & d & _ & _ & ->). eauto.
Qed.

Lemma alpha_items_shape (stock : string) (st : State F) (a : list dict) :
  fst (_get_news_from_alpha_vantage w stock st) = Returns a ->
  Forall (fun item => exists t p, item = [("title", t); ("pubDate", p)]%string) a.
Proof.
  destruct (alpha_vantage_news_items w stock st) as [items [Hrun Hshape]].
  rewrite Hrun. cbn [fst]. intros H. injection H as <-.
  destruct (w_alpha_vantage w stock) as [[feed|]|e]; try (subst; constructor).
  destruct Hshape as [H|[-> _]]; [|constructor].
  eapply Forall2_Forall_r; [|exact H].
  intros r item (t & p & -> & _). eauto.
Qed.

(** The news section of the report never fails on the headlines of a
    run. *)
Lemma format_news_headlines (stock : string) :
  exists g a,
    headlines w stock = {| google_news := g; alpha_vantage_news := a |}
    /\ _format_news (headlines w stock)
       = Returns (join (String (ascii_of_nat 10) "")
                    (map dated_line (firstn 3 g)
                     ++ map undated_line (firstn 3 a))).
Proof.
  destruct (headlines_lists stock empty_state) as (g & a & Hh & Hg & Ha).
  exists g, a. split; [exact Hh|]. rewrite Hh.
  apply format_news_lines.
  - exact (google_items_shape _ _ Hg).
  - exact (alpha_items_shape _ _ Ha).
Qed.

End HeadlineFacts.

(* ------------------------------------------------------------------ *)
(** ** The ways a request ends *)

Section FrontFacts.
Context {F : Type} {FL : Float F}.
Variable str_float : F -> string.
Variable format_2f : F -> string.
Variable w : World F.

(** What one analysis leaves: nothing is said; the ledger has a new row
    exactly when the analysis returns its five values. *)
Lemma analysis_outcome (stock : string) (st : State F) :
  exists s,
    said s = said st
    /\ ((exists e,
            ai_stock_analysis str_float w stock st = (Raises e, s)
            /\ ledger s = ledger st)
        \/ (ai_stock_analysis str_float w stock st
            = (Returns (PyTuple [PyNone; PyNone]), s)
            /\ ledger s = ledger st)
        \/ (exists result fgi current_price,
               ai_stock_analysis str_float w stock st
               = (Returns (PyTuple [PyDecision result;
                                    PyStr (translated w (reason result));
                                    PyNews (headlines w stock);
                                    PyFearGreed fgi; PyFloat current_price]), s)
               /\ ledger s
                  = ledger st
                    ++ [ledger_row w stock (ledger st) result current_price])).
Proof.
  destruct (analysis_cases str_float w stock st) as (evs_h & Hh & Hcase).
  destruct Hcase as [(e & s1 & _ & Hr & _ & Hl & Hs)
                    |[(e & s4 & _ & _ & Hr & _ & Hl & Hs)
                     |[(fgi & s5 & _ & _ & _ & Hr & _ & Hl & Hs)
                      |(fgi & cp & monthly & daily & s5 & _ & _ & _
                        & Hr & _ & Hl & Hs)]]].
  - exists s1. split; [exact Hs|]. left. eauto.
  - exists s4. split; [exact Hs|]. left. eauto.
  - exists s5. split; [exact Hs|]. right. left. auto.
  - rewrite Hr.
    destruct (decide str_float w stock monthly daily fgi cp s5)
      as [[v|e] s] eqn:Ed.
    + apply decide_returns in Ed. cbv zeta in Ed.
      destruct Ed as (response & result & _ & _ & _ & _ & _ & _ & -> & ->).
      eexists. split; [|right; right; exists result, fgi, cp;
                        split; [reflexivity|]].
      * cbn. exact Hs.
      * cbn [ledger with_ledger log with_trace]. now rewrite Hl.
    + apply decide_raises in Ed. destruct Ed as (Hl' & Hs' & _).
      exists s. split; [congruence|]. left. exists e.
      split; [reflexivity|congruence].
Qed.

(** [process_trading], whatever happens: it returns, it has sent the
    processing notice and then one more message, and that message is the
    report exactly when the analysis wrote its row. *)
Lemma process_trading_run (stock : string) (st0 : State F) :
  exists st' second,
    process_trading str_float format_2f w stock st0 = (Returns tt, st')
    /\ said st' = said st0 ++ [processing_message stock; second]
    /\ ((second = error_message stock /\ ledger st' = ledger st0)
        \/ exists result fgi current_price news_text,
             _format_news (headlines w stock) = Returns news_text
             /\ second
                = report format_2f stock result
                    (translated w (reason result)) news_text fgi current_price
             /\ ledger st'
                = ledger st0
                  ++ [ledger_row w stock (ledger st0) result current_price]).
Proof.
  unfold process_trading.
  unfold bind at 1. unfold say at 1.
  fold (processing_message stock).
  unfold try_except.
  unfold bind at 1. unfold AIStockAdvisorSystem, call.
  destruct (w_login w) as [[]|e].
  2:{ eexists _, _. split; [reflexivity|]. split.
      - cbn. rewrite <- app_assoc. reflexivity.
      - left. split; reflexivity. }
  change (with_trace _ _) with (after_login stock st0).
  assert (Hsaid : said (after_login stock st0)
                  = said st0 ++ [processing_message stock]) by reflexivity.
  assert (Hledger : ledger (after_login stock st0) = ledger st0) by reflexivity.
  destruct (analysis_outcome stock (after_login stock st0))
    as (s & Hs & [(e & Hr & Hl)|[(Hr & Hl)|(result & fgi & cp & Hr & Hl)]]).
  - unfold bind at 1. rewrite Hr.
    eexists _, _. split; [reflexivity|]. split.
    + cbn. rewrite Hs, Hsaid, <- app_assoc. reflexivity.
    + left. split; [reflexivity|]. cbn. now rewrite Hl.
  - unfold bind at 1. rewrite Hr.
    unfold bind at 1. unfold lift at 1.
    cbn [unpack5 List.length Nat.ltb Nat.leb].
    eexists _, _. split; [reflexivity|]. split.
    + cbn. rewrite Hs, Hsaid, <- app_assoc. reflexivity.
    + left. split; [reflexivity|]. cbn. now rewrite Hl.
  - unfold bind at 1. rewrite Hr.
    destruct (format_news_headlines w stock) as (g & a & _ & Hfmt).
    unfold bind, lift. cbn [unpack5 as_decision as_float_value as_news
                            as_fear_greed as_str].
    rewrite Hfmt. unfold say.
    eexists _, _. split; [reflexivity|]. split.
    + cbn [said with_said]. rewrite Hs, Hsaid, <- app_assoc. reflexivity.
    + right. exists result, fgi, cp. eexists. split; [reflexivity|].
      split; [reflexivity|]. cbn [ledger with_said]. now rewrite Hl, Hledger.
Qed.

End FrontFacts.

(* ------------------------------------------------------------------ *)
(** ** The symbol of a mention *)

(** X1.  Whatever the text, a symbol [extract_stock] returns has one to
    five characters and each is an upper-case ASCII letter. *)
Theorem extract_stock_symbol_is_uppercase_letters
        (unicode_alnum : N -> bool) (text : list N) (s : string) :
  extract_stock unicode_alnum text = Some s ->
  (1 <= String.length s <= 5)%nat
  /\ forallb is_upper (text_of_string s) = true.
Proof.
  unfold extract_stock.
  destruct (search_from unicode_alnum None text) as [m|] eqn:E; [|discriminate].
  intros H. injection H as <-.
  destruct (search_finds_first_whole_word _ _ E)
    as (pre & post & _ & (Hlen & Hl & _) & _).
  destruct (upper_letters_small _ Hl) as [Hsmall Hup].
  split.
  - unfold string_of_text.
    now rewrite length_string_of_list_ascii, !length_map.
  - now rewrite text_of_string_of_text.
Qed.

Lemma extract_stock_symbol_is_uppercase_letters_witness :
  (1 <= String.length "AAPL" <= 5)%nat
  /\ forallb is_upper (text_of_string "AAPL") = true.
Proof.
  exact (@extract_stock_symbol_is_uppercase_letters ascii_only sample_mention
           "AAPL" eq_refl).
Defined.

(** X2.  The symbol [extract_stock] returns is the upper-case form of
    the first whole word of one to five ASCII letters in the text: the
    text splits around that word, no word character (letter, digit,
    underscore, or alphanumeric character outside ASCII) touches it, and
    no such word starts further left. *)
Theorem extract_stock_returns_first_whole_word
        (unicode_alnum : N -> bool) (text : list N) (s : string) :
  extract_stock unicode_alnum text = Some s ->
  exists pre w post,
    text = pre ++ w ++ post
    /\ whole_word unicode_alnum pre w post
    /\ s = string_of_text (map upper_char w)
    /\ forall pre' w' post',
         text = pre' ++ w' ++ post' ->
         whole_word unicode_alnum pre' w' post' ->
         (List.length pre <= List.length pre')%nat.
Proof.
  unfold extract_stock.
  destruct (search_from unicode_alnum None text) as [m|] eqn:E; [|discriminate].
  intros H. injection H as <-.
  destruct (search_finds_first_whole_word _ _ E)
    as (pre & post & Hs & Hw & Hfirst).
  exists pre, m, post. auto.
Qed.

Lemma extract_stock_returns_first_whole_word_witness :
  exists pre w post,
    sample_mention = pre ++ w ++ post
    /\ whole_word ascii_only pre w post
    /\ "AAPL"%string = string_of_text (map upper_char w)
    /\ forall pre' w' post',
         sample_mention = pre' ++ w' ++ post' ->
         whole_word ascii_only pre' w' post' ->
         (List.length pre <= List.length pre')%nat.
Proof.
  exact (@extract_stock_returns_first_whole_word ascii_only sample_mention
           "AAPL" eq_refl).
Defined.

(** X3.  [extract_stock] returns [None] exactly when the text has no
    whole word of one to five ASCII letters: the empty text, a text of
    longer words only, of letters glued to digits or underscores. *)
Theorem extract_stock_none_iff_no_whole_word
        (unicode_alnum : N -> bool) (text : list N) :
  extract_stock unicode_alnum text = None
  <-> ~ exists pre w post,
          text = pre ++ w ++ post /\ whole_word unicode_alnum pre w post.
Proof.
  rewrite <- search_none_iff. unfold extract_stock.
  destruct (search_from unicode_alnum None text); split; congruence.
Qed.

(** X4.  A symbol that was extracted is extracted from itself: feeding
    the result back gives the same symbol. *)
Theorem extract_stock_of_symbol_is_symbol
        (unicode_alnum : N -> bool) (text : list N) (s : string) :
  extract_stock unicode_alnum text = Some s ->
  extract_stock unicode_alnum (text_of_string s) = Some s.
Proof.
  unfold extract_stock at 1.
  destruct (search_from unicode_alnum None text) as [m|] eqn:E; [|discriminate].
  intros H. injection H as <-.
  destruct (search_finds_first_whole_word _ _ E)
    as (pre & post & _ & (Hlen & Hl & _) & _).
  destruct (upper_letters_small _ Hl) as [Hsmall Hup].
  rewrite text_of_string_of_text by assumption.
  unfold extract_stock.
  assert (Hm : match_here unicode_alnum None (map upper_char m ++ [])
               = Some (map upper_char m)).
  { apply match_here_complete; try reflexivity.
    - now rewrite length_map.
    - rewrite forallb_forall in Hup. apply forallb_forall. intros c Hc.
      apply is_upper_letter. now apply Hup. }
  rewrite app_nil_r in Hm.
  rewrite (search_from_hit _ _ _ Hm). rewrite map_map.
  do 2 f_equal. apply map_ext. apply upper_char_idem.
Qed.

Lemma extract_stock_of_symbol_is_symbol_witness :
  extract_stock ascii_only (text_of_string "AAPL") = Some "AAPL"%string.
Proof.
  exact (@extract_stock_of_symbol_is_symbol ascii_only sample_mention
           "AAPL" eq_refl).
Defined.

(** X5.  The case of the ASCII letters of the text does not matter:
    the text with its letters in upper case gives the same symbol. *)
Theorem extract_stock_ignores_case
        (unicode_alnum : N -> bool) (text : list N) :
  extract_stock unicode_alnum (map upper_char text)
  = extract_stock unicode_alnum text.
Proof.
  unfold extract_stock.
  pose proof (search_from_upper unicode_alnum None text) as H.
  cbn [option_map] in H. rewrite H.
  destruct (search_from unicode_alnum None text) as [m|]; [|reflexivity].
  cbn [option_map]. rewrite map_map.
  do 2 f_equal. apply map_ext. apply upper_char_idem.
Qed.

(* ------------------------------------------------------------------ *)
(** ** The replies to a mention *)

(** X6.  [handle_mention] on an event without a text raises KeyError
    before anything is said.  On an event with a text it does not raise:
    when the text holds no symbol it sends the help message and does
    nothing else; otherwise it is [process_trading] on the symbol, which
    sends the processing notice and one more message. *)
Theorem mention_gets_help_or_analysis
        {F : Type} {FL : Float F} (unicode_alnum : N -> bool)
        (str_float format_2f : F -> string) (w : World F)
        (event : list (string * list N)) (st : State F) :
  match lookup "text" event with
  | None =>
      handle_mention unicode_alnum str_float format_2f w event st
      = (Raises (Exn "KeyError" "text"), st)
  | Some text =>
      match extract_stock unicode_alnum text with
      | None =>
          handle_mention unicode_alnum str_float format_2f w event st
          = (Returns tt, with_said (said st ++ [help_message]) st)
      | Some stock =>
          handle_mention unicode_alnum str_float format_2f w event st
          = process_trading str_float format_2f w stock st
          /\ exists st' second,
               handle_mention unicode_alnum str_float format_2f w event st
               = (Returns tt, st')
               /\ said st' = said st ++ [processing_message stock; second]
      end
  end.
Proof.
  unfold handle_mention.
  destruct (lookup "text" event) as [text|]; [|reflexivity].
  destruct (extract_stock unicode_alnum text) as [stock|] eqn:E;
    [|reflexivity].
  assert (Hne : exists c r, stock = String c r).
  { unfold extract_stock in E.
    destruct (search_from unicode_alnum None text) as [m|] eqn:Es;
      [|discriminate].
    injection E as <-.
    destruct (search_finds_first_whole_word _ _ Es)
      as (pre & post & _ & (Hlen & _) & _).
    destruct m as [|c m]; [simpl in Hlen; lia|].
    unfold string_of_text. cbn [map string_of_list_ascii].
    eexists _, _. reflexivity. }
  destruct Hne as (c & r & ->).
  split; [reflexivity|].
  destruct (process_trading_run str_float format_2f w (String c r) st)
    as (st' & second & Hrun & Hsaid & _).
  exists st', second. auto.
Qed.

(** X7.  [process_trading] never raises and always sends two messages:
    the processing notice and then either the error message or the
    report.  The ledger gets a row exactly when the report is sent:
    after the error message the ledger is as it was; after the report it
    has one more row, the row of the decision the report shows. *)
Theorem process_trading_reports_exactly_when_it_records
        {F : Type} {FL : Float F} (str_float format_2f : F -> string)
        (w : World F) (stock : string) (st0 : State F) :
  exists st' second,
    process_trading str_float format_2f w stock st0 = (Returns tt, st')
    /\ said st' = said st0 ++ [processing_message stock; second]
    /\ ((second = error_message stock /\ ledger st' = ledger st0)
        \/ exists result fgi current_price news_text,
             _format_news (headlines w stock) = Returns news_text
             /\ second
                = report format_2f stock result
                    (translated w (reason result)) news_text fgi current_price
             /\ ledger st'
                = ledger st0
                  ++ [ledger_row w stock (ledger st0) result current_price]).
Proof. apply process_trading_run. Qed.

(** X8.  When the login raises, [process_trading] sends the processing
    notice and the error message and stops: the login is the only call
    that left the process, and the heap and the ledger are untouched. *)
Theorem failed_login_stops_the_run
        {F : Type} {FL : Float F} (str_float format_2f : F -> string)
        (w : World F) (stock : string) (st0 : State F) (e : exn) :
  w_login w = Raises e ->
  process_trading str_float format_2f w stock st0
  = (Returns tt,
     with_said (said st0 ++ [processing_message stock; error_message stock])
       (log [EvLogin] st0)).
Proof.
  intros Hlogin. unfold process_trading.
  unfold bind at 1. unfold say at 1. unfold try_except.
  unfold bind at 1. unfold AIStockAdvisorSystem, call. rewrite Hlogin.
  unfold say, processing_message, error_message, log, with_said, with_trace.
  cbn. now rewrite <- app_assoc.
Qed.

Lemma failed_login_stops_the_run_witness :
  process_trading str_100 format_100
    (sample_world_with (Raises fetch_failure) sample_bars) "AAPL" empty_state
  = (Returns tt,
     with_said (said (@empty_state B64.t)
                ++ [processing_message "AAPL"; error_message "AAPL"])
       (log [EvLogin] empty_state)).
Proof.
  exact (@failed_login_stops_the_run _ _ str_100 format_100
           (sample_world_with (Raises fetch_failure) sample_bars)
           "AAPL" empty_state fetch_failure eq_refl).
Defined.

(** X9.  When the market-data provider answers the daily-bars request
    with an empty list, the run ends in the error message: the two
    chart requests are the only fetches made (no headline, transcript,
    sentiment, price or oracle call), no table is built and no row is
    written. *)
Theorem empty_chart_answer_ends_in_error_message
        {F : Type} {FL : Float F} (str_float format_2f : F -> string)
        (w : World F) (stock : string) (st0 : State F) :
  w_login w = Returns tt ->
  w_historicals w stock "day" "3month" = Returns [] ->
  process_trading str_float format_2f w stock st0
  = (Returns tt,
     with_said (said st0 ++ [processing_message stock; error_message stock])
       (log [EvLogin; EvHistoricals "day" "3month";
             EvHistoricals "5minute" "day"] st0)).
Proof.
  intros Hlogin Hbars. unfold process_trading.
  unfold bind at 1. unfold say at 1. unfold try_except.
  unfold bind at 1. unfold AIStockAdvisorSystem, call at 1. rewrite Hlogin.
  unfold bind at 1. unfold ai_stock_analysis.
  unfold bind at 1. unfold get_chart_data.
  unfold bind at 1. unfold call at 1. rewrite Hbars.
  unfold bind at 1. unfold call at 1.
  destruct (w_historicals w stock "5minute" "day") as [hd|e].
  - unfold bind at 1. cbn [_process_df]. unfold raise at 1.
    unfold say, processing_message, error_message, log, with_said, with_trace.
    cbn. now rewrite <- !app_assoc.
  - unfold say, processing_message, error_message, log, with_said, with_trace.
    cbn. now rewrite <- !app_assoc.
Qed.

Lemma empty_chart_answer_ends_in_error_message_witness :
  process_trading str_100 format_100 (sample_world_with (Returns tt) [])
    "AAPL" empty_state
  = (Returns tt,
     with_said (said (@empty_state B64.t)
                ++ [processing_message "AAPL"; error_message "AAPL"])
       (log [EvLogin; EvHistoricals "day" "3month";
             EvHistoricals "5minute" "day"] empty_state)).
Proof.
  exact (@empty_chart_answer_ends_in_error_message _ _ str_100 format_100
           (sample_world_with (Returns tt) []) "AAPL" empty_state
           eq_refl eq_refl).
Defined.

(* ------------------------------------------------------------------ *)
(** ** The headline fetches *)

(** X10.  [_get_news_from_google] never raises and returns at most five
    items.  When the answer has results, the items are the first five
    results in order, each with the keys title and date; if one of these
    five lacks its title or its date, the whole list is empty.  An
    answer without results, and a failed request, give the empty list. *)
Theorem google_headlines_are_all_or_nothing
        {F : Type} {FL : Float F} (w : World F) (stock : string)
        (st : State F) :
  exists items,
    _get_news_from_google w stock st = (Returns items, log [EvGoogleNews] st)
    /\ (List.length items <= 5)%nat
    /\ match w_google_news w stock with
       | Returns (Some results) =>
           Forall2 google_item (firstn 5 results) items
           \/ (items = []
               /\ Exists (fun r => g_title r = None \/ g_date r = None)
                         (firstn 5 results))
       | _ => items = []
       end.
Proof.
  destruct (google_news_items w stock st) as [items [Hrun Hshape]].
  exists items. split; [exact Hrun|]. split; [|exact Hshape].
  destruct (w_google_news w stock) as [[results|]|e];
    try (subst items; simpl; lia).
  destruct Hshape as [H|[-> _]]; [|simpl; lia].
  rewrite (Forall2_length_le H), length_firstn. lia.
Qed.

(** X11.  [_get_news_from_alpha_vantage] never raises and returns at
    most ten items.  When the answer has a feed, the items are its first
    ten entries in order, each with the keys title and pubDate: a
    missing title reads "No title", a missing time "No date", and a
    time that is there is the reformatted one; if the time of one of
    these ten entries does not parse, the whole list is empty.  An
    answer without feed, and a failed request, give the empty list. *)
Theorem alpha_vantage_headlines_are_all_or_nothing
        {F : Type} {FL : Float F} (w : World F) (stock : string)
        (st : State F) :
  exists items,
    _get_news_from_alpha_vantage w stock st
    = (Returns items, log [EvAlphaVantage] st)
    /\ (List.length items <= 10)%nat
    /\ match w_alpha_vantage w stock with
       | Returns (Some feed) =>
           Forall2 alpha_item (firstn 10 feed) items
           \/ (items = []
               /\ Exists (fun a => exists tp,
                              a_time_published a = Some tp
                              /\ tp <> "No date"%string
                              /\ a_time_formatted a = None)
                         (firstn 10 feed))
       | _ => items = []
       end.
Proof.
  destruct (alpha_vantage_news_items w stock st) as [items [Hrun Hshape]].
  exists items. split; [exact Hrun|]. split; [|exact Hshape].
  destruct (w_alpha_vantage w stock) as [[feed|]|e];
    try (subst items; simpl; lia).
  destruct Hshape as [H|[-> _]]; [|simpl; lia].
  rewrite (Forall2_length_le H), length_firstn. lia.
Qed.

(** X12.  The news section of the report, on the headlines one run
    gathers: [_format_news] does not fail, and it writes at most three
    lines per source, Google first.  A Google line carries the date of
    its item; an Alpha Vantage item has its time under pubDate and no
    date key, so each of its lines ends in (N/A). *)
Theorem report_dates_google_lines_only
        {F : Type} {FL : Float F} (w : World F) (stock : string) :
  exists g a,
    headlines w stock = {| google_news := g; alpha_vantage_news := a |}
    /\ Forall (fun item => exists t d, lookup "title" item = Some t
                                       /\ lookup "date" item = Some d) g
    /\ Forall (fun item => exists t, lookup "title" item = Some t
                                     /\ lookup "date" item = None) a
    /\ _format_news (headlines w stock)
       = Returns (join (String (ascii_of_nat 10) "")
                    (map dated_line (firstn 3 g)
                     ++ map undated_line (firstn 3 a))).
Proof.
  destruct (headlines_lists w stock empty_state) as (g & a & Hh & Hg & Ha).
  pose proof (google_items_shape _ _ _ Hg) as Sg.
  pose proof (alpha_items_shape _ _ _ Ha) as Sa.
  exists g, a. split; [exact Hh|].
  split; [|split].
  - eapply Forall_impl; [|exact Sg]. intros item (t & d & ->).
    exists t, d. split; reflexivity.
  - eapply Forall_impl; [|exact Sa]. intros item (t & p & ->).
    exists t. split; reflexivity.
  - rewrite Hh. now apply format_news_lines.
Qed.

(* ------------------------------------------------------------------ *)
(** ** From the bars to the tables *)

Lemma Forall2_nth_error {A B : Type} (f : A -> option B) (l : list A)
      (r : list B) (i : nat) (x : A) :
  Forall2 (fun x y => f x = Some y) l r ->
  nth_error l i = Some x -> nth_error r i = f x.
Proof.
  intros H. revert i. induction H as [|a b l r Hab _ IH]; intros [|i]; simpl;
    try discriminate.
  - intros E. injection E as <-. now rewrite Hab.
  - apply IH.
Qed.

Lemma update_nth_app {A : Type} (l r : list A) (x y : A) :
  update_nth (List.length l) y (l ++ x :: r) = l ++ y :: r.
Proof. induction l as [|a l IH]; simpl; [reflexivity|]. now rewrite IH. Qed.

Lemma update_two_new {A : Type} (l : list A) (a b a' b' a2 : A) :
  update_nth (List.length l) a2
    (update_nth (S (List.length l)) b'
       (update_nth (List.length l) a' ((l ++ [a]) ++ [b])))
  = l ++ [a2; b'].
Proof.
  induction l as [|x l IH]; [reflexivity|].
  cbn [List.length app update_nth]. f_equal. exact IH.
Qed.

Section TableFacts.
Context {F : Type} {FL : Float F}.

(** What [_process_df] allocates holds the bars it was given. *)
Lemma process_df_holds (historicals : list (RawBar F)) (st st' : State F)
      (r : ref) :
  _process_df historicals st = (Returns r, st') ->
  exists d, st' = with_heap (heap st ++ [d]) st
            /\ r = List.length (heap st)
            /\ normalized d /\ holds_bars d historicals.
Proof.
  intros Hrun.
  destruct (process_df_normalized _ _ Hrun) as (d & Hst & Hr & Hn).
  exists d. split; [exact Hst|]. split; [exact Hr|]. split; [exact Hn|].
  unfold _process_df in Hrun.
  destruct historicals as [|b0 bs]; [discriminate|].
  set (hs := b0 :: bs) in *.
  destruct (all_some (map (@begins_at F) hs)) as [dates|] eqn:E0; [|discriminate].
  destruct (all_some (map (@open_price F) hs)) as [opens|] eqn:E1; [|discriminate].
  destruct (all_some (map (@close_price F) hs)) as [closes|] eqn:E2; [|discriminate].
  destruct (all_some (map (@high_price F) hs)) as [highs|] eqn:E3; [|discriminate].
  destruct (all_some (map (@low_price F) hs)) as [lows|] eqn:E4; [|discriminate].
  destruct (all_some (map (@volume F) hs)) as [volumes|] eqn:E5; [|discriminate].
  unfold alloc in Hrun. injection Hrun as _ Hheap.
  assert (Hd : d = {| df_index := dates;
                      df_columns := [("Open"%string, FloatCol opens);
                                     ("Close"%string, FloatCol closes);
                                     ("High"%string, FloatCol highs);
                                     ("Low"%string, FloatCol lows);
                                     ("Volume"%string, IntCol volumes)] |}).
  { rewrite Hst in Hheap. unfold with_heap in Hheap.
    apply (f_equal (@heap F)) in Hheap. cbn [heap] in Hheap.
    apply app_inv_head in Hheap. congruence. }
  apply all_some_map_Forall2 in E0, E1, E2, E3, E4, E5.
  subst d. split.
  - cbn [df_index]. apply (Forall2_length_le E0).
  - intros i b Hb. unfold cell, int_cell. cbn.
    rewrite (@Forall2_nth_error _ _ _ _ _ i b E0 Hb), (@Forall2_nth_error _ _ _ _ _ i b E1 Hb),
      (@Forall2_nth_error _ _ _ _ _ i b E2 Hb), (@Forall2_nth_error _ _ _ _ _ i b E3 Hb),
      (@Forall2_nth_error _ _ _ _ _ i b E4 Hb), (@Forall2_nth_error _ _ _ _ _ i b E5 Hb).
    repeat split.
Qed.


Variable w : World F.

(** A chart fetch that returns: the two requests, then two new tables at
    the end of the heap, the monthly one first. *)
Lemma get_chart_data_tables (stock : string) (st st' : State F) (m d : ref) :
  get_chart_data w stock st = (Returns (m, d), st') ->
  exists hm hd dm dd,
    w_historicals w stock "day" "3month" = Returns hm
    /\ w_historicals w stock "5minute" "day" = Returns hd
    /\ normalized dm /\ holds_bars dm hm
    /\ normalized dd /\ holds_bars dd hd
    /\ m = List.length (heap st) /\ d = S (List.length (heap st))
    /\ st' = with_heap
               (heap st ++ [moving_averages_frame (indicators_frame dm);
                            indicators_frame dd])
               (log [EvHistoricals "day" "3month";
                     EvHistoricals "5minute" "day"] st).
Proof.
  unfold get_chart_data. unfold bind at 1. unfold call at 1.
  destruct (w_historicals w stock "day" "3month") as [hm|e]; [|discriminate].
  unfold bind at 1. unfold call at 1.
  destruct (w_historicals w stock "5minute" "day") as [hd|e]; [|discriminate].
  set (s2 := with_trace _ _).
  assert (Hs2 : s2 = log [EvHistoricals "day" "3month";
                          EvHistoricals "5minute" "day"] st).
  { subst s2. unfold log, with_trace. cbn. now rewrite <- app_assoc. }
  clearbody s2.
  unfold bind at 1.
  destruct (_process_df hm s2) as [[m0|e] s3] eqn:E3; [|discriminate].
  destruct (process_df_holds _ _ E3) as (dm & -> & -> & Nm & Hm).
  unfold bind at 1.
  destruct (_process_df hd _) as [[d0|e] s4] eqn:E4; [|discriminate].
  destruct (process_df_holds _ _ E4) as (dd & -> & -> & Nd & Hd).
  cbn [heap with_heap].
  rewrite (@add_indicators_run _ _ _ (List.length (heap s2))
             (List.length (heap s2 ++ [dm])) dm dd).
  - intros H. injection H as <- <- <-.
    exists hm, hd, dm, dd.
    split; [reflexivity|]. split; [reflexivity|]. split; [exact Nm|].
    split; [exact Hm|]. split; [exact Nd|]. split; [exact Hd|].
    split; [subst s2; reflexivity|].
    split; [subst s2; cbn; rewrite length_app; simpl; lia|].
    subst s2. unfold put, with_heap, log, with_trace. cbn. f_equal.
      rewrite length_app. cbn [List.length]. rewrite Nat.add_1_r.
      apply update_two_new.
  - rewrite length_app. simpl. lia.
  - unfold frame_at. cbn.
    rewrite nth_error_app1 by (rewrite length_app; simpl; lia).
    now rewrite nth_error_app2, Nat.sub_diag by lia.
  - unfold frame_at. cbn.
    now rewrite nth_error_app2, Nat.sub_diag by lia.
  - now apply normalized_has_close.
  - now apply normalized_has_close.
Qed.

End TableFacts.

Lemma lookup_app_l {V : Type} (k : string) (v : V) (l r : list (string * V)) :
  lookup k l = Some v -> lookup k (l ++ r) = Some v.
Proof.
  induction l as [|[k' v'] l IH]; simpl; [discriminate|].
  destruct (String.eqb k k'); auto.
Qed.

Lemma lookup_app_r {V : Type} (k : string) (l r : list (string * V)) :
  lookup k l = None -> lookup k (l ++ r) = lookup k r.
Proof.
  induction l as [|[k' v'] l IH]; simpl; [reflexivity|].
  destruct (String.eqb k k'); [discriminate|auto].
Qed.

Lemma lookup_None_keys {V : Type} (k : string) (l : list (string * V)) :
  lookup k l = None <-> ~ In k (map fst l).
Proof.
  induction l as [|[k' v'] l IH]; simpl; [tauto|].
  destruct (String.eqb k k') eqn:E.
  - apply String.eqb_eq in E. subst. split; [discriminate|]. tauto.
  - apply String.eqb_neq in E. rewrite IH. split.
    + intros H [H1|H1]; [congruence|tauto].
    + tauto.
Qed.

Section AppendFacts.
Context {F : Type} {FL : Float F}.

(** The five columns of a Normalized Table by name. *)
Lemma normalized_columns (d : DataFrame F) :
  normalized d ->
  exists os cs hs ls vs,
    df_columns d = [("Open"%string, FloatCol os); ("Close"%string, FloatCol cs);
                    ("High"%string, FloatCol hs); ("Low"%string, FloatCol ls);
                    ("Volume"%string, IntCol vs)].
Proof.
  unfold normalized. intros H.
  destruct (df_columns d) as [|[o [os|?]] [|[c [cs|?]] [|[h [hs|?]]
    [|[l [ls|?]] [|[v [?|vs]] [|? ?]]]]]]; try contradiction.
  destruct H as (-> & -> & -> & -> & -> & _). eauto 6.
Qed.

(** Appending columns keeps the bars a table holds. *)
Lemma holds_bars_appends (d d' : DataFrame F) (names : list string)
      (hs : list (RawBar F)) :
  normalized d -> appends_columns d d' names -> holds_bars d hs ->
  holds_bars d' hs.
Proof.
  intros Hn [Hi (added & Hc & _ & _)] [Hlen Hrows].
  destruct (@normalized_columns _ Hn) as (os & cs & hs' & ls & vs & Hcols).
  split; [now rewrite Hi|].
  intros i b Hb. destruct (Hrows i b Hb) as (H0 & H1 & H2 & H3 & H4 & H5).
  rewrite Hi. split; [exact H0|].
  unfold cell, int_cell in *. rewrite Hc. rewrite Hcols in *.
  cbn in H1, H2, H3, H4, H5. cbn.
  repeat split; assumption.
Qed.

Lemma appended_present (d d' : DataFrame F) (names : list string) (k : string) :
  normalized d -> appends_columns d d' names ->
  lookup k (df_columns d) = None -> In k names ->
  lookup k (df_columns d') <> None.
Proof.
  intros Hn [_ (added & Hc & Hnames & _)] Hk Hin.
  rewrite Hc, (@lookup_app_r _ _ _ added Hk). intros E.
  apply lookup_None_keys in E. apply E. now rewrite Hnames.
Qed.

Lemma appended_absent (d d' : DataFrame F) (names : list string) (k : string) :
  appends_columns d d' names ->
  lookup k (df_columns d) = None -> ~ In k names ->
  lookup k (df_columns d') = None.
Proof.
  intros [_ (added & Hc & Hnames & _)] Hk Hin.
  rewrite Hc, (@lookup_app_r _ _ _ added Hk).
  apply lookup_None_keys. now rewrite Hnames.
Qed.

Lemma new_names_fresh (d : DataFrame F) (k : string) :
  normalized d -> In k (indicator_names ++ moving_average_names) ->
  lookup k (df_columns d) = None.
Proof.
  intros Hn Hin.
  destruct (@normalized_columns _ Hn) as (os & cs & hs' & ls & vs & ->).
  simpl in Hin.
  repeat (destruct Hin as [<-|Hin]; [reflexivity|]). contradiction.
Qed.

End AppendFacts.

(* ------------------------------------------------------------------ *)
(** ** C10: a failed transcript fetch ends up in the prompt *)

Lemma is_unique_NoDup (index : list Timestamp) :
  NoDup index -> is_unique index = true.
Proof.
  induction 1 as [|t rest Hin _ IH]; [reflexivity|]. cbn [is_unique].
  rewrite IH, andb_true_r.
  destruct (existsb (Z.eqb t) rest) eqn:E; [|reflexivity].
  apply existsb_exists in E. destruct E as (t' & Hin' & Ht).
  apply Z.eqb_eq in Ht. now subst t'.
Qed.

(** A table that holds bars has their timestamps for its index. *)
Lemma holds_bars_index {F : Type} {FL : Float F} (d : DataFrame F)
      (hs : list (RawBar F)) :
  holds_bars d hs -> map Some (df_index d) = map (@begins_at F) hs.
Proof.
  intros [Hlen Hrows]. apply nth_error_ext. intros i.
  rewrite !nth_error_map.
  destruct (nth_error hs i) as [b|] eqn:Eb.
  - destruct (Hrows i b Eb) as [Hi _]. cbn [option_map].
    destruct (nth_error (df_index d) i) as [t|] eqn:Et.
    + cbn [option_map]. now rewrite <- Hi.
    + exfalso. apply nth_error_None in Et.
      assert (Hlt : (i < List.length hs)%nat).
      { apply nth_error_Some. congruence. }
      lia.
  - apply nth_error_None in Eb.
    assert (Hn : nth_error (df_index d) i = None).
    { apply nth_error_None. lia. }
    now rewrite Hn.
Qed.

Lemma distinct_dates_unique {F : Type} {FL : Float F} (d : DataFrame F)
      (hs : list (RawBar F)) :
  holds_bars d hs -> distinct_dates hs -> is_unique (df_index d) = true.
Proof.
  intros Hd Hu. apply is_unique_NoDup. apply (NoDup_map_inv Some).
  rewrite (holds_bars_index Hd). exact Hu.
Qed.

(** C10.  When the transcript fetch raises [e], [get_youtube_transcript]
    does not raise: it returns "An error occurred: " followed by
    [str(e)].  Every oracle call of such a run carries a system message
    in which that text stands where the transcript would.  And the run
    does call the oracle when it has its chart data, with no timestamp
    repeated within either chart, its sentiment index and its price. *)
Theorem transcript_failure_is_embedded_in_prompt
        {F : Type} {FL : Float F} (str_float : F -> string) (w : World F)
        (stock : string) (st : State F) (e : exn) :
  w_transcript w "rWl9ehSIiXc" = Raises e ->
  get_youtube_transcript w st
  = (Returns ("An error occurred: " ++ exn_msg e)%string,
     log [EvTranscript] st)
  /\ (forall system user evs,
         trace (snd (ai_stock_analysis str_float w stock st))
         = trace st ++ evs ->
         In (EvOracle system user) evs ->
         exists current_price,
           spot_price w stock = Some current_price
           /\ system
              = (system_prompt_head ++ str_float current_price
                 ++ system_prompt_middle
                 ++ ("An error occurred: " ++ exn_msg e)
                 ++ system_prompt_tail)%string)
  /\ (forall hm hd fgi current_price,
         returned (fst (get_chart_data w stock st)) = true ->
         w_historicals w stock "day" "3month" = Returns hm ->
         w_historicals w stock "5minute" "day" = Returns hd ->
         distinct_dates hm -> distinct_dates hd ->
         w_fear_and_greed w = Returns fgi ->
         spot_price w stock = Some current_price ->
         exists user evs,
           trace (snd (ai_stock_analysis str_float w stock st))
           = trace st ++ evs
           /\ In (EvOracle
                    (system_prompt_head ++ str_float current_price
                     ++ system_prompt_middle
                     ++ ("An error occurred: " ++ exn_msg e)
                     ++ system_prompt_tail)%string
                    user) evs).
Proof.
  intros Ht.
  assert (Htext : transcript_text w
                  = ("An error occurred: " ++ exn_msg e)%string).
  { unfold transcript_text. now rewrite Ht. }
  split; [|split].
  - rewrite get_youtube_transcript_run. now rewrite Htext.
  - intros system user evs Htrace Hin.
    destruct (@oracle_event_of_run _ _ str_float w stock st system user evs
                Htrace Hin)
      as (fgi & cp & monthly & daily & s5 & evs_h & tail & _ & _ & Hp & _
          & _ & _ & _ & _ & Hsys & _).
    exists cp. split; [exact Hp|].
    rewrite Hsys. unfold system_prompt. now rewrite Htext.
  - intros hm hd fgi current_price Hc Hhm Hhd Um Ud Hf Hp.
    rewrite ai_stock_analysis_run.
    destruct (get_chart_data w stock st) as [[[m d]|e0] s1] eqn:E;
      [|discriminate].
    destruct (get_chart_data_tables _ _ _ E)
      as (hm' & hd' & dm & dd & Hhm' & Hhd' & _ & Hm & _ & Hd & -> & -> & ->).
    assert (hm' = hm) by congruence. assert (hd' = hd) by congruence.
    subst hm' hd'.
    cbv zeta. rewrite Hf, Hp.
    cbn [heap with_heap log with_trace].
    rewrite !nth_error_app2 by lia. rewrite Nat.sub_diag.
    replace (S (List.length (heap st)) - List.length (heap st))%nat
      with 1%nat by lia.
    cbn [nth_error].
    match goal with
    | |- context [decide ?sf ?w0 ?s ?tm ?td ?f ?c ?s5] =>
        destruct (@decide_calls_oracle _ _ sf w0 s tm td f c s5)
          as (tail & Htail)
    end.
    + exact (distinct_dates_unique Hm Um).
    + exact (distinct_dates_unique Hd Ud).
    + eexists _, _. split.
      * rewrite Htail. cbn [trace with_heap log with_trace].
        rewrite <- !app_assoc. reflexivity.
      * unfold system_prompt. rewrite Htext.
        apply in_or_app. right. apply in_or_app. right. left. reflexivity.
Qed.

Lemma sample_bars_distinct : distinct_dates sample_bars.
Proof.
  unfold distinct_dates. cbn.
  repeat constructor; cbn; intuition discriminate.
Qed.

Lemma sample_charts_return :
  returned
    (fst (get_chart_data
            (sample_world (Raises fetch_failure) (Returns sample_fear_greed)
               price_100
               (Returns (Json (decision_json "BUY" 30 (B64.dec 102345 3)))))
            "AAPL" empty_state)) = true.
Proof. vm_compute. reflexivity. Qed.

Lemma sample_spot_price :
  spot_price
    (sample_world (Raises fetch_failure) (Returns sample_fear_greed)
       price_100
       (Returns (Json (decision_json "BUY" 30 (B64.dec 102345 3)))))
    "AAPL"
  = Some (B64.dec 10000 2).
Proof. vm_compute. reflexivity. Qed.

Lemma transcript_failure_is_embedded_in_prompt_witness :
  exists user evs,
    trace (snd (ai_stock_analysis str_100
                  (sample_world (Raises fetch_failure)
                     (Returns sample_fear_greed) price_100
                     (Returns (Json (decision_json "BUY" 30
                                       (B64.dec 102345 3)))))
                  "AAPL" empty_state))
    = trace (@empty_state B64.t) ++ evs
    /\ In (EvOracle
             (system_prompt_head ++ str_100 (B64.dec 10000 2)
              ++ system_prompt_middle
              ++ ("An error occurred: " ++ exn_msg fetch_failure)
              ++ system_prompt_tail)%string
             user) evs.
Proof.
  exact (proj2 (proj2
           (@transcript_failure_is_embedded_in_prompt _ _ str_100
              (sample_world (Raises fetch_failure) (Returns sample_fear_greed)
                 price_100
                 (Returns (Json (decision_json "BUY" 30 (B64.dec 102345 3)))))
              "AAPL" empty_state fetch_failure eq_refl))
           sample_bars sample_bars sample_fear_greed (B64.dec 10000 2)
           sample_charts_return eq_refl eq_refl sample_bars_distinct
           sample_bars_distinct eq_refl sample_spot_price).
Defined.

(* ------------------------------------------------------------------ *)
(** ** The tables of a run *)


(** X14.  A chart fetch that returns has made the two requests and
    nothing else, and has put two new tables at the end of the heap,
    leaving the objects that were there alone: the monthly table first,
    the daily one second, under two distinct references.  Each still
    holds the bars of its answer, row by row.  Both have the ten
    indicator columns; the three moving averages are in the monthly
    table only. *)
Theorem chart_tables_are_new_and_separate
        {F : Type} {FL : Float F} (w : World F) (stock : string)
        (st st' : State F) (m d : ref) :
  get_chart_data w stock st = (Returns (m, d), st') ->
  m = List.length (heap st) /\ d = S (List.length (heap st))
  /\ ledger st' = ledger st /\ said st' = said st
  /\ trace st' = trace st ++ [EvHistoricals "day" "3month";
                               EvHistoricals "5minute" "day"]
  /\ exists hm hd tm td,
       w_historicals w stock "day" "3month" = Returns hm
       /\ w_historicals w stock "5minute" "day" = Returns hd
       /\ heap st' = heap st ++ [tm; td]
       /\ holds_bars tm hm /\ holds_bars td hd
       /\ (forall k, In k (indicator_names ++ moving_average_names) ->
                     lookup k (df_columns tm) <> None)
       /\ (forall k, In k indicator_names -> lookup k (df_columns td) <> None)
       /\ (forall k, In k moving_average_names ->
                     lookup k (df_columns td) = None).
Proof.
  intros Hrun.
  destruct (get_chart_data_tables _ _ _ Hrun)
    as (hm & hd & dm & dd & Hhm & Hhd & Nm & Hm & Nd & Hd & -> & -> & ->).
  split; [reflexivity|]. split; [reflexivity|].
  split; [reflexivity|]. split; [reflexivity|]. split; [reflexivity|].
  exists hm, hd, (moving_averages_frame (indicators_frame dm)),
    (indicators_frame dd).
  split; [exact Hhm|]. split; [exact Hhd|]. split; [reflexivity|].
  pose proof (@monthly_frame_appends _ _ dm Nm) as Am.
  pose proof (@indicators_frame_appends _ _ dd Nd) as Ad.
  split; [exact (@holds_bars_appends _ _ _ _ _ _ Nm Am Hm)|].
  split; [exact (@holds_bars_appends _ _ _ _ _ _ Nd Ad Hd)|].
  split; [|split].
  - intros k Hk. eapply appended_present; [exact Nm|exact Am| |exact Hk].
    now apply new_names_fresh.
  - intros k Hk. eapply appended_present; [exact Nd|exact Ad| |exact Hk].
    apply new_names_fresh; [exact Nd|]. apply in_or_app. now left.
  - intros k Hk. eapply appended_absent; [exact Ad| |].
    + apply new_names_fresh; [exact Nd|]. apply in_or_app. now right.
    + simpl in Hk. simpl.
      intros Hin. repeat (destruct Hk as [<-|Hk]; [
        repeat (destruct Hin as [Hin|Hin]; [discriminate|]); exact Hin|]).
      exact Hk.
Qed.

Lemma sample_chart_run :
  get_chart_data (answering_world "BUY" 30) "AAPL" empty_state
  = (Returns (0%nat, 1%nat),
     snd (get_chart_data (answering_world "BUY" 30) "AAPL" empty_state)).
Proof. vm_compute. reflexivity. Qed.

Lemma chart_tables_are_new_and_separate_witness :
  trace (snd (get_chart_data (answering_world "BUY" 30) "AAPL" empty_state))
  = trace (@empty_state B64.t) ++ [EvHistoricals "day" "3month";
                                   EvHistoricals "5minute" "day"].
Proof.
  exact (proj1 (proj2 (proj2 (proj2 (proj2
           (@chart_tables_are_new_and_separate _ _ (answering_world "BUY" 30)
              "AAPL" empty_state _ 0%nat 1%nat sample_chart_run)))))).
Defined.

(** X15.  A run that returns its five values has made nine calls, in
    this order: the two chart requests, the two headline requests, the
    transcript, the sentiment index, the price, the oracle and the
    translation of the oracle's reason.  The oracle was given the
    instruction with the price and the transcript of this run, and the
    two tables as the run left them on the heap, the sentiment index and
    the headlines; the values returned are the ones the oracle saw. *)
Theorem completed_run_makes_nine_calls_in_order
        {F : Type} {FL : Float F} (str_float : F -> string) (w : World F)
        (stock : string) (st st' : State F) (result : TradingDecision F)
        (reason_kr : string) (news : News) (fgi : FearGreed F)
        (current_price : F) :
  ai_stock_analysis str_float w stock st
  = (Returns (PyTuple [PyDecision result; PyStr reason_kr; PyNews news;
                       PyFearGreed fgi; PyFloat current_price]), st') ->
  exists tm td,
    heap st' = heap st ++ [tm; td]
    /\ trace st'
       = trace st
         ++ [EvHistoricals "day" "3month"; EvHistoricals "5minute" "day";
             EvGoogleNews; EvAlphaVantage; EvTranscript; EvFearGreed;
             EvLatestPrice;
             EvOracle (system_prompt str_float current_price
                         (transcript_text w))
                      {| stock := stock; monthly_data := tm;
                         daily_data := td; fear_and_greed_index := fgi;
                         news := headlines w stock |};
             EvTranslate (reason result)]
    /\ news = headlines w stock
    /\ reason_kr = translated w (reason result)
    /\ w_fear_and_greed w = Returns fgi
    /\ spot_price w stock = Some current_price.
Proof.
  rewrite ai_stock_analysis_run.
  destruct (get_chart_data w stock st) as [[[m d]|e] s1] eqn:E; [|discriminate].
  destruct (get_chart_data_tables _ _ _ E)
    as (hm & hd & dm & dd & _ & _ & _ & _ & _ & _ & -> & -> & ->).
  cbv zeta.
  destruct (w_fear_and_greed w) as [fgi'|e]; [|discriminate].
  destruct (spot_price w stock) as [cp|]; [|discriminate].
  cbn [heap with_heap log with_trace].
  rewrite !nth_error_app2 by lia. rewrite Nat.sub_diag.
  replace (S (List.length (heap st)) - List.length (heap st))%nat
    with 1%nat by lia.
  cbn [nth_error].
  intros H. apply decide_returns in H. cbv zeta in H.
  destruct H as (response & result' & _ & _ & _ & _ & _ & _ & Hv & ->).
  injection Hv as -> -> -> -> ->.
  eexists _, _. split; [reflexivity|].
  split; [|repeat split].
  cbn [trace with_ledger log with_trace with_heap].
  rewrite <- !app_assoc. reflexivity.
Qed.

Lemma completed_run_makes_nine_calls_in_order_witness :
  exists tm td,
    heap (snd (ai_stock_analysis str_100 (answering_world "BUY" 30) "AAPL"
                 empty_state))
    = heap (@empty_state B64.t) ++ [tm; td].
Proof.
  destruct (@completed_run_makes_nine_calls_in_order _ _ _ _ _ _ _ _ _ _ _ _
              sample_run_completes) as (tm & td & H & _).
  exists tm, td. exact H.
Defined.

(* ------------------------------------------------------------------ *)
(** ** The rows before a window is complete *)

Lemma nan_propagates_b64 : nan_propagates B64.t.
Proof.
  unfold nan_propagates. cbn.
  repeat split; intros x; destruct x; reflexivity.
Qed.

Lemma nan_propagates_ideal : nan_propagates Ideal.t.
Proof.
  unfold nan_propagates. cbn.
  repeat split; intros x; destruct x; reflexivity.
Qed.

(** Reads a column through the assignments that built the table. *)
Ltac frame_lookup :=
  repeat first [ rewrite lookup_df_assign_eq
               | rewrite lookup_df_assign_ne by reflexivity ].

Section WarmUp.
Context {F : Type} {FL : Float F}.

Lemma rolling_before_window (window : nat) (agg : list F -> F) (s : list F)
      (i : nat) :
  (i + 1 < window)%nat -> (i < List.length s)%nat ->
  nth_error (rolling window agg s) i = Some f_nan.
Proof.
  intros Hw Hi. rewrite nth_error_rolling by assumption.
  destruct (Nat.leb_spec window (i + 1)); [lia|reflexivity].
Qed.

(** The cells of the columns the loop adds, read off the series. *)
Lemma indicator_cells (d : DataFrame F) (i : nat) :
  let t := indicators_frame d in
  let close := close_of d in
  let sma := rolling_mean 20 close in
  let std := rolling_std 20 close in
  cell t "SMA" i = nth_error sma i
  /\ cell t "STD" i = nth_error std i
  /\ cell t "Upper_Band" i
     = nth_error (zip_with f_add sma (map (fun x => f_mul x (f_of_Z 2)) std)) i
  /\ cell t "Lower_Band" i
     = nth_error (zip_with f_sub sma (map (fun x => f_mul x (f_of_Z 2)) std)) i
  /\ cell t "RSI" i = nth_error (rsi_series 14 close) i.
Proof.
  cbv zeta. unfold cell, indicators_frame.
  repeat split; unfold macd_frame; frame_lookup; unfold rsi_frame;
    frame_lookup; rewrite ?close_of_bollinger_frame; try reflexivity;
    unfold bollinger_frame; frame_lookup; reflexivity.
Qed.

(** The moving averages leave the other columns alone. *)
Lemma moving_averages_keep (d : DataFrame F) (key : string) (i : nat) :
  String.eqb key "MA_10" = false -> String.eqb key "MA_20" = false ->
  String.eqb key "MA_60" = false ->
  cell (moving_averages_frame d) key i = cell d key i.
Proof.
  intros H1 H2 H3. unfold moving_averages_frame, cell.
  now rewrite !lookup_df_assign_ne by assumption.
Qed.

Lemma moving_average_cells (d : DataFrame F) (i : nat) :
  let t := moving_averages_frame d in
  cell t "MA_10" i = nth_error (rolling_mean 10 (close_of d)) i
  /\ cell t "MA_20" i = nth_error (rolling_mean 20 (close_of d)) i
  /\ cell t "MA_60" i = nth_error (rolling_mean 60 (close_of d)) i.
Proof.
  cbv zeta. unfold moving_averages_frame, cell.
  repeat split; frame_lookup; reflexivity.
Qed.

Lemma close_of_moving_averages_frame (d : DataFrame F) :
  close_of (moving_averages_frame d) = close_of d.
Proof.
  unfold moving_averages_frame. now rewrite !close_of_df_assign by reflexivity.
Qed.

Lemma rsi_before_window (close : list F) (i : nat) :
  nan_propagates F -> (i < 13)%nat -> (i < List.length close)%nat ->
  nth_error (rsi_series 14 close) i = Some f_nan.
Proof.
  intros (_ & Hadd & _ & Hsub & _ & Hdivl & Hdivr) Hi Hlen.
  unfold rsi_series. rewrite nth_error_map.
  assert (Hg : nth_error (rsi_gain 14 close) i = Some f_nan).
  { unfold rsi_gain, rolling_mean. apply rolling_before_window; [lia|].
    now rewrite length_where, length_diff. }
  assert (Hl : nth_error (rsi_loss 14 close) i = Some f_nan).
  { unfold rsi_loss, rolling_mean. apply rolling_before_window; [lia|].
    now rewrite length_map, length_where, length_diff. }
  rewrite (nth_error_zip_with f_div _ _ _ Hg Hl). cbn [option_map].
  now rewrite Hdivl, Hadd, Hdivr, Hsub.
Qed.

Lemma indicators_warm_up (d : DataFrame F) :
  nan_propagates F ->
  let t := indicators_frame d in
  undefined_before t "SMA" 19 /\ undefined_before t "STD" 19
  /\ undefined_before t "Upper_Band" 19 /\ undefined_before t "Lower_Band" 19
  /\ undefined_before t "RSI" 13.
Proof.
  intros Hnan. cbv zeta. unfold undefined_before.
  rewrite close_of_indicators_frame.
  assert (Hsma : forall i, (i < 19)%nat -> (i < List.length (close_of d))%nat ->
                   nth_error (rolling_mean 20 (close_of d)) i = Some f_nan).
  { intros i H1 H2. apply rolling_before_window; [lia|assumption]. }
  assert (Hstd : forall i, (i < 19)%nat -> (i < List.length (close_of d))%nat ->
                   nth_error (map (fun x => f_mul x (f_of_Z 2))
                                (rolling_std 20 (close_of d))) i
                   = Some f_nan).
  { intros i H1 H2. rewrite nth_error_map.
    unfold rolling_std. rewrite rolling_before_window by (lia || assumption).
    cbn [option_map]. destruct Hnan as (_ & _ & _ & _ & Hmul & _).
    now rewrite Hmul. }
  repeat split; intros i H1 H2;
    destruct (indicator_cells d i) as (E1 & E2 & E3 & E4 & E5).
  - rewrite E1. now apply Hsma.
  - rewrite E2. apply rolling_before_window; [lia|assumption].
  - rewrite E3. rewrite (nth_error_zip_with f_add _ _ _ (Hsma i H1 H2)
                           (Hstd i H1 H2)).
    destruct Hnan as (Hadd & _). now rewrite Hadd.
  - rewrite E4. rewrite (nth_error_zip_with f_sub _ _ _ (Hsma i H1 H2)
                           (Hstd i H1 H2)).
    destruct Hnan as (_ & _ & Hsub & _). now rewrite Hsub.
  - rewrite E5. now apply rsi_before_window.
Qed.

End WarmUp.

(** X16.  After [_add_indicators], in any float arithmetic in which NaN
    propagates: the Close column of each table is as it was; in both
    tables the first 19 rows of SMA, STD, Upper_Band and Lower_Band and
    the first 13 rows of RSI are NaN; in the monthly table the first 9
    rows of MA_10, the first 19 of MA_20 and the first 59 of MA_60 are
    NaN, so that a monthly table of fewer than 60 rows has no MA_60
    value at all. *)
Theorem indicators_start_undefined
        {F : Type} {FL : Float F} (st : State F) (monthly_df daily_df : ref)
        (dm dd : DataFrame F) :
  nan_propagates F ->
  monthly_df <> daily_df ->
  frame_at st monthly_df dm -> frame_at st daily_df dd ->
  has_close dm -> has_close dd ->
  exists st' tm td,
    _add_indicators monthly_df daily_df st
    = (Returns (monthly_df, daily_df), st')
    /\ frame_at st' monthly_df tm /\ frame_at st' daily_df td
    /\ close_of tm = close_of dm /\ close_of td = close_of dd
    /\ Forall (fun t =>
                 undefined_before t "SMA" 19 /\ undefined_before t "STD" 19
                 /\ undefined_before t "Upper_Band" 19
                 /\ undefined_before t "Lower_Band" 19
                 /\ undefined_before t "RSI" 13) [tm; td]
    /\ undefined_before tm "MA_10" 9 /\ undefined_before tm "MA_20" 19
    /\ undefined_before tm "MA_60" 59.
Proof.
  intros Hnan Hne Hm Hd Cm Cd.
  eexists _, _, _. split; [apply (add_indicators_run Hne Hm Hd Cm Cd)|].
  split.
  { eapply frame_at_put. apply frame_at_put_other; [assumption|].
    eapply frame_at_put; eauto. }
  split.
  { apply frame_at_put_other; [congruence|]. eapply frame_at_put.
    apply frame_at_put_other; [congruence|]. eassumption. }
  split; [now rewrite close_of_moving_averages_frame, close_of_indicators_frame|].
  split; [apply close_of_indicators_frame|].
  pose proof (@indicators_warm_up _ _ dm Hnan) as Wm.
  pose proof (@indicators_warm_up _ _ dd Hnan) as Wd.
  cbv zeta in Wm, Wd.
  split.
  - constructor; [|constructor; [exact Wd|constructor]].
    destruct Wm as (W1 & W2 & W3 & W4 & W5).
    unfold undefined_before in *.
    rewrite close_of_moving_averages_frame.
    repeat split; intros i H1 H2;
      rewrite moving_averages_keep by reflexivity; auto.
  - unfold undefined_before. rewrite close_of_moving_averages_frame.
    rewrite close_of_indicators_frame.
    repeat split; intros i H1 H2;
      destruct (moving_average_cells (indicators_frame dm) i) as (E1 & E2 & E3);
      rewrite close_of_indicators_frame in E1, E2, E3.
    + rewrite E1. apply rolling_before_window; [lia|assumption].
    + rewrite E2. apply rolling_before_window; [lia|assumption].
    + rewrite E3. apply rolling_before_window; [lia|assumption].
Qed.

Lemma sample_table_has_close : has_close sample_table.
Proof. eexists. reflexivity. Qed.

Lemma indicators_start_undefined_witness :
  exists st' tm td,
    _add_indicators 0 1 two_tables = (Returns (0%nat, 1%nat), st')
    /\ frame_at st' 0 tm /\ frame_at st' 1 td
    /\ close_of tm = close_of sample_table
    /\ close_of td = close_of sample_table
    /\ Forall (fun t =>
                 undefined_before t "SMA" 19 /\ undefined_before t "STD" 19
                 /\ undefined_before t "Upper_Band" 19
                 /\ undefined_before t "Lower_Band" 19
                 /\ undefined_before t "RSI" 13) [tm; td]
    /\ undefined_before tm "MA_10" 9 /\ undefined_before tm "MA_20" 19
    /\ undefined_before tm "MA_60" 59.
Proof.
  exact (@indicators_start_undefined _ _ two_tables 0%nat 1%nat
           sample_table sample_table nan_propagates_b64 (@O_S 0)
           eq_refl eq_refl sample_table_has_close sample_table_has_close).
Defined.

(** X17.  In the monthly table [_add_indicators] leaves, whatever the
    float arithmetic, the column MA_20 is the column SMA over again:
    both are the 20-period rolling mean of Close. *)
Theorem monthly_ma20_repeats_sma
        {F : Type} {FL : Float F} (st : State F) (monthly_df daily_df : ref)
        (dm dd : DataFrame F) :
  monthly_df <> daily_df ->
  frame_at st monthly_df dm -> frame_at st daily_df dd ->
  has_close dm -> has_close dd ->
  exists st' tm,
    _add_indicators monthly_df daily_df st
    = (Returns (monthly_df, daily_df), st')
    /\ frame_at st' monthly_df tm
    /\ lookup "SMA" (df_columns tm)
       = Some (FloatCol (rolling_mean 20 (close_of dm)))
    /\ lookup "MA_20" (df_columns tm) = lookup "SMA" (df_columns tm).
Proof.
  intros Hne Hm Hd Cm Cd.
  eexists _, _. split; [apply (add_indicators_run Hne Hm Hd Cm Cd)|].
  split.
  { eapply frame_at_put. apply frame_at_put_other; [assumption|].
    eapply frame_at_put; eauto. }
  assert (Hsma : lookup "SMA"
                   (df_columns (moving_averages_frame (indicators_frame dm)))
                 = Some (FloatCol (rolling_mean 20 (close_of dm)))).
  { unfold moving_averages_frame. rewrite !lookup_df_assign_ne by reflexivity.
    unfold indicators_frame, macd_frame.
    rewrite !lookup_df_assign_ne by reflexivity.
    unfold rsi_frame. rewrite !lookup_df_assign_ne by reflexivity.
    unfold bollinger_frame. rewrite !lookup_df_assign_ne by reflexivity.
    now rewrite lookup_df_assign_eq. }
  split; [exact Hsma|]. rewrite Hsma.
  unfold moving_averages_frame. rewrite !lookup_df_assign_ne by reflexivity.
  rewrite lookup_df_assign_eq. now rewrite close_of_indicators_frame.
Qed.

Lemma monthly_ma20_repeats_sma_witness :
  exists st' tm,
    _add_indicators 0 1 two_tables = (Returns (0%nat, 1%nat), st')
    /\ frame_at st' 0 tm
    /\ lookup "SMA" (df_columns tm)
       = Some (FloatCol (rolling_mean 20 (close_of sample_table)))
    /\ lookup "MA_20" (df_columns tm) = lookup "SMA" (df_columns tm).
Proof.
  exact (@monthly_ma20_repeats_sma _ _ two_tables 0%nat 1%nat
           sample_table sample_table (@O_S 0)
           eq_refl eq_refl sample_table_has_close sample_table_has_close).
Defined.

(* ------------------------------------------------------------------ *)
(** ** The bands around the mean *)

(** X18.  Over exact arithmetic, on a table whose [Close] is finite, at
    every row with 20 periods of history the three Bollinger values are
    numbers with Lower_Band <= SMA <= Upper_Band, and the two bands lie
    at the same distance from SMA. *)
Theorem bands_bracket_the_mean
        (st : State Ideal.t) (df : ref) (d : DataFrame Ideal.t)
        (close : list R) :
  frame_at st df d ->
  lookup "Close" (df_columns d) = Some (FloatCol (map Ideal.XFin close)) ->
  exists d',
    _calculate_bollinger_bands df 20 (f_of_Z 2) st = (Returns df, put df d' st)
    /\ forall i, (19 <= i < List.length close)%nat ->
         exists lower sma upper,
           cell d' "Lower_Band" i = Some (Ideal.XFin lower)
           /\ cell d' "SMA" i = Some (Ideal.XFin sma)
           /\ cell d' "Upper_Band" i = Some (Ideal.XFin upper)
           /\ (lower <= sma <= upper)%R
           /\ (upper - sma = sma - lower)%R.
Proof.
  intros Hd Hc. exists (bollinger_frame 20 (f_of_Z 2) d). split.
  - apply bollinger_run; [assumption|]. eexists; eassumption.
  - intros i Hi.
    destruct (@bollinger_cells d close i Hc Hi) as (Hsma & _ & Hup & Hlo).
    eexists _, _, _. split; [exact Hlo|]. split; [exact Hsma|].
    split; [exact Hup|].
    pose proof (R_sqrt.sqrt_pos
                  (mean_square_deviation (window_values close 20 i)
                     (sma_spec close i) 19)) as Hs.
    fold (sample_std_spec close i) in Hs.
    split; [split|]; lra.
Qed.

Lemma bands_bracket_the_mean_witness :
  exists d',
    _calculate_bollinger_bands 0 20 (f_of_Z 2)
      (one_table (close_table (map Ideal.XFin spike_closes)))
    = (Returns 0%nat,
       put 0 d' (one_table (close_table (map Ideal.XFin spike_closes))))
    /\ exists lower sma upper,
         cell d' "Lower_Band" 19 = Some (Ideal.XFin lower)
         /\ cell d' "SMA" 19 = Some (Ideal.XFin sma)
         /\ cell d' "Upper_Band" 19 = Some (Ideal.XFin upper)
         /\ (lower <= sma <= upper)%R
         /\ (upper - sma = sma - lower)%R.
Proof.
  destruct (@bands_bracket_the_mean
              (one_table (close_table (map Ideal.XFin spike_closes))) 0%nat
              (close_table (map Ideal.XFin spike_closes)) spike_closes
              eq_refl eq_refl) as [d' [Hrun Hcells]].
  exists d'. split; [exact Hrun|].
  apply (Hcells 19%nat). simpl. lia.
Defined.

(* ------------------------------------------------------------------ *)
(** ** A flat series *)

Lemma nth_repeat_lt {A : Type} (c d : A) (n j : nat) :
  (j < n)%nat -> nth j (repeat c n) d = c.
Proof.
  revert j. induction n as [|n IH]; intros [|j] H; simpl; try lia; auto.
  apply IH. lia.
Qed.

(** An exponential average of values that are all [v] so far is [v]. *)
Lemma ema_spec_constant (alpha v : R) (xs : list R) (t : nat) :
  (forall j, (j <= t)%nat -> nth j xs 0%R = v) -> ema_spec alpha xs t = v.
Proof.
  induction t as [|t IH]; intros H; simpl.
  - apply H. lia.
  - rewrite IH by (intros j Hj; apply H; lia).
    rewrite (H (S t)) by lia. lra.
Qed.

Lemma nth_map_seq (f : nat -> R) (n j : nat) :
  (j < n)%nat -> nth j (map f (seq 0 n)) 0%R = f j.
Proof.
  intros H. apply nth_error_nth. now apply nth_error_map_seq.
Qed.

(** X19.  Over exact arithmetic, on a table whose closes are all the
    same number, both exponential averages equal that number at every
    row, and MACD, Signal_Line and MACD_Histogram are 0 at every row. *)
Theorem flat_closes_give_zero_macd
        (st : State Ideal.t) (df : ref) (d : DataFrame Ideal.t)
        (c : R) (n : nat) :
  frame_at st df d ->
  lookup "Close" (df_columns d)
  = Some (FloatCol (map Ideal.XFin (repeat c n))) ->
  exists d',
    _calculate_macd df 12 26 9 st = (Returns df, put df d' st)
    /\ forall t, (t < n)%nat ->
         cell d' "EMA_fast" t = Some (Ideal.XFin c)
         /\ cell d' "EMA_slow" t = Some (Ideal.XFin c)
         /\ cell d' "MACD" t = Some (Ideal.XFin 0)
         /\ cell d' "Signal_Line" t = Some (Ideal.XFin 0)
         /\ cell d' "MACD_Histogram" t = Some (Ideal.XFin 0).
Proof.
  intros Hd Hc. exists (macd_frame 12 26 9 d). split.
  - apply macd_run; [assumption|]. eexists; eassumption.
  - intros t Ht.
    assert (Hlen : (t < List.length (repeat c n))%nat)
      by now rewrite repeat_length.
    destruct (@macd_cells d (repeat c n) t Hc Hlen)
      as (Hf & Hs & Hm & Hsig & Hh).
    assert (Hema : forall alpha j, (j < n)%nat ->
                     ema_spec alpha (repeat c n) j = c).
    { intros alpha j Hj. apply ema_spec_constant.
      intros k Hk. apply nth_repeat_lt. lia. }
    assert (Hmacd : forall j, (j < n)%nat -> macd_spec (repeat c n) j = 0%R).
    { intros j Hj. unfold macd_spec. rewrite !Hema by assumption. lra. }
    assert (Hsignal : signal_spec (repeat c n) t = 0%R).
    { unfold signal_spec. apply ema_spec_constant. intros j Hj.
      rewrite repeat_length. rewrite nth_map_seq by lia. apply Hmacd. lia. }
    rewrite Hf, Hs, Hm, Hsig, Hh.
    rewrite !Hema, Hmacd, Hsignal by assumption.
    repeat split. do 2 f_equal. lra.
Qed.

Lemma flat_closes_give_zero_macd_witness :
  exists d',
    _calculate_macd 0 12 26 9 (one_table (close_table flat_closes))
    = (Returns 0%nat, put 0 d' (one_table (close_table flat_closes)))
    /\ cell d' "MACD" 13 = Some (Ideal.XFin 0).
Proof.
  destruct (@flat_closes_give_zero_macd
              (one_table (close_table flat_closes)) 0%nat
              (close_table flat_closes) 10%R 14%nat eq_refl eq_refl)
    as [d' [Hrun Hcells]].
  exists d'. split; [exact Hrun|].
  apply (Hcells 13%nat). lia.
Defined.

(* ------------------------------------------------------------------ *)
(** ** What the validation lets through *)

Lemma lookup_rev_None {V : Type} (k : string) (l : list (string * V)) :
  lookup k l = None -> lookup k (rev l) = None.
Proof.
  rewrite !lookup_None_keys. intros H Hin. apply H.
  rewrite map_rev in Hin. now apply in_rev.
Qed.

(** X20.  [TradingDecision.model_validate_json] raises nothing but
    ValidationError.  What it accepts is an object that has all four
    keys; the record it returns carries the decision and the reason of
    the object as they are written, and its two numbers are what the
    field validators make of the last value of their keys.  For the
    percentage that is: an integer as it is, a boolean as 1 or 0, a
    float only when it has no fractional part and lies strictly between
    -2^63 and 2^63, and text only when the library reads an integer in
    it. *)
Theorem validation_needs_the_four_fields
        {F : Type} {FL : Float F} (lax : Lax F) (c : Content F) :
  match model_validate_json lax c with
  | Raises e => exn_class e = "ValidationError"%string
  | Returns r =>
      exists members,
        c = Json (JObject members)
        /\ (forall k, In k (required trading_decision_schema) ->
                      lookup k members <> None)
        /\ lookup "decision" (rev members) = Some (JString (decision r))
        /\ lookup "reason" (rev members) = Some (JString (reason r))
        /\ validate_float lax "expected_next_day_price"
             (lookup "expected_next_day_price" (rev members))
           = Returns (expected_next_day_price r)
        /\ match lookup "percentage" (rev members) with
           | Some (JInt z) => percentage r = z
           | Some (JBool b) => percentage r = (if b then 1 else 0)%Z
           | Some (JFloat x) =>
               f_to_int x = Some (percentage r)
               /\ (- 2 ^ 63 < percentage r < 2 ^ 63)%Z
           | Some (JString text) => int_of_text lax text = Some (percentage r)
           | _ => False
           end
  end.
Proof.
  destruct c as [|text|j]; try reflexivity.
  destruct j as [| | | | | |members]; try reflexivity.
  unfold model_validate_json.
  destruct (lookup "decision" (rev members)) as [[| | | |d| |]|] eqn:Ed;
    try reflexivity.
  cbn [validate_str].
  destruct (validate_int lax "percentage" (lookup "percentage" (rev members)))
    as [p|e] eqn:Ep.
  2:{ unfold validate_int in Ep.
      destruct (lookup "percentage" (rev members)) as [[| | |x|t| |]|];
        try (injection Ep as <-; reflexivity); try discriminate.
      - destruct (f_to_int x) as [z|].
        + destruct ((- 2 ^ 63 <? z) && (z <? 2 ^ 63))%Z; [discriminate|].
          injection Ep as <-. reflexivity.
        + injection Ep as <-. reflexivity.
      - destruct (int_of_text lax t); [discriminate|].
        injection Ep as <-. reflexivity. }
  destruct (lookup "reason" (rev members)) as [[| | | |r| |]|] eqn:Er;
    try reflexivity.
  cbn [validate_str].
  destruct (validate_float lax "expected_next_day_price"
              (lookup "expected_next_day_price" (rev members)))
    as [x|e] eqn:Ex.
  2:{ unfold validate_float in Ex.
      destruct (lookup "expected_next_day_price" (rev members))
        as [[| |z| |t| |]|];
        try (injection Ex as <-; reflexivity); try discriminate.
      - destruct (int64 z); [discriminate|].
        destruct (float_of_long lax z); [discriminate|].
        injection Ex as <-. reflexivity.
      - destruct (float_of_text lax t); [discriminate|].
        injection Ex as <-. reflexivity. }
  exists members. split; [reflexivity|].
  split; [|split; [exact Ed|split; [exact Er|split; [exact Ex|]]]].
  - intros k Hk Hnone. apply lookup_rev_None in Hnone.
    simpl in Hk. destruct Hk as [<-|[<-|[<-|[<-|[]]]]].
    + congruence.
    + rewrite Hnone in Ep. discriminate.
    + congruence.
    + rewrite Hnone in Ex. discriminate.
  - cbn [percentage]. unfold validate_int in Ep.
    destruct (lookup "percentage" (rev members)) as [[| |z|y|t| |]|];
      try discriminate.
    + now injection Ep.
    + now injection Ep.
    + destruct (f_to_int y) as [z|]; [|discriminate].
      destruct ((- 2 ^ 63 <? z) && (z <? 2 ^ 63))%Z eqn:Eb; [|discriminate].
      injection Ep as <-. split; [reflexivity|].
      apply andb_prop in Eb. destruct Eb as [E1 E2].
      apply Z.ltb_lt in E1. apply Z.ltb_lt in E2. split; assumption.
    + destruct (int_of_text lax t); [|discriminate]. now injection Ep as <-.
Qed.

(* ------------------------------------------------------------------ *)
(** ** The ledger *)

Lemma next_row_id_above {F : Type} (rows : list (LedgerRow F)) (r : LedgerRow F) :
  In r rows -> (row_id r < next_row_id rows)%Z.
Proof.
  unfold next_row_id. induction rows as [|x rows IH]; [contradiction|].
  cbn [map fold_right]. intros [->|H]; [lia|]. specialize (IH H). lia.
Qed.

Lemma next_row_id_positive {F : Type} (rows : list (LedgerRow F)) :
  (1 <= next_row_id rows)%Z.
Proof.
  unfold next_row_id.
  assert (H : (0 <= fold_right Z.max 0 (map (@row_id F) rows))%Z).
  { induction rows as [|x rows IH]; cbn [map fold_right]; lia. }
  lia.
Qed.

(** X21.  [_record_trading_decision] writes when the percentage fits the
    64-bit INTEGER column and the key has a next value within 64 bits:
    it then appends exactly one row and leaves the rows that were there,
    the heap, the trace and the messages alone.  The row carries the
    stock of the advisor, the time of the write and the decision,
    percentage and reason it was given; its key is positive, fits in 64
    bits and is greater than the key of every earlier row, so keys that
    were distinct stay distinct.  In every other case it raises and
    leaves the whole state as it was: OverflowError for a percentage
    beyond 64 bits, OperationalError when the keys are used up. *)
Theorem record_appends_one_row_with_a_new_key
        {F : Type} {FL : Float F} (w : World F) (stock : string)
        (d : DecisionDict F) (st : State F) :
  if int64 (dict_Percentage d) && int64 (next_row_id (ledger st)) then
    exists row,
      _record_trading_decision w stock d st
      = (Returns tt, with_ledger (ledger st ++ [row]) st)
      /\ Stock row = stock /\ Time row = w_now w
      /\ Decision row = dict_Decision d
      /\ Percentage row = dict_Percentage d
      /\ Reason row = dict_Reason d
      /\ (1 <= row_id row < 2 ^ 63)%Z
      /\ (- 2 ^ 63 <= Percentage row < 2 ^ 63)%Z
      /\ (forall r, In r (ledger st) -> (row_id r < row_id row)%Z)
      /\ (NoDup (map (@row_id F) (ledger st)) ->
          NoDup (map (@row_id F) (ledger st ++ [row])))
  else
    _record_trading_decision w stock d st
    = (Raises (if int64 (dict_Percentage d) then table_full
               else integer_overflow), st).
Proof.
  unfold _record_trading_decision.
  destruct (int64 (dict_Percentage d)) eqn:Ip; cbn [negb andb];
    [|reflexivity].
  destruct (int64 (next_row_id (ledger st))) eqn:Ik; cbn [negb];
    [|reflexivity].
  eexists. split; [reflexivity|].
  cbn [Stock Time Decision Percentage Reason row_id].
  unfold int64 in Ip, Ik.
  apply andb_prop in Ip. destruct Ip as [Ip1 Ip2].
  apply andb_prop in Ik. destruct Ik as [_ Ik2].
  apply Z.leb_le in Ip1. apply Z.ltb_lt in Ip2. apply Z.ltb_lt in Ik2.
  repeat split; auto.
  - apply next_row_id_positive.
  - intros r Hr. now apply next_row_id_above.
  - intros Hnd. rewrite map_app. cbn [map row_id].
    apply NoDup_app; [exact Hnd|repeat constructor; simpl; tauto|].
    intros k Hk [<-|[]]. apply in_map_iff in Hk.
    destruct Hk as (r & Hid & Hr).
    pose proof (next_row_id_above _ _ Hr). lia.
Qed.

(* ------------------------------------------------------------------ *)
(** ** The guards of the price and of the translation *)

(** X22.  [get_current_price] never raises and makes exactly one call.
    It returns the first entry of the answer rounded to two decimals,
    whatever follows it; when the request raises, when the answer is
    empty and when its first entry is no number it returns [None]. *)
Theorem price_fetch_never_raises
        {F : Type} {FL : Float F} (w : World F) (stock : string)
        (st : State F) :
  exists p,
    get_current_price w stock st = (Returns p, log [EvLatestPrice] st)
    /\ p = match w_latest_price w stock with
           | Returns (Some x :: _) => Some (f_round 2 x)
           | _ => None
           end.
Proof.
  unfold get_current_price, try_except, bind, call, raise, ret.
  destruct (w_latest_price w stock) as [[|[x|] q]|e]; eexists; split;
    reflexivity.
Qed.



(* ------------------------------------------------------------------ *)
(** ** RSI of a steady move *)

Lemma Rsum_nonneg (l : list R) : Forall (fun x => 0 <= x)%R l -> (0 <= Rsum l)%R.
Proof. induction 1; simpl; lra. Qed.

Lemma Rsum_positive (l : list R) :
  Forall (fun x => 0 <= x)%R l -> Exists (fun x => 0 < x)%R l -> (0 < Rsum l)%R.
Proof.
  induction 1 as [|x l Hx Hl IH]; intros He; inversion He; subst; simpl.
  - pose proof (Rsum_nonneg Hl). lra.
  - specialize (IH H0). lra.
Qed.

Lemma Rsum_zero (l : list R) : Forall (fun x => x = 0)%R l -> Rsum l = 0%R.
Proof. induction 1; simpl; lra. Qed.

Section IdealMoves.
Import Ideal.
Local Open Scope R_scope.

Lemma nth_error_diff_from (p : R) (xs : list R) (t : nat) :
  (t < List.length xs)%nat ->
  nth_error (diff_from (XFin p) (map XFin xs)) t
  = Some (XFin (nth t xs 0 - nth t (p :: xs) 0)).
Proof.
  revert p t. induction xs as [|x xs IH]; intros p [|t] Ht; simpl in Ht;
    try lia.
  - reflexivity.
  - cbn [map diff_from nth_error]. rewrite IH by lia. reflexivity.
Qed.

Lemma nth_error_diff (xs : list R) (t : nat) :
  (t < List.length xs)%nat ->
  nth_error (diff (map XFin xs)) t
  = Some (match t with O => XNaN | S _ => XFin (change xs t) end).
Proof.
  destruct xs as [|x xs]; simpl List.length; [lia|].
  destruct t as [|t]; intros Ht; [reflexivity|].
  cbn [map diff nth_error]. rewrite nth_error_diff_from by lia.
  unfold change. replace (S t - 1)%nat with t by lia. reflexivity.
Qed.

Lemma change_first (xs : list R) : change xs 0 = 0.
Proof. unfold change. simpl. lra. Qed.

(** The series the average gain is taken of. *)
Lemma gain_input (xs : list R) :
  let delta := diff (map XFin xs) in
  where_ delta (map (fun x => f_gtb x (f_of_Z 0)) delta) (f_of_Z 0)
  = map XFin (map (fun t => Rmax (change xs t) 0) (seq 0 (List.length xs))).
Proof.
  cbv zeta. rewrite where_map, map_map.
  match goal with
  | |- ?l = _ =>
      assert (Hlen : List.length l = List.length xs)
        by (now rewrite length_map, length_diff, length_map)
  end.
  rewrite <- Hlen. apply list_as_map_seq.
  intros t Ht. rewrite Hlen in Ht.
  rewrite nth_error_map, nth_error_diff by assumption. cbn [option_map].
  f_equal. destruct t as [|t].
  - cbn. rewrite change_first. unfold Rmax.
    destruct (Rle_dec 0 0); reflexivity.
  - cbn [f_gtb f_of_Z Ideal.float Ideal.gtb Ideal.ltb]. unfold Rltb, Rmax.
    destruct (Rlt_dec 0 (change xs (S t))), (Rle_dec (change xs (S t)) 0);
      first [reflexivity | lra | f_equal; lra].
Qed.

(** The series the average loss is taken of. *)
Lemma loss_input (xs : list R) :
  let delta := diff (map XFin xs) in
  map f_neg (where_ delta (map (fun x => f_ltb x (f_of_Z 0)) delta) (f_of_Z 0))
  = map XFin (map (fun t => Rmax (- change xs t) 0) (seq 0 (List.length xs))).
Proof.
  cbv zeta. rewrite where_map, !map_map.
  match goal with
  | |- ?l = _ =>
      assert (Hlen : List.length l = List.length xs)
        by (now rewrite length_map, length_diff, length_map)
  end.
  rewrite <- Hlen. apply list_as_map_seq.
  intros t Ht. rewrite Hlen in Ht.
  rewrite nth_error_map, nth_error_diff by assumption. cbn [option_map].
  f_equal. destruct t as [|t].
  - cbn. rewrite change_first. unfold Rmax.
    destruct (Rle_dec (- 0) 0); f_equal; lra.
  - cbn [f_ltb f_neg f_of_Z Ideal.float Ideal.ltb]. unfold Rltb, Rmax.
    destruct (Rlt_dec (change xs (S t)) 0), (Rle_dec (- change xs (S t)) 0);
      cbn [Ideal.neg]; first [reflexivity | lra | f_equal; lra].
Qed.

(** The window of a series given row by row. *)
Lemma window_of_rows (f : nat -> R) (n w i : nat) :
  (w <= i + 1)%nat -> (i < n)%nat ->
  window_values (map f (seq 0 n)) w i = map f (seq (i + 1 - w) w).
Proof.
  intros Hw Hi. unfold window_values, last_rows.
  apply map_ext_in. intros t Ht. apply in_seq in Ht.
  apply nth_map_seq. lia.
Qed.

(** The average gain and the average loss of a complete row. *)
Lemma average_gain_and_loss (xs : list R) (i : nat) :
  (13 <= i < List.length xs)%nat ->
  nth_error (rsi_gain 14 (map XFin xs)) i
  = Some (XFin (Rsum (map (fun t => Rmax (change xs t) 0) (seq (i - 13) 14))
                / 14))
  /\ nth_error (rsi_loss 14 (map XFin xs)) i
     = Some (XFin (Rsum (map (fun t => Rmax (- change xs t) 0)
                           (seq (i - 13) 14)) / 14)).
Proof.
  intros Hi. unfold rsi_gain, rsi_loss. cbv zeta.
  rewrite gain_input, loss_input.
  rewrite !rolling_mean_fin
    by (try lia; rewrite length_map, length_seq; lia).
  rewrite !window_of_rows by lia.
  replace (i + 1 - 14)%nat with (i - 13)%nat by lia.
  change (IZR (Z.of_nat 14)) with 14. split; reflexivity.
Qed.

(** The RSI of a row whose window rises throughout, or falls
    throughout. *)
Lemma rsi_steady (xs : list R) (i : nat) :
  (13 <= i < List.length xs)%nat ->
  ((forall t, (i - 13 <= t <= i)%nat -> (1 <= t)%nat -> 0 < change xs t) ->
   nth_error (rsi_series 14 (map XFin xs)) i = Some (XFin 100))
  /\ ((forall t, (i - 13 <= t <= i)%nat -> (1 <= t)%nat -> change xs t < 0) ->
      nth_error (rsi_series 14 (map XFin xs)) i = Some (XFin 0)).
Proof.
  intros Hi. destruct (average_gain_and_loss xs Hi) as [Hg Hl].
  destruct (rsi_cell_cases _ _ _ Hg Hl) as (_ & _ & Hpos & Hinf & _).
  assert (Hrows : forall (P : R -> Prop) (f : nat -> R),
             (forall t, (i - 13 <= t <= i)%nat -> P (f t)) ->
             Forall P (map f (seq (i - 13) 14))).
  { intros P f H. apply Forall_map, Forall_forall. intros t Ht.
    apply in_seq in Ht. apply H. lia. }
  assert (Hlast : forall (P : R -> Prop) (f : nat -> R),
             P (f i) -> Exists P (map f (seq (i - 13) 14))).
  { intros P f H. apply Exists_exists. exists (f i). split; [|exact H].
    apply in_map, in_seq. lia. }
  split; intros Hmove.
  - apply Hinf.
    + assert (E : Rsum (map (fun t => Rmax (- change xs t) 0) (seq (i - 13) 14))
                  = 0).
      { apply Rsum_zero, Hrows. intros t Ht. destruct t as [|t].
        - rewrite change_first. unfold Rmax. destruct (Rle_dec (- 0) 0); lra.
        - specialize (Hmove (S t) Ht ltac:(lia)). unfold Rmax.
          destruct (Rle_dec (- change xs (S t)) 0); lra. }
      rewrite E. lra.
    + assert (0 < Rsum (map (fun t => Rmax (change xs t) 0) (seq (i - 13) 14))).
      { apply Rsum_positive.
        - apply Hrows. intros t _. apply Rmax_r.
        - apply Hlast. specialize (Hmove i ltac:(lia) ltac:(lia)).
          unfold Rmax. destruct (Rle_dec (change xs i) 0); lra. }
      lra.
  - assert (Eg : Rsum (map (fun t => Rmax (change xs t) 0) (seq (i - 13) 14))
                 = 0).
    { apply Rsum_zero, Hrows. intros t Ht. destruct t as [|t].
      - rewrite change_first. unfold Rmax. destruct (Rle_dec 0 0); lra.
      - specialize (Hmove (S t) Ht ltac:(lia)). unfold Rmax.
        destruct (Rle_dec (change xs (S t)) 0); lra. }
    assert (Hlpos : 0 < Rsum (map (fun t => Rmax (- change xs t) 0)
                                (seq (i - 13) 14))).
    { apply Rsum_positive.
      - apply Hrows. intros t _. apply Rmax_r.
      - apply Hlast. specialize (Hmove i ltac:(lia) ltac:(lia)).
        unfold Rmax. destruct (Rle_dec (- change xs i) 0); lra. }
    destruct (Hpos ltac:(lra)) as [E _]. rewrite E, Eg.
    do 2 f_equal. unfold Rdiv. rewrite !Rmult_0_l, Rplus_0_r, Rinv_1. lra.
Qed.

End IdealMoves.

(** X24.  Over exact arithmetic, on a table whose [Close] is finite, at
    a row with 14 rows of history: if the close rose on every row of
    the window the RSI is exactly 100, and if it fell on every row of
    the window the RSI is exactly 0.  (Row 0 has no change and counts
    for neither.) *)
Theorem rsi_of_a_steady_move
        (st : State Ideal.t) (df : ref) (d : DataFrame Ideal.t)
        (xs : list R) (i : nat) :
  frame_at st df d ->
  lookup "Close" (df_columns d) = Some (FloatCol (map Ideal.XFin xs)) ->
  (13 <= i < List.length xs)%nat ->
  exists d',
    _calculate_rsi df 14 st = (Returns df, put df d' st)
    /\ ((forall t, (i - 13 <= t <= i)%nat -> (1 <= t)%nat ->
                   (0 < change xs t)%R) ->
        cell d' "RSI" i = Some (Ideal.XFin 100))
    /\ ((forall t, (i - 13 <= t <= i)%nat -> (1 <= t)%nat ->
                   (change xs t < 0)%R) ->
        cell d' "RSI" i = Some (Ideal.XFin 0)).
Proof.
  intros Hd Hc Hi. exists (rsi_frame 14 d). split.
  - apply rsi_run; [assumption|]. eexists; eassumption.
  - assert (Hcell : cell (rsi_frame 14 d) "RSI" i
                    = nth_error (rsi_series 14 (map Ideal.XFin xs)) i).
    { unfold cell, rsi_frame. rewrite lookup_df_assign_eq.
      now rewrite (close_of_has_close _ Hc). }
    rewrite Hcell. now apply rsi_steady.
Qed.

Lemma rising_closes_rise (t : nat) :
  (13 - 13 <= t <= 13)%nat -> (1 <= t)%nat -> (0 < change rising_closes t)%R.
Proof.
  intros Ht H1. unfold change, rising_closes.
  rewrite !nth_map_seq by lia.
  replace t with (S (t - 1)) at 1 by lia. rewrite S_INR. lra.
Qed.

Lemma rsi_of_a_steady_move_witness :
  exists d',
    _calculate_rsi 0 14 (one_table (close_table (map Ideal.XFin rising_closes)))
    = (Returns 0%nat,
       put 0 d' (one_table (close_table (map Ideal.XFin rising_closes))))
    /\ cell d' "RSI" 13 = Some (Ideal.XFin 100).
Proof.
  destruct (@rsi_of_a_steady_move
              (one_table (close_table (map Ideal.XFin rising_closes))) 0%nat
              (close_table (map Ideal.XFin rising_closes)) rising_closes
              13%nat eq_refl eq_refl (conj (le_n 13) (le_n 14)))
    as (d' & Hrun & Hrise & _).
  exists d'. split; [exact Hrun|]. apply Hrise. exact rising_closes_rise.
Defined.

(* ------------------------------------------------------------------ *)
(** ** The transcript *)

Lemma lstrip_first_upto (n : nat) (s : string) :
  (String.length s <= n)%nat -> leading_space (lstrip s) = false.
Proof.
  revert s. induction n as [|n IH]; intros s Hn.
  - destruct s; [reflexivity|simpl in Hn; lia].
  - destruct s as [|a r1]; [reflexivity|]. cbn [lstrip].
    cbn [String.length] in Hn.
    destruct (is_space a) eqn:E1; [apply IH; lia|].
    destruct r1 as [|b r2]; [cbn; exact E1|].
    cbn [String.length] in Hn.
    destruct (is_space2 a b) eqn:E2; [apply IH; lia|].
    destruct r2 as [|c r3]; [cbn; now rewrite E1, E2|].
    cbn [String.length] in Hn.
    destruct (is_space3 a b c) eqn:E3; [apply IH; lia|].
    cbn. now rewrite E1, E2, E3.
Qed.

Lemma lstrip_first (s : string) : leading_space (lstrip s) = false.
Proof. exact (lstrip_first_upto s (le_n _)). Qed.

Lemma lstrip_fixed (s : string) : leading_space s = false -> lstrip s = s.
Proof.
  destruct s as [|a [|b [|c r]]]; cbn [leading_space lstrip]; intros H.
  - reflexivity.
  - now rewrite H.
  - apply orb_false_elim in H. destruct H as [H1 H2]. now rewrite H1, H2.
  - apply orb_false_elim in H. destruct H as [H H3].
    apply orb_false_elim in H. destruct H as [H1 H2].
    now rewrite H1, H2, H3.
Qed.

(** A string that starts with a white-space character still does when
    it is continued. *)
Lemma leading_space_app (p u : string) :
  leading_space p = true -> leading_space (p ++ u)%string = true.
Proof.
  destruct p as [|a [|b [|c p]]]; cbn [leading_space append];
    [discriminate| | |]; intros H.
  - destruct u as [|b [|c u]]; cbn [leading_space]; now rewrite H.
  - destruct u as [|c u]; cbn [leading_space]; now rewrite H.
  - exact H.
Qed.

Lemma rstrip_cons (c : ascii) (rest : string) :
  rstrip (String c rest)
  = if whitespace (String c (rstrip rest)) then EmptyString
    else String c (rstrip rest).
Proof. reflexivity. Qed.

(** What [rstrip] leaves is the beginning of the string. *)
Lemma rstrip_prefix (s : string) : exists u, s = (rstrip s ++ u)%string.
Proof.
  induction s as [|c rest [u IH]]; [exists EmptyString; reflexivity|].
  rewrite rstrip_cons.
  destruct (whitespace (String c (rstrip rest))).
  - eexists. reflexivity.
  - exists u. cbn [append]. now rewrite <- IH.
Qed.

Lemma rstrip_first (s : string) :
  leading_space s = false -> leading_space (rstrip s) = false.
Proof.
  intros H. destruct (leading_space (rstrip s)) eqn:E; [|reflexivity].
  destruct (rstrip_prefix s) as [u Hu].
  apply (leading_space_app _ u) in E. rewrite <- Hu in E. congruence.
Qed.

Lemma rstrip_last (s : string) : trailing_space (rstrip s) = false.
Proof.
  induction s as [|c rest IH]; [reflexivity|]. rewrite rstrip_cons.
  destruct (whitespace (String c (rstrip rest))) eqn:E; [reflexivity|].
  cbn [trailing_space]. now rewrite E, IH.
Qed.

Lemma rstrip_fixed (s : string) : trailing_space s = false -> rstrip s = s.
Proof.
  induction s as [|c rest IH]; [reflexivity|]. cbn [trailing_space].
  intros H. apply orb_false_elim in H. destruct H as [Hw Ht].
  rewrite rstrip_cons, (IH Ht), Hw. reflexivity.
Qed.

(** What [strip] returns has no white space at either end, and is left
    alone by a second [strip]. *)
Lemma strip_ends (s : string) :
  leading_space (strip s) = false /\ trailing_space (strip s) = false
  /\ strip (strip s) = strip s.
Proof.
  unfold strip.
  pose proof (rstrip_first _ (lstrip_first s)) as Hfirst.
  split; [exact Hfirst|]. split; [apply rstrip_last|].
  rewrite (lstrip_fixed _ Hfirst). apply rstrip_fixed. apply rstrip_last.
Qed.

(** [strip] on white space outside ASCII, as CPython computes it:
    U+00A0 and U+0085 in front, U+2028 and U+3000 behind are removed;
    U+200B (zero width space, E2 80 8B) is no white space and stays. *)
Example strip_unicode_cases :
  strip (utf8 [194; 160; 32; 194; 133; 97; 32; 98; 226; 128; 168; 227; 128;
               128; 10])
  = "a b"%string
  /\ strip (utf8 [226; 128; 139; 97; 226; 128; 139])
     = utf8 [226; 128; 139; 97; 226; 128; 139]
  /\ strip (utf8 [32; 226; 128; 138; 225; 154; 128; 226; 129; 159])
     = EmptyString.
Proof. repeat split; vm_compute; reflexivity. Qed.

(** X25.  [get_youtube_transcript] never raises and makes exactly one
    call.  When the fetch returns, the text is the items joined by one
    space with the white space at both ends removed, the white space of
    [str.isspace()], ASCII or not: it neither starts nor ends with a
    white-space character and stripping it again changes nothing.  When
    the fetch raises, the text is the error notice with the message of
    the exception. *)
Theorem transcript_is_joined_and_stripped
        {F : Type} {FL : Float F} (w : World F) (st : State F) :
  exists text,
    get_youtube_transcript w st = (Returns text, log [EvTranscript] st)
    /\ match w_transcript w "rWl9ehSIiXc" with
       | Returns items =>
           text = strip (join " " items)
           /\ leading_space text = false
           /\ trailing_space text = false
           /\ strip text = text
       | Raises e => text = ("An error occurred: " ++ exn_msg e)%string
       end.
Proof.
  unfold get_youtube_transcript, try_except, bind, call, ret.
  destruct (w_transcript w "rWl9ehSIiXc") as [items|e].
  - eexists. split; [reflexivity|]. split; [reflexivity|].
    apply strip_ends.
  - eexists. split; reflexivity.
Qed.

(* ------------------------------------------------------------------ *)
(** ** The oracle in a run *)

(** X26.  In every run of [ai_stock_analysis] the oracle is asked at
    most once, and only after the price fetch has given a price: when
    the trace of the run has an oracle call, that call comes directly
    after the one price fetch, no other oracle call comes before or
    after it, and the price is there.  The ledger is either as it was
    or one row longer, and a row is written only in a run that asked
    the oracle. *)
Theorem run_asks_the_oracle_at_most_once
        {F : Type} {FL : Float F} (str_float : F -> string) (w : World F)
        (stock : string) (st : State F) :
  exists evs,
    trace (snd (ai_stock_analysis str_float w stock st)) = trace st ++ evs
    /\ (existsb is_oracle_call evs = false
        \/ exists before system user after,
             evs = before ++ [EvLatestPrice; EvOracle system user] ++ after
             /\ existsb is_oracle_call before = false
             /\ existsb is_price_fetch before = false
             /\ existsb is_oracle_call after = false
             /\ spot_price w stock <> None)
    /\ (ledger (snd (ai_stock_analysis str_float w stock st)) = ledger st
        \/ exists row,
             ledger (snd (ai_stock_analysis str_float w stock st))
             = ledger st ++ [row]
             /\ existsb is_oracle_call evs = true).
Proof.
  destruct (analysis_cases str_float w stock st) as (evs_h & Hh & Hcase).
  destruct (historicals_only Hh) as [Ho Hpf].
  destruct Hcase as [(e & s1 & _ & -> & Ht & Hl & _)
                    |[(e & s4 & _ & _ & -> & Ht & Hl & _)
                     |[(fgi & s5 & _ & _ & _ & -> & Ht & Hl & _)
                      |(fgi & cp & monthly & daily & s5 & _ & _ & Hp
                        & -> & Ht & Hl & _)]]]; cbn [snd].
  - exists evs_h. split; [exact Ht|]. split; [now left|now left].
  - eexists. split; [exact Ht|]. rewrite existsb_app, Ho.
    split; [now left|now left].
  - eexists. split; [exact Ht|]. rewrite existsb_app, Ho.
    split; [now left|now left].
  - assert (Hprice : spot_price w stock <> None) by congruence.
    set (before := evs_h ++ [EvGoogleNews; EvAlphaVantage; EvTranscript;
                             EvFearGreed]).
    assert (Hb : existsb is_oracle_call before = false
                 /\ existsb is_price_fetch before = false).
    { subst before. rewrite !existsb_app, Ho, Hpf. split; reflexivity. }
    destruct Hb as [Hbo Hbp].
    assert (Hsplit : forall tail,
               evs_h ++ fetch_events ++ tail
               = before ++ EvLatestPrice :: tail).
    { intros tail. subst before. unfold fetch_events.
      rewrite <- app_assoc. reflexivity. }
    destruct (decide str_float w stock monthly daily fgi cp s5)
      as [[v|e] s] eqn:Ed; cbn [snd].
    + apply decide_returns in Ed. cbv zeta in Ed.
      destruct Ed as (response & result & _ & _ & _ & _ & _ & _ & _ & ->).
      eexists. split.
      { cbn [trace with_ledger log with_trace]. rewrite Ht, <- !app_assoc.
        rewrite Hsplit. reflexivity. }
      split.
      * right. eexists before, _, _, [EvTranslate (reason result)].
        split; [reflexivity|]. repeat split; auto.
      * right. eexists. split.
        -- cbn [ledger with_ledger]. rewrite Hl. reflexivity.
        -- rewrite existsb_app, Hbo. reflexivity.
    + apply decide_raises in Ed.
      destruct Ed as (Hl' & _ & _ & evs' & Ht' & Hevs').
      exists (before ++ EvLatestPrice :: evs'). split.
      { rewrite Ht', Ht, <- !app_assoc. now rewrite Hsplit. }
      split; [|left; congruence].
      destruct Hevs' as [->|(usr & [->|(text & ->)])].
      * left. rewrite existsb_app, Hbo. reflexivity.
      * right. eexists before, _, usr, []. split; [reflexivity|].
        repeat split; auto.
      * right. eexists before, _, usr, [EvTranslate text].
        split; [reflexivity|]. repeat split; auto.
Qed.

(* ------------------------------------------------------------------ *)
(** ** The moving averages and the bands of a flat series *)

Lemma Rsum_repeat (c : R) (n : nat) : Rsum (repeat c n) = (INR n * c)%R.
Proof.
  induction n as [|n IH]; [simpl; lra|].
  cbn [repeat Rsum fold_right]. fold (Rsum (repeat c n)).
  rewrite IH, S_INR. lra.
Qed.

Lemma window_of_repeat (c : R) (n w i : nat) :
  (w <= i + 1)%nat -> (i < n)%nat ->
  window_values (repeat c n) w i = repeat c w.
Proof.
  intros Hw Hi. unfold window_values, last_rows.
  rewrite (map_ext_in _ (fun _ => c)).
  - generalize (i + 1 - w)%nat. induction w as [|k IH]; intros s;
      [reflexivity|]. cbn [seq map repeat]. f_equal. apply IH. lia.
  - intros t Ht. apply in_seq in Ht. apply nth_repeat_lt. lia.
Qed.

(** X27.  Over exact arithmetic, on a table whose [Close] is finite,
    [_calculate_moving_averages] stores in MA_10, MA_20 and MA_60, at
    every row with that many rows of history, the mean of the last 10,
    20 and 60 closes. *)
Theorem moving_averages_are_window_means
        (st : State Ideal.t) (df : ref) (d : DataFrame Ideal.t)
        (close : list R) :
  frame_at st df d ->
  lookup "Close" (df_columns d) = Some (FloatCol (map Ideal.XFin close)) ->
  exists d',
    _calculate_moving_averages df st = (Returns df, put df d' st)
    /\ forall i, (i < List.length close)%nat ->
         ((9 <= i)%nat ->
          cell d' "MA_10" i
          = Some (Ideal.XFin (Rsum (window_values close 10 i) / 10)))
         /\ ((19 <= i)%nat ->
             cell d' "MA_20" i
             = Some (Ideal.XFin (Rsum (window_values close 20 i) / 20)))
         /\ ((59 <= i)%nat ->
             cell d' "MA_60" i
             = Some (Ideal.XFin (Rsum (window_values close 60 i) / 60))).
Proof.
  intros Hd Hc. exists (moving_averages_frame d). split.
  - apply moving_averages_run; [assumption|]. eexists; eassumption.
  - intros i Hi.
    destruct (moving_average_cells d i) as (E1 & E2 & E3).
    rewrite (close_of_has_close _ Hc) in E1, E2, E3. cbn [as_float] in E1, E2, E3.
    rewrite E1, E2, E3.
    repeat split; intros Hw.
    + rewrite rolling_mean_fin by lia. reflexivity.
    + rewrite rolling_mean_fin by lia. reflexivity.
    + rewrite rolling_mean_fin by lia. reflexivity.
Qed.

Lemma moving_averages_are_window_means_witness :
  exists d',
    _calculate_moving_averages 0
      (one_table (close_table (map Ideal.XFin spike_closes)))
    = (Returns 0%nat,
       put 0 d' (one_table (close_table (map Ideal.XFin spike_closes))))
    /\ cell d' "MA_20" 19
       = Some (Ideal.XFin (Rsum (window_values spike_closes 20 19) / 20)).
Proof.
  destruct (@moving_averages_are_window_means
              (one_table (close_table (map Ideal.XFin spike_closes))) 0%nat
              (close_table (map Ideal.XFin spike_closes)) spike_closes
              eq_refl eq_refl) as [d' [Hrun Hcells]].
  exists d'. split; [exact Hrun|].
  apply (Hcells 19%nat); simpl; lia.
Defined.

(** X28.  Over exact arithmetic, on a table whose closes all equal one
    number, at every row with 20 periods of history SMA is that number,
    STD is 0 and both bands coincide with SMA. *)
Theorem flat_closes_collapse_the_bands
        (st : State Ideal.t) (df : ref) (d : DataFrame Ideal.t)
        (c : R) (n : nat) :
  frame_at st df d ->
  lookup "Close" (df_columns d)
  = Some (FloatCol (map Ideal.XFin (repeat c n))) ->
  exists d',
    _calculate_bollinger_bands df 20 (f_of_Z 2) st = (Returns df, put df d' st)
    /\ forall i, (19 <= i < n)%nat ->
         cell d' "SMA" i = Some (Ideal.XFin c)
         /\ cell d' "STD" i = Some (Ideal.XFin 0)
         /\ cell d' "Upper_Band" i = Some (Ideal.XFin c)
         /\ cell d' "Lower_Band" i = Some (Ideal.XFin c).
Proof.
  intros Hd Hc. exists (bollinger_frame 20 (f_of_Z 2) d). split.
  - apply bollinger_run; [assumption|]. eexists; eassumption.
  - intros i Hi.
    assert (Hlen : (19 <= i < List.length (repeat c n))%nat)
      by now rewrite repeat_length.
    destruct (@bollinger_cells d (repeat c n) i Hc Hlen)
      as (Hsma & Hstd & Hup & Hlo).
    assert (Esma : sma_spec (repeat c n) i = c).
    { unfold sma_spec. rewrite window_of_repeat by lia.
      rewrite Rsum_repeat.
      replace (INR 20) with 20%R by (simpl; lra). lra. }
    assert (Estd : sample_std_spec (repeat c n) i = 0%R).
    { unfold sample_std_spec, mean_square_deviation.
      rewrite Esma, window_of_repeat by lia.
      assert (E0 : Rsum (map (fun x => (x - c) * (x - c))%R (repeat c 20)) = 0%R).
      { apply Rsum_zero, Forall_map, Forall_forall. intros x Hx.
        apply repeat_spec in Hx. subst x. lra. }
      rewrite E0. unfold Rdiv. rewrite Rmult_0_l. apply R_sqrt.sqrt_0. }
    rewrite Hsma, Hstd, Hup, Hlo, Esma, Estd.
    repeat split; do 2 f_equal; lra.
Qed.

Lemma flat_closes_collapse_the_bands_witness :
  exists d',
    _calculate_bollinger_bands 0 20 (f_of_Z 2)
      (one_table (close_table (map Ideal.XFin (repeat 10%R 20))))
    = (Returns 0%nat,
       put 0 d' (one_table (close_table (map Ideal.XFin (repeat 10%R 20)))))
    /\ cell d' "STD" 19 = Some (Ideal.XFin 0).
Proof.
  destruct (@flat_closes_collapse_the_bands
              (one_table (close_table (map Ideal.XFin (repeat 10%R 20))))
              0%nat (close_table (map Ideal.XFin (repeat 10%R 20)))
              10%R 20%nat eq_refl eq_refl) as [d' [Hrun Hcells]].
  exists d'. split; [exact Hrun|].
  apply (Hcells 19%nat). lia.
Defined.
